(** * slack-thread-mcp: the job-thread lifecycle engine

    A shallow embedding of the thread ledger ([ThreadStore]), of the Slack
    client's watchdog ([startWaitingMonitor] / [cancelWaitingMonitor]), of the
    five MCP tools of [tools/slack-thread.ts] and of the five commands of
    [cli.ts], followed by the properties of the lifecycle that hold of them.

    Around that engine the development also embeds what feeds it and what it
    hands on: the argument parsers and the job-id resolution of both command
    lines, the readers of [.env] and of the global configuration file,
    [resolveConfig] and [loadEnvConfig], [main] of [cli.ts] from its
    arguments down to the command it runs, the texts that the Slack client
    posts, [getLastAssistantResponse], the rest of the ledger ([has],
    [delete], [list], the debounced [scheduleUpdate] / [flushUpdate]) and the
    older command line of [index.ts].

    Conventions.
    - A JavaScript [string | undefined] is an [option string]; truthiness is
      written out ([truthy], [js_or]).
    - The ledger's [Map<string, ThreadState>] is an association list kept in
      insertion order, as [Map.prototype.values()] yields it.
    - The Slack platform and the wall clock are oracles ([Env]); the requests
      issued to the platform are logged in [calls], oldest first.
    - Code runs in [M], a state monad over [Sys] whose exceptions keep the
      effects performed before the throw.
    - A character of a [string] stands for one code unit of the JavaScript
      string, so what is proved about the content of a string (white space,
      separators, length) is proved of strings whose code units are below
      256; the emoji of the texts are literals that are appended and compared
      only.  [process.env] and a plain object of options are maps from
      strings to strings.
    - [JSON.parse] is not modelled: a function that parses takes the parsed
      value, or the fact that parsing threw, as its argument.  The state file
      is the array it parses to, its elements typed as [loadFromDisk] casts
      them.
    - A path or a value that is the empty string is falsy, as in the
      source: a store with the empty path neither reads nor writes. *)

From Stdlib Require Import String List Bool Arith NArith Lia Ascii DecimalString.
Import ListNotations.
Local Open Scope string_scope.
Local Open Scope list_scope.

(** ** JavaScript values *)

Module JS.

(** [!!s] for a string: only the empty string is falsy. *)
Definition truthy (s : string) : bool := negb (s =? "").

(** [!!x] for [x : string | undefined]. *)
Definition truthy_opt (x : option string) : bool :=
  match x with
  | Some s => truthy s
  | None => false
  end.

(** [a || b] on [string | undefined]. *)
Definition js_or (a b : option string) : option string :=
  if truthy_opt a then a else b.

(** [a || d] when [d] is a string: the result is a string. *)
Definition or_default (a : option string) (d : string) : string :=
  match a with
  | Some s => if truthy s then s else d
  | None => d
  end.

(** [x !== false] and [x === true] for [x : boolean | undefined]. *)
Definition not_false (x : option bool) : bool :=
  match x with
  | Some false => false
  | _ => true
  end.

Definition is_true (x : option bool) : bool :=
  match x with
  | Some true => true
  | _ => false
  end.

(** [s.split(sep)] for a one-character separator. *)
Fixpoint split (sep : ascii) (s : string) : list string :=
  match s with
  | EmptyString => [EmptyString]
  | String c rest =>
      if Ascii.eqb c sep then EmptyString :: split sep rest
      else match split sep rest with
           | [] => [String c EmptyString]
           | h :: t => String c h :: t
           end
  end.

(** [s.length > n ? s.slice(0, n) + "..." : s]. *)
Definition truncate (n : nat) (s : string) : string :=
  if Nat.ltb n (String.length s) then String.append (substring 0 n s) "..." else s.

End JS.
Import JS.

(** ** Data model ([lib/thread-store.ts]) *)

Inductive JobStatus : Type := started | in_progress | completed | failed.

Definition JobStatus_eqb (a b : JobStatus) : bool :=
  match a, b with
  | started, started | in_progress, in_progress
  | completed, completed | failed, failed => true
  | _, _ => false
  end.

(** [interface ThreadState].  Timestamps are the ISO strings of
    [new Date().toISOString()].

    Modelled from the spec: [progressMessageTs] ("progressMessageHandle:
    handle of the most recent coalescable reply, used for upsert") is read and
    written by [cli.ts] through accessors that the [ThreadStore] under [src/]
    does not have. *)
Record ThreadState : Type := mkThreadState {
  jobId : string;
  channel : string;
  threadTs : string;
  title : string;
  status : JobStatus;
  createdAt : string;
  updatedAt : string;
  permalink : option string;
  progressMessageTs : option string
}.

(** [state.status = status; state.updatedAt = now]. *)
Definition with_status (st : JobStatus) (t : string) (s : ThreadState)
  : ThreadState :=
  mkThreadState (jobId s) (channel s) (threadTs s) (title s) st (createdAt s) t
    (permalink s) (progressMessageTs s).

(** [state.updatedAt = now]. *)
Definition touch (t : string) (s : ThreadState) : ThreadState :=
  mkThreadState (jobId s) (channel s) (threadTs s) (title s) (status s)
    (createdAt s) t (permalink s) (progressMessageTs s).

(** The thread handle and permalink of a placeholder filled in. *)
Definition with_threadTs (ts : string) (link : option string) (s : ThreadState)
  : ThreadState :=
  mkThreadState (jobId s) (channel s) ts (title s) (status s) (createdAt s)
    (updatedAt s) link (progressMessageTs s).

(** The coalescable reply handle set or cleared. *)
Definition with_progress (p : option string) (s : ThreadState) : ThreadState :=
  mkThreadState (jobId s) (channel s) (threadTs s) (title s) (status s)
    (createdAt s) (updatedAt s) (permalink s) p.

(** *** The [Map<string, ThreadState>] *)

Module JsMap.

Section Generic.

Variable V : Type.

Definition t : Type := list (string * V).

Fixpoint get (k : string) (m : t) : option V :=
  match m with
  | [] => None
  | (k', v) :: rest => if k' =? k then Some v else get k rest
  end.

(** [Map.prototype.set]: an existing key keeps its place. *)
Fixpoint set (k : string) (v : V) (m : t) : t :=
  match m with
  | [] => [(k, v)]
  | (k', v') :: rest =>
      if k' =? k then (k, v) :: rest else (k', v') :: set k v rest
  end.

Fixpoint delete (k : string) (m : t) : t :=
  match m with
  | [] => []
  | (k', v') :: rest => if k' =? k then rest else (k', v') :: delete k rest
  end.

Definition values (m : t) : list V := map snd m.
Definition keys (m : t) : list string := map fst m.

End Generic.

Arguments get {V} k m.
Arguments set {V} k v m.
Arguments delete {V} k m.
Arguments values {V} m.
Arguments keys {V} m.

(** Every key is the [jobId] of its state, and no key occurs twice: what
    [create] and [loadFromDisk] maintain. *)
Definition wf (m : t ThreadState) : Prop :=
  NoDup (keys m) /\ Forall (fun kv => fst kv = jobId (snd kv)) m.

End JsMap.

(** *** The state file *)

(** The state file, as [loadFromDisk] finds it.  [JSON.parse] is the
    runtime's: a file that parses is given by the array it parses to, with
    the elements typed as the cast of [loadFromDisk] types them
    ([ThreadState[]]).  An element [None] is a [null] of the array, where
    reading [state.jobId] throws.  [JSON.stringify] writes the members of a
    state and leaves an [undefined] member out, and a member left out reads
    [undefined]: a state is read as it was written. *)
Inductive FileContent : Type :=
| NoFile     (* [existsSync] answers false *)
| Corrupt    (* unreadable, not JSON, or a value that [for ... of] cannot iterate *)
| JsonArray (elems : list (option ThreadState)).

(** ** The Slack client's interface ([lib/slack-client.ts]) *)

Inductive Level : Type := info | warn | debug.

Definition Meta : Type := list (string * string).

(** One request to the platform, named after the [SlackClient] method that
    issues it and carrying that method's arguments.

    Modelled from the spec: the last argument of [PostWaiting] and the whole of
    [UpsertThreadReply] ("upsertReply(channel, handle, text, mention,
    existingReplyHandle?): posts if existingReplyHandle absent, edits in place
    otherwise") are used by [cli.ts]; the [SlackClient] under [src/] has
    neither. *)
Inductive Call : Type :=
| PostParentMessage (ch ttl : string) (meta : option Meta) (mention : bool)
| PostThreadReply (ch ts msg : string) (level : Level) (mention : bool)
| PostComplete (ch ts ttl : string) (summary : option string)
    (nextSuggestions : option (list string)) (mention : bool)
| PostFail (ch ts ttl errorSummary : string) (logsHint : option string)
    (mention : bool)
| PostWaiting (ch ts ttl reason : string) (mention : bool)
    (existingMessageTs : option string)
| UpsertThreadReply (ch ts msg : string) (level : Level) (mention : bool)
    (existingMessageTs : option string).

(** [interface PostResult] and [interface ReplyResult]. *)
Record PostResult : Type := mkPostResult {
  post_ok : bool;
  post_channel : string;
  post_ts : string;
  post_permalink : option string
}.

Record ReplyResult : Type := mkReplyResult {
  reply_ok : bool;
  reply_ts : option string
}.

(** What the process cannot decide: the platform's answer to a request, given
    the requests that came before it; the clock; the default channel of the
    configuration; and what [getLastAssistantResponse] finds in a transcript
    file. *)
Record Env : Type := mkEnv {
  post_answer : list Call -> Call -> PostResult;
  reply_answer : list Call -> Call -> ReplyResult;
  toISOString : nat -> string;
  defaultChannel : string;
  lastAssistantResponse : string -> option string
}.

(** The three kinds of request of the conversation channel. *)
Definition is_top_post (c : Call) : bool :=
  match c with
  | PostParentMessage _ _ _ _ => true
  | _ => false
  end.

Definition is_edit (c : Call) : bool :=
  match c with
  | PostWaiting _ _ _ _ _ existing => truthy_opt existing
  | UpsertThreadReply _ _ _ _ _ existing => truthy_opt existing
  | _ => false
  end.

Definition is_new_reply (c : Call) : bool :=
  negb (is_top_post c) && negb (is_edit c).

(** The thread a reply goes to, the message an edit rewrites, and the mention
    flag of a request. *)
Definition call_thread (c : Call) : option string :=
  match c with
  | PostParentMessage _ _ _ _ => None
  | PostThreadReply _ ts _ _ _ => Some ts
  | PostComplete _ ts _ _ _ _ => Some ts
  | PostFail _ ts _ _ _ _ => Some ts
  | PostWaiting _ ts _ _ _ _ => Some ts
  | UpsertThreadReply _ ts _ _ _ _ => Some ts
  end.

Definition call_edited (c : Call) : option string :=
  match c with
  | PostWaiting _ _ _ _ _ existing => existing
  | UpsertThreadReply _ _ _ _ _ existing => existing
  | _ => None
  end.

Definition call_mention (c : Call) : bool :=
  match c with
  | PostParentMessage _ _ _ m => m
  | PostThreadReply _ _ _ _ m => m
  | PostComplete _ _ _ _ _ m => m
  | PostFail _ _ _ _ _ m => m
  | PostWaiting _ _ _ _ m _ => m
  | UpsertThreadReply _ _ _ _ m _ => m
  end.

(** ** Process state *)

(** [class ThreadStore]: the map and the configured path.  (The debounce
    table [pendingUpdates] is written only by [scheduleUpdate] and
    [flushUpdate], which no tool and no command calls.) *)
Record ThreadStore : Type := mkThreadStore {
  threads : JsMap.t ThreadState;
  persistPath : option string
}.

(** [interface WaitingNotification]; [timeout] is the handle that
    [setTimeout] returned. *)
Record WaitingNotification : Type := mkWaitingNotification {
  wn_jobId : string;
  wn_timeout : nat;
  notified : bool
}.

(** A pending [setTimeout] of [startWaitingMonitor]: its handle, and what its
    callback closes over. *)
Record Timer : Type := mkTimer {
  timer_id : nat;
  timer_jobId : string;
  timer_channel : string;
  timer_threadTs : string;
  timer_delay : N
}.

(** [SlackClient.waitingNotifications], and next to it the timers of the
    runtime that are pending and the handle that the next [setTimeout]
    returns. *)
Record Watchdog : Type := mkWatchdog {
  waitingNotifications : JsMap.t WaitingNotification;
  timers : list Timer;
  nextTimer : nat
}.

Definition noWatchdog : Watchdog := mkWatchdog [] [] 0.

Record Sys : Type := mkSys {
  store : ThreadStore;
  disk : FileContent;
  ticks : nat;
  calls : list Call;
  watchdog : Watchdog
}.

Definition with_store (st : ThreadStore) (s : Sys) : Sys :=
  mkSys st (disk s) (ticks s) (calls s) (watchdog s).

Definition with_threads (m : JsMap.t ThreadState) (s : Sys) : Sys :=
  with_store (mkThreadStore m (persistPath (store s))) s.

(** [this.threads.set(jobId, state)], also what assigning to a member of the
    state held under [jobId] amounts to. *)
Definition put_thread (job : string) (st : ThreadState) (s : Sys) : Sys :=
  with_threads (JsMap.set job st (threads (store s))) s.

(** One more reading of the clock. *)
Definition tick (s : Sys) : Sys :=
  mkSys (store s) (disk s) (S (ticks s)) (calls s) (watchdog s).

(** [Array.from(this.threads.values())], as the state file holds it. *)
Definition saved (m : JsMap.t ThreadState) : FileContent :=
  JsonArray (map Some (JsMap.values m)).

(** [saveToDisk]: [if (!this.persistPath) return], else the state file is
    rewritten with the whole map, in order.  The empty path is falsy. *)
Definition persist (s : Sys) : Sys :=
  mkSys (store s)
    (if truthy_opt (persistPath (store s))
     then saved (threads (store s))
     else disk s)
    (ticks s) (calls s) (watchdog s).

(** ** The monad of the process *)

Inductive Error : Type :=
| ThreadNotFound       (* "スレッドが見つかりません" *)
| SlackPostFailed      (* start: "Slack投稿に失敗しました" / "Failed to post to Slack" *)
| LazyCreateFailed     (* ensureThread: "Failed to create Slack thread" *)
| MissingOption (name : string)
| InvalidMeta
| UnknownCommand.

Inductive Result (A : Type) : Type :=
| Ok (a : A)
| Thrown (e : Error).
Arguments Ok {A} a.
Arguments Thrown {A} e.

Definition M (A : Type) : Type := Sys -> Result A * Sys.

Definition ret {A} (a : A) : M A := fun s => (Ok a, s).

Definition bind {A B} (m : M A) (k : A -> M B) : M B :=
  fun s =>
    match m s with
    | (Ok a, s') => k a s'
    | (Thrown e, s') => (Thrown e, s')
    end.

Definition throw {A} (e : Error) : M A := fun s => (Thrown e, s).

Definition gets {A} (f : Sys -> A) : M A := fun s => (Ok (f s), s).

Definition modify (f : Sys -> Sys) : M unit := fun s => (Ok tt, f s).

Definition when_ (b : bool) (m : M unit) : M unit := if b then m else ret tt.

Declare Scope m_scope.
Delimit Scope m_scope with M.
Notation "x <- m ;; k" := (bind m (fun x => k))
  (at level 61, m at next level, right associativity) : m_scope.
Notation "m ;; k" := (bind m (fun _ => k))
  (at level 61, right associativity) : m_scope.
Local Open Scope m_scope.

(** ** [class ThreadStore] *)

Section Engine.

Variable E : Env.

(** [new Date().toISOString()]: one more reading of the clock. *)
Definition now : M string :=
  fun s => (Ok (toISOString E (ticks s)), tick s).

(** [saveToDisk].  (A failing write is swallowed by the source; the file
    system of the model does not fail.) *)
Definition saveToDisk : M unit := modify persist.

(** The loop of [loadFromDisk] over the parsed array:
    [this.threads.set(state.jobId, state)] for every element, unvalidated.
    The [catch] around the loop ends it at an element whose [jobId] cannot be
    read, and what has been filed by then stays. *)
Fixpoint load_states (elems : list (option ThreadState))
  (m : JsMap.t ThreadState) : JsMap.t ThreadState :=
  match elems with
  | [] => m
  | Some state :: rest => load_states rest (JsMap.set (jobId state) state m)
  | None :: _ => m
  end.

(** [loadFromDisk]: nothing without a path (the empty path is none) or
    without a file; a file that does not parse leaves the map as it is. *)
Definition loadFromDisk (path : option string) (d : FileContent)
  (m : JsMap.t ThreadState) : JsMap.t ThreadState :=
  if truthy_opt path then
    match d with
    | JsonArray elems => load_states elems m
    | _ => m
    end
  else m.

(** [constructor(persistPath)]: [if (persistPath) this.loadFromDisk()]. *)
Definition newThreadStore (path : option string) (d : FileContent)
  : ThreadStore :=
  mkThreadStore (if truthy_opt path then loadFromDisk path d [] else []) path.

Definition get (job : string) : M (option ThreadState) :=
  gets (fun s => JsMap.get job (threads (store s))).

Definition create (job ch ts ttl : string) (link : option string)
  : M ThreadState :=
  t <- now ;;
  let state := mkThreadState job ch ts ttl started t t link None in
  modify (put_thread job state) ;;
  saveToDisk ;;
  ret state.

Definition updateStatus (job : string) (st : JobStatus) : M bool :=
  state <- get job ;;
  match state with
  | None => ret false
  | Some state =>
      t <- now ;;
      modify (put_thread job (with_status st t state)) ;;
      saveToDisk ;;
      ret true
  end.

Definition isTerminal (job : string) : M bool :=
  state <- get job ;;
  match state with
  | None => ret false
  | Some state =>
      ret (JobStatus_eqb (status state) completed
           || JobStatus_eqb (status state) failed)
  end.

Definition list_ : M (list ThreadState) :=
  gets (fun s => JsMap.values (threads (store s))).

Definition delete (job : string) : M bool :=
  state <- get job ;;
  match state with
  | None => ret false
  | Some _ =>
      modify (fun s => with_threads (JsMap.delete job (threads (store s))) s) ;;
      saveToDisk ;;
      ret true
  end.

(** Modelled from the spec: [updateThreadTs], missing from the [ThreadStore]
    under [src/] ("updateThreadHandle(jobId, handle, permalink?): used to
    promote a placeholder (empty handle) job into a real thread.  Persists.",
    and of [updatedAt]: "Set at creation / on every mutation").  Like
    [updateStatus], it answers false for a job that is not on file. *)
Definition updateThreadTs (job ts : string) (link : option string) : M bool :=
  state <- get job ;;
  match state with
  | None => ret false
  | Some state =>
      t <- now ;;
      modify (put_thread job (touch t (with_threadTs ts link state))) ;;
      saveToDisk ;;
      ret true
  end.

(** Modelled from the spec: the accessors of the coalescable reply handle,
    missing from the [ThreadStore] under [src/]
    ("updateProgressMessageHandle(jobId, handle) /
    clearProgressMessageHandle(jobId).  Persists.", and of [updatedAt]: "Set
    at creation / on every mutation"). *)
Definition getProgressMessageTs (job : string) : M (option string) :=
  state <- get job ;;
  match state with
  | None => ret None
  | Some state => ret (progressMessageTs state)
  end.

Definition setProgress (job : string) (p : option string) : M bool :=
  state <- get job ;;
  match state with
  | None => ret false
  | Some state =>
      t <- now ;;
      modify (put_thread job (touch t (with_progress p state))) ;;
      saveToDisk ;;
      ret true
  end.

Definition updateProgressMessageTs (job ts : string) : M bool :=
  setProgress job (Some ts).

Definition clearProgressMessageTs (job : string) : M bool :=
  setProgress job None.


(** ** [class SlackClient] *)

Definition log_call (c : Call) (s : Sys) : Sys :=
  mkSys (store s) (disk s) (ticks s) (calls s ++ [c]) (watchdog s).

(** A request whose answer is a [PostResult] / a [ReplyResult]. *)
Definition request_post (c : Call) : M PostResult :=
  fun s => (Ok (post_answer E (calls s) c), log_call c s).

Definition request_reply (c : Call) : M ReplyResult :=
  fun s => (Ok (reply_answer E (calls s) c), log_call c s).

Definition postParentMessage (ch ttl : string) (meta : option Meta)
  (mention : bool) : M PostResult :=
  request_post (PostParentMessage ch ttl meta mention).

Definition postThreadReply (ch ts msg : string) (level : Level)
  (mention : bool) : M ReplyResult :=
  request_reply (PostThreadReply ch ts msg level mention).

Definition postComplete (ch ts ttl : string) (summary : option string)
  (next : option (list string)) (mention : bool) : M ReplyResult :=
  request_reply (PostComplete ch ts ttl summary next mention).

Definition postFail (ch ts ttl err : string) (logsHint : option string)
  (mention : bool) : M ReplyResult :=
  request_reply (PostFail ch ts ttl err logsHint mention).

Definition postWaiting (ch ts ttl reason : string) (mention : bool)
  (existing : option string) : M ReplyResult :=
  request_reply (PostWaiting ch ts ttl reason mention existing).

Definition upsertThreadReply (ch ts msg : string) (level : Level)
  (mention : bool) (existing : option string) : M ReplyResult :=
  request_reply (UpsertThreadReply ch ts msg level mention existing).

Definition getDefaultChannel : M string := ret (defaultChannel E).

(** *** The watchdog *)

Definition defaultWaitingTimeoutMs : N := 30000%N.

Definition stalledMessage : string :=
  "⏸️ 処理が一時停止しています（権限確認やユーザー入力待ちの可能性があります）".

Definition clearTimeout (id : nat) (ts : list Timer) : list Timer :=
  filter (fun t => negb (timer_id t =? id)%nat) ts.

Definition with_watchdog (w : Watchdog) (s : Sys) : Sys :=
  mkSys (store s) (disk s) (ticks s) (calls s) w.

Definition wd_cancel (job : string) (w : Watchdog) : Watchdog :=
  match JsMap.get job (waitingNotifications w) with
  | Some n =>
      mkWatchdog (JsMap.delete job (waitingNotifications w))
        (clearTimeout (wn_timeout n) (timers w)) (nextTimer w)
  | None => w
  end.

Definition cancel_monitor (job : string) (s : Sys) : Sys :=
  with_watchdog (wd_cancel job (watchdog s)) s.

Definition cancelWaitingMonitor (job : string) : M unit :=
  modify (cancel_monitor job).

(** [timeoutMs || this.defaultWaitingTimeoutMs]: [0] is falsy. *)
Definition watchdog_delay (timeoutMs : option N) : N :=
  match timeoutMs with
  | Some (Npos p) => Npos p
  | _ => defaultWaitingTimeoutMs
  end.

(** [setTimeout], then [this.waitingNotifications.set]. *)
Definition wd_arm (job ch ts : string) (timeoutMs : option N) (w : Watchdog)
  : Watchdog :=
  let id := nextTimer w in
  mkWatchdog
    (JsMap.set job (mkWaitingNotification job id false)
       (waitingNotifications w))
    (timers w ++ [mkTimer id job ch ts (watchdog_delay timeoutMs)])
    (S id).

Definition arm_monitor (job ch ts : string) (timeoutMs : option N) (s : Sys)
  : Sys :=
  with_watchdog (wd_arm job ch ts timeoutMs (watchdog s)) s.

Definition startWaitingMonitor (job ch ts : string) (timeoutMs : option N)
  : M unit :=
  cancelWaitingMonitor job ;;
  modify (arm_monitor job ch ts timeoutMs).

Definition wasWaitingNotified (job : string) : M bool :=
  gets (fun s =>
    match JsMap.get job (waitingNotifications (watchdog s)) with
    | Some n => notified n
    | None => false
    end).

(** [notification.notified = true], on the entry held under [job]. *)
Definition wd_mark_notified (job : string) (n : WaitingNotification)
  (w : Watchdog) : Watchdog :=
  mkWatchdog
    (JsMap.set job (mkWaitingNotification (wn_jobId n) (wn_timeout n) true)
       (waitingNotifications w))
    (timers w) (nextTimer w).

Definition mark_notified (job : string) (n : WaitingNotification) (s : Sys)
  : Sys :=
  with_watchdog (wd_mark_notified job n (watchdog s)) s.

(** The callback that [startWaitingMonitor] hands to [setTimeout]. *)
Definition watchdog_callback (t : Timer) : M unit :=
  n <- gets (fun s =>
         JsMap.get (timer_jobId t) (waitingNotifications (watchdog s))) ;;
  match n with
  | Some n =>
      if notified n then ret tt
      else
        modify (mark_notified (timer_jobId t) n) ;;
        _ <- postThreadReply (timer_channel t) (timer_threadTs t)
               stalledMessage warn false ;;
        ret tt
  | None => ret tt
  end.

(** The timer leaves the pending ones: it has run, or was cleared. *)
Definition wd_expire (id : nat) (w : Watchdog) : Watchdog :=
  mkWatchdog (waitingNotifications w) (clearTimeout id (timers w))
    (nextTimer w).

Definition expire (id : nat) (s : Sys) : Sys :=
  with_watchdog (wd_expire id (watchdog s)) s.

(** The timer with handle [id] comes due.  A handle that was cleared, or
    whose timer has run, runs nothing. *)
Definition fire (id : nat) : M unit :=
  pending <- gets (fun s =>
               find (fun t => (timer_id t =? id)%nat) (timers (watchdog s))) ;;
  match pending with
  | None => ret tt
  | Some t =>
      modify (expire id) ;;
      watchdog_callback t
  end.

(** A "stalled" notice in the thread of a job's watchdog. *)
Definition is_stalled_notice (c : Call) : bool :=
  match c with
  | PostThreadReply _ _ msg _ _ => msg =? stalledMessage
  | _ => false
  end.

(** ** The MCP tools ([tools/slack-thread.ts]) *)

(** The JSON a tool returns, or a command prints. *)
Inductive Output : Type :=
| OutThread (job_id ch thread_ts : string) (link : option string)
    (note : option string)               (* {job_id, channel, thread_ts, permalink, note?} *)
| OutResult (ok : bool) (ts : option string)   (* {ok} or {ok, ts} *)
| OutRejected (reason : string)          (* {ok: false, reason} *)
| OutNoop (note : string).               (* {ok: true, note} *)

Definition output_ok (o : Output) : bool :=
  match o with
  | OutThread _ _ _ _ _ => true
  | OutResult ok _ => ok
  | OutRejected _ => false
  | OutNoop _ => true
  end.

(** [state && threadStore.isTerminal(job_id)]. *)
Definition known_and_terminal (state : option ThreadState) (job : string)
  : M bool :=
  match state with
  | Some _ => isTerminal job
  | None => ret false
  end.

(** [thread_ts || state?.threadTs], then [if (!targetThreadTs) throw]. *)
Definition targetThreadTs (thread_ts : option string)
  (state : option ThreadState) : option string :=
  js_or thread_ts (option_map threadTs state).

Definition require_thread (target : option string) : M string :=
  match target with
  | Some ts => if truthy ts then ret ts else throw ThreadNotFound
  | None => throw ThreadNotFound
  end.

(** [state?.channel || slackClient.getDefaultChannel()]. *)
Definition targetChannel (state : option ThreadState) : string :=
  or_default (option_map channel state) (defaultChannel E).

Definition slack_thread_start (job_id ttl : string) (ch : option string)
  (meta : option Meta) (mention : option bool) : M Output :=
  existing <- get job_id ;;
  match existing with
  | Some existing =>
      ret (OutThread (jobId existing) (channel existing) (threadTs existing)
             (permalink existing) (Some "既存のスレッドを再利用しました"))
  | None =>
      let target := or_default ch (defaultChannel E) in
      result <- postParentMessage target ttl meta (not_false mention) ;;
      if negb (post_ok result) then throw SlackPostFailed
      else
        state <- create job_id (post_channel result) (post_ts result) ttl
                   (post_permalink result) ;;
        ret (OutThread (jobId state) (channel state) (threadTs state)
               (permalink state) None)
  end.

Definition slack_thread_update (job_id message : string)
  (thread_ts : option string) (level : option Level) (mention : option bool)
  (enable_waiting_monitor : option bool) (waiting_timeout_ms : option N)
  : M Output :=
  state <- get job_id ;;
  let tch := targetChannel state in
  tts <- require_thread (targetThreadTs thread_ts state) ;;
  terminal <- known_and_terminal state job_id ;;
  if terminal then ret (OutRejected "ジョブは既に終了しています")
  else
    cancelWaitingMonitor job_id ;;
    match state with
    | Some _ => _ <- updateStatus job_id in_progress ;; ret tt
    | None => ret tt
    end ;;
    result <- postThreadReply tch tts message
                (match level with Some l => l | None => info end)
                (is_true mention) ;;
    when_ (not_false enable_waiting_monitor)
      (startWaitingMonitor job_id tch tts waiting_timeout_ms) ;;
    ret (OutResult (reply_ok result) None).

Definition slack_thread_waiting (job_id : string) (thread_ts : option string)
  (reason : option string) (mention : option bool) : M Output :=
  state <- get job_id ;;
  let tch := targetChannel state in
  let ttl := or_default (option_map title state) job_id in
  tts <- require_thread (targetThreadTs thread_ts state) ;;
  terminal <- known_and_terminal state job_id ;;
  if terminal then ret (OutRejected "ジョブは既に終了しています")
  else
    let reasonText := or_default reason "権限確認またはユーザー入力待ち" in
    result <- postWaiting tch tts ttl reasonText (not_false mention) None ;;
    ret (OutResult (reply_ok result) None).

Definition slack_thread_complete (job_id : string) (thread_ts : option string)
  (summary : option string) (next_suggestions : option (list string))
  (mention : option bool) : M Output :=
  state <- get job_id ;;
  let tch := targetChannel state in
  let ttl := or_default (option_map title state) job_id in
  tts <- require_thread (targetThreadTs thread_ts state) ;;
  cancelWaitingMonitor job_id ;;
  terminal <- known_and_terminal state job_id ;;
  if terminal then ret (OutNoop "ジョブは既に終了済みです")
  else
    result <- postComplete tch tts ttl summary next_suggestions
                (not_false mention) ;;
    match state with
    | Some _ =>
        when_ (reply_ok result) (_ <- updateStatus job_id completed ;; ret tt)
    | None => ret tt
    end ;;
    ret (OutResult (reply_ok result) None).

Definition slack_thread_fail (job_id : string) (thread_ts : option string)
  (error_summary : string) (logs_hint : option string)
  (mention : option bool) : M Output :=
  state <- get job_id ;;
  let tch := targetChannel state in
  let ttl := or_default (option_map title state) job_id in
  tts <- require_thread (targetThreadTs thread_ts state) ;;
  cancelWaitingMonitor job_id ;;
  terminal <- known_and_terminal state job_id ;;
  if terminal then ret (OutNoop "ジョブは既に終了済みです")
  else
    result <- postFail tch tts ttl error_summary logs_hint (not_false mention) ;;
    match state with
    | Some _ =>
        when_ (reply_ok result) (_ <- updateStatus job_id failed ;; ret tt)
    | None => ret tt
    end ;;
    ret (OutResult (reply_ok result) None).

(** ** The command line ([cli.ts]) *)

Inductive Command : Type :=
| cmd_start | cmd_update | cmd_waiting | cmd_complete | cmd_fail | cmd_other.

(** [--meta]: absent, not valid JSON, or parsed. *)
Inductive MetaArg : Type :=
| NoMeta
| BadMeta
| GoodMeta (m : Meta).

(** The members of [options] that [main] reads: those given as [--key=value]
    and those that [parseArgs] copies from the hook's JSON ([_hook_event],
    [_prompt], [_message], [_notification_type], [_transcript_path], [_cwd]).
    [--next-suggestions] is taken after its parse (JSON, else a split at
    commas). *)
Record Options : Type := mkOptions {
  o_title : option string;
  o_silent : bool;
  o_message : option string;
  o_level : option Level;
  o_reason : option string;
  o_summary : option string;
  o_error : option string;
  o_logs_hint : option string;
  o_channel : option string;
  o_mention : option string;
  o_meta : MetaArg;
  o_upsert : option string;
  o_next_suggestions : option (list string);
  o_hook_event : option string;
  o_notification_type : option string;
  o_prompt : option string;
  o_hook_message : option string;
  o_transcript_path : option string;
  o_cwd : option string
}.

(** [stdinData.tool_name] and the members of [stdinData.tool_input] that the
    update command looks at. *)
Record ToolInput : Type := mkToolInput {
  file_path : option string;
  command : option string;
  pattern : option string;
  description : option string
}.

Record StdinData : Type := mkStdinData {
  tool_name : option string;
  tool_input : option ToolInput
}.

Definition is_opt (x : option string) (v : string) : bool :=
  match x with
  | Some s => s =? v
  | None => false
  end.

Definition fallbackTitle : string := "Claude Code Task".

(** [interface LazyInitResult]. *)
Record LazyInitResult : Type := mkLazyInitResult {
  lazy_threadTs : string;
  lazy_channel : string;
  lazy_title : string;
  created : bool
}.

(** [parts = cwdHint.split("/").filter(Boolean)], then
    [parts.length > 0 ? parts[parts.length - 1] : ...]. *)
Definition last_segment (cwd : string) : option string :=
  match filter truthy (split "/" cwd) with
  | [] => None
  | p :: ps => Some (last (p :: ps) p)
  end.

(** The title of a lazily created thread:
    [titleOverride || state?.title], else the last non-empty segment of
    [cwdHint], else the fallback. *)
Definition lazy_title_of (titleOverride : option string)
  (state : option ThreadState) (cwdHint : option string) : string :=
  let title0 := js_or titleOverride (option_map title state) in
  let title1 :=
    if negb (truthy_opt title0) && truthy_opt cwdHint then
      match last_segment (or_default cwdHint "") with
      | Some seg => Some seg
      | None => Some fallbackTitle
      end
    else title0 in
  or_default title1 fallbackTitle.

Definition ensureThread (job ch : string) (titleOverride cwdHint : option string)
  (mention : bool) : M LazyInitResult :=
  state <- get job ;;
  if truthy_opt (option_map threadTs state) then
    match state with
    | Some st =>
        ret (mkLazyInitResult (threadTs st) (channel st) (title st) false)
    | None => throw ThreadNotFound (* not reached: the handle is truthy *)
    end
  else
    let ttl := lazy_title_of titleOverride state cwdHint in
    result <- postParentMessage ch ttl None mention ;;
    if negb (post_ok result) then throw LazyCreateFailed
    else
      match state with
      | Some _ =>
          _ <- updateThreadTs job (post_ts result) (post_permalink result) ;;
          ret tt
      | None =>
          _ <- create job (post_channel result) (post_ts result) ttl
                 (post_permalink result) ;;
          ret tt
      end ;;
      ret (mkLazyInitResult (post_ts result) (post_channel result) ttl true).

(** [mentionDefault] and [mention] of [main]. *)
Definition mentionDefault (cmd : Command) (hookEvent : option string) : bool :=
  match cmd with
  | cmd_start => true
  | cmd_update => negb (is_opt hookEvent "PostToolUse")
  | _ => false
  end.

Definition cli_mention (cmd : Command) (o : Options) : bool :=
  if is_opt (o_mention o) "true" then true
  else if is_opt (o_mention o) "false" then false
  else mentionDefault cmd (o_hook_event o).

Definition cli_channel (o : Options) : string :=
  or_default (o_channel o) (defaultChannel E).

Definition cli_start (job : string) (o : Options) : M Output :=
  let ch := cli_channel o in
  let mention := cli_mention cmd_start o in
  let ttl := or_default (o_title o) fallbackTitle in
  existing <- get job ;;
  match existing with
  | Some existing =>
      ret (OutThread (jobId existing) (channel existing) (threadTs existing)
             (permalink existing) (Some "Reused existing thread"))
  | None =>
      if o_silent o then
        state <- create job ch "" ttl None ;;
        ret (OutThread (jobId state) (channel state) "" None
               (Some "Silent mode - thread will be created lazily"))
      else
        match o_meta o with
        | BadMeta => throw InvalidMeta
        | meta =>
            let meta := match meta with GoodMeta m => Some m | _ => None end in
            result <- postParentMessage ch ttl meta mention ;;
            if negb (post_ok result) then throw SlackPostFailed
            else
              state <- create job (post_channel result) (post_ts result) ttl
                         (post_permalink result) ;;
              ret (OutThread (jobId state) (channel state) (threadTs state)
                     (permalink state) None)
        end
  end.

(** The detail line of an auto-generated tool message. *)
Definition quoted (s : string) : string :=
  String.append "`" (String.append s "`").

Definition tool_details (toolName : string) (input : option ToolInput)
  : string :=
  match input with
  | None => ""
  | Some i =>
      if (toolName =? "Read") && truthy_opt (file_path i)
      then quoted (or_default (file_path i) "")
      else if (toolName =? "Write") && truthy_opt (file_path i)
      then quoted (or_default (file_path i) "")
      else if (toolName =? "Edit") && truthy_opt (file_path i)
      then quoted (or_default (file_path i) "")
      else if (toolName =? "Bash") && truthy_opt (command i)
      then quoted (truncate 50 (or_default (command i) ""))
      else if (toolName =? "Glob") && truthy_opt (pattern i)
      then quoted (or_default (pattern i) "")
      else if (toolName =? "Grep") && truthy_opt (pattern i)
      then quoted (or_default (pattern i) "")
      else if (toolName =? "Task") && truthy_opt (description i)
      then or_default (description i) ""
      else ""
  end.

Definition tool_message (toolName : string) (input : option ToolInput)
  : string :=
  let details := tool_details toolName input in
  if truthy details
  then String.append "*" (String.append toolName
         (String.append "*: " details))
  else String.append "*" (String.append toolName "*").

(** The first part of the update command: the message to post and whether
    to upsert.  A [UserPromptSubmit] prompt clears the coalescable handle; a
    [Stop] event upserts exactly when there is a handle to overwrite. *)
Definition update_message (job : string) (o : Options)
  (stdin : option StdinData) : M (option string * bool) :=
  let hookEvent := o_hook_event o in
  let useUpsert := is_opt (o_upsert o) "true" || is_opt hookEvent "PostToolUse" in
  let message := o_message o in
  (* UserPromptSubmit *)
  r1 <- (if negb (truthy_opt message) && is_opt hookEvent "UserPromptSubmit"
            && truthy_opt (o_prompt o)
         then
           _ <- clearProgressMessageTs job ;;
           ret (Some (String.append "*Prompt:* "
                        (truncate 100 (or_default (o_prompt o) ""))),
                false)
         else ret (message, useUpsert)) ;;
  let '(message, useUpsert) := r1 in
  (* tool details *)
  let toolName := match stdin with Some d => tool_name d | None => None end in
  let message :=
    if negb (truthy_opt message) && truthy_opt toolName
    then Some (tool_message (or_default toolName "")
                 (match stdin with Some d => tool_input d | None => None end))
    else message in
  (* Stop *)
  if negb (truthy_opt message) && is_opt hookEvent "Stop"
     && truthy_opt (o_transcript_path o)
  then
    let lastResponse :=
      lastAssistantResponse E (or_default (o_transcript_path o) "") in
    let message :=
      if truthy_opt lastResponse
      then String.append "*Response:* " (or_default lastResponse "")
      else "応答完了" in
    existingTs <- getProgressMessageTs job ;;
    ret (Some message, truthy_opt existingTs)
  else ret (message, useUpsert).

(** The second part of the update command, from [ensureThread] on. *)
Definition update_post (job : string) (o : Options) (message : string)
  (useUpsert : bool) : M Output :=
  let ch := cli_channel o in
  let mention := cli_mention cmd_update o in
  thread <- ensureThread job ch (o_title o) (o_cwd o) mention ;;
  terminal <- isTerminal job ;;
  if terminal then ret (OutRejected "Job already terminated")
  else
    _ <- updateStatus job in_progress ;;
    let level := match o_level o with Some l => l | None => info end in
    existingMessageTs <-
      (if useUpsert then getProgressMessageTs job else ret None) ;;
    result <- upsertThreadReply (lazy_channel thread) (lazy_threadTs thread)
                message level mention existingMessageTs ;;
    (if reply_ok result && truthy_opt (reply_ts result) then
       if is_opt (o_hook_event o) "Stop" then
         _ <- clearProgressMessageTs job ;; ret tt
       else if useUpsert then
         _ <- updateProgressMessageTs job (or_default (reply_ts result) "") ;;
         ret tt
       else ret tt
     else ret tt) ;;
    ret (OutResult (reply_ok result) (reply_ts result)).

Definition cli_update (job : string) (o : Options) (stdin : option StdinData)
  : M Output :=
  r <- update_message job o stdin ;;
  let '(message, useUpsert) := r in
  if negb (truthy_opt message) then throw (MissingOption "message")
  else update_post job o (or_default message "") useUpsert.

(** What an object literal yields for a key that it does not define and that
    names a member of [Object.prototype]: that member, given by the text that
    the template of a post makes of it. *)
Definition prototype_member (k : string) : option string :=
  if k =? "__proto__" then Some "[object Object]"
  else if k =? "constructor" then Some "function Object() { [native code] }"
  else if existsb (String.eqb k)
            ["__defineGetter__"; "__defineSetter__"; "__lookupGetter__";
             "__lookupSetter__"; "hasOwnProperty"; "isPrototypeOf";
             "propertyIsEnumerable"; "toLocaleString"; "toString"; "valueOf"]
  then Some (String.append "function "
               (String.append k "() { [native code] }"))
  else None.

(** [typeMap[options["_notification_type"]] || options["_notification_type"]];
    [typeMap] is an object literal, so an inherited member is found too, and
    is truthy. *)
Definition notification_reason (ty : string) : string :=
  if ty =? "permission_prompt" then "権限確認待ち"
  else if ty =? "idle_prompt" then "アイドル状態"
  else if ty =? "auth_success" then "認証成功"
  else if ty =? "elicitation_dialog" then "追加情報の入力待ち"
  else match prototype_member ty with
       | Some member => member
       | None => ty
       end.

Definition waiting_reason (o : Options) : string :=
  let reason := js_or (o_reason o) (o_hook_message o) in
  let reason :=
    if negb (truthy_opt reason) && truthy_opt (o_notification_type o)
    then Some (notification_reason (or_default (o_notification_type o) ""))
    else reason in
  or_default reason "Waiting for permission or user input".

Definition cli_waiting (job : string) (o : Options) : M Output :=
  let ch := cli_channel o in
  let mention := cli_mention cmd_waiting o in
  thread <- ensureThread job ch (o_title o) (o_cwd o) mention ;;
  terminal <- isTerminal job ;;
  if terminal then ret (OutRejected "Job already terminated")
  else
    let reason := waiting_reason o in
    existingMessageTs <- getProgressMessageTs job ;;
    result <- postWaiting (lazy_channel thread) (lazy_threadTs thread)
                (lazy_title thread) reason mention existingMessageTs ;;
    when_ (reply_ok result) (_ <- clearProgressMessageTs job ;; ret tt) ;;
    ret (OutResult (reply_ok result) None).

Definition cli_complete (job : string) (o : Options) : M Output :=
  let ch := cli_channel o in
  let mention := cli_mention cmd_complete o in
  thread <- ensureThread job ch (o_title o) (o_cwd o) mention ;;
  terminal <- isTerminal job ;;
  if terminal then ret (OutNoop "Job already terminated")
  else
    result <- postComplete (lazy_channel thread) (lazy_threadTs thread)
                (lazy_title thread) (o_summary o) (o_next_suggestions o)
                mention ;;
    when_ (reply_ok result) (_ <- updateStatus job completed ;; ret tt) ;;
    ret (OutResult (reply_ok result) None).

Definition cli_fail (job : string) (o : Options) : M Output :=
  let ch := cli_channel o in
  let mention := cli_mention cmd_fail o in
  if negb (truthy_opt (o_error o)) then throw (MissingOption "error")
  else
    let errorSummary := or_default (o_error o) "" in
    thread <- ensureThread job ch (o_title o) (o_cwd o) mention ;;
    terminal <- isTerminal job ;;
    if terminal then ret (OutNoop "Job already terminated")
    else
      result <- postFail (lazy_channel thread) (lazy_threadTs thread)
                  (lazy_title thread) errorSummary (o_logs_hint o) mention ;;
      when_ (reply_ok result) (_ <- updateStatus job failed ;; ret tt) ;;
      ret (OutResult (reply_ok result) None).

(** The [switch] of [main], on the ledger of the process. *)
Definition cli_command (cmd : Command) (job : string) (o : Options)
  (stdin : option StdinData) : M Output :=
  match cmd with
  | cmd_start => cli_start job o
  | cmd_update => cli_update job o stdin
  | cmd_waiting => cli_waiting job o
  | cmd_complete => cli_complete job o
  | cmd_fail => cli_fail job o
  | cmd_other => throw UnknownCommand
  end.

(** One run of the command line: a new process, whose ledger is read from
    the state file and whose watchdog table is empty; what outlives it is the
    file, the clock and the platform. *)
Definition cli_main (path : option string) (cmd : Command) (job : string)
  (o : Options) (stdin : option StdinData) : M Output :=
  fun s =>
    cli_command cmd job o stdin
      (mkSys (newThreadStore path (disk s)) (disk s) (ticks s) (calls s)
         noWatchdog).

End Engine.

(** ** Running the model *)

(** The MCP server starts: its ledger is read from the state file, its
    watchdog table is empty. *)
Definition mcp_boot (path : option string) (s : Sys) : Sys :=
  mkSys (newThreadStore path (disk s)) (disk s) (ticks s) (calls s) noWatchdog.

(** Nothing has happened yet: no state file, no request, no timer. *)
Definition initSys (path : option string) : Sys :=
  mkSys (newThreadStore path NoFile) NoFile 0 [] noWatchdog.

Definition noOptions : Options :=
  mkOptions None false None None None None None None None None NoMeta None
    None None None None None None None.

Definition with_message (m : string) (o : Options) : Options :=
  mkOptions (o_title o) (o_silent o) (Some m) (o_level o) (o_reason o)
    (o_summary o) (o_error o) (o_logs_hint o) (o_channel o) (o_mention o)
    (o_meta o) (o_upsert o) (o_next_suggestions o) (o_hook_event o)
    (o_notification_type o) (o_prompt o) (o_hook_message o)
    (o_transcript_path o) (o_cwd o).

Definition with_title (t : string) (o : Options) : Options :=
  mkOptions (Some t) (o_silent o) (o_message o) (o_level o) (o_reason o)
    (o_summary o) (o_error o) (o_logs_hint o) (o_channel o) (o_mention o)
    (o_meta o) (o_upsert o) (o_next_suggestions o) (o_hook_event o)
    (o_notification_type o) (o_prompt o) (o_hook_message o)
    (o_transcript_path o) (o_cwd o).

Definition with_silent (o : Options) : Options :=
  mkOptions (o_title o) true (o_message o) (o_level o) (o_reason o)
    (o_summary o) (o_error o) (o_logs_hint o) (o_channel o) (o_mention o)
    (o_meta o) (o_upsert o) (o_next_suggestions o) (o_hook_event o)
    (o_notification_type o) (o_prompt o) (o_hook_message o)
    (o_transcript_path o) (o_cwd o).

Definition with_upsert (o : Options) : Options :=
  mkOptions (o_title o) (o_silent o) (o_message o) (o_level o) (o_reason o)
    (o_summary o) (o_error o) (o_logs_hint o) (o_channel o) (o_mention o)
    (o_meta o) (Some "true") (o_next_suggestions o) (o_hook_event o)
    (o_notification_type o) (o_prompt o) (o_hook_message o)
    (o_transcript_path o) (o_cwd o).

Definition with_error (e : string) (o : Options) : Options :=
  mkOptions (o_title o) (o_silent o) (o_message o) (o_level o) (o_reason o)
    (o_summary o) (Some e) (o_logs_hint o) (o_channel o) (o_mention o)
    (o_meta o) (o_upsert o) (o_next_suggestions o) (o_hook_event o)
    (o_notification_type o) (o_prompt o) (o_hook_message o)
    (o_transcript_path o) (o_cwd o).

Definition with_hook_event (e : string) (o : Options) : Options :=
  mkOptions (o_title o) (o_silent o) (o_message o) (o_level o) (o_reason o)
    (o_summary o) (o_error o) (o_logs_hint o) (o_channel o) (o_mention o)
    (o_meta o) (o_upsert o) (o_next_suggestions o) (Some e)
    (o_notification_type o) (o_prompt o) (o_hook_message o)
    (o_transcript_path o) (o_cwd o).

Definition with_prompt (p : string) (o : Options) : Options :=
  mkOptions (o_title o) (o_silent o) (o_message o) (o_level o) (o_reason o)
    (o_summary o) (o_error o) (o_logs_hint o) (o_channel o) (o_mention o)
    (o_meta o) (o_upsert o) (o_next_suggestions o) (o_hook_event o)
    (o_notification_type o) (Some p) (o_hook_message o)
    (o_transcript_path o) (o_cwd o).

Definition nat_str (n : nat) : string :=
  NilZero.string_of_uint (Nat.to_uint n).

(** A sample platform.  [up h c] says whether it accepts the request [c]
    after the requests [h]; an accepted post is stamped with the number of
    requests before it, an accepted edit returns the stamp of the message it
    rewrites. *)
Definition sampleTs (h : list Call) : string :=
  String.append "1700000000." (nat_str (length h)).

Definition sampleEnv (up : list Call -> Call -> bool) : Env :=
  mkEnv
    (fun h c =>
       match c with
       | PostParentMessage ch _ _ _ =>
           if up h c
           then mkPostResult true ch (sampleTs h)
                  (Some (String.append "https://slack.example/p" (sampleTs h)))
           else mkPostResult false "" "" None
       | _ => mkPostResult false "" "" None
       end)
    (fun h c =>
       if up h c
       then mkReplyResult true
              (Some (if is_edit c then or_default (call_edited c) ""
                     else sampleTs h))
       else mkReplyResult false None)
    (fun n => String.append "2026-01-01T00:00:00." (String.append (nat_str n) "Z"))
    "C0123456789"
    (fun _ => None).

Definition alwaysUp : list Call -> Call -> bool := fun _ _ => true.
Definition alwaysDown : list Call -> Call -> bool := fun _ _ => false.

(** ** The operation surface *)

(** A start request, from either transport. *)
Inductive StartCall : Type :=
| McpStart (ttl : string) (ch : option string) (meta : option Meta)
    (mention : option bool)
| CliStart (o : Options).

Definition start (E : Env) (job : string) (c : StartCall) : M Output :=
  match c with
  | McpStart ttl ch meta mention => slack_thread_start E job ttl ch meta mention
  | CliStart o => cli_start E job o
  end.

(** [--silent]: only the command line has it. *)
Definition silent_start (c : StartCall) : bool :=
  match c with
  | McpStart _ _ _ _ => false
  | CliStart o => o_silent o
  end.

(** The channel, thread handle and permalink that a start returns. *)
Definition thread_ids (o : Output) : option (string * string * option string) :=
  match o with
  | OutThread _ ch ts link _ => Some (ch, ts, link)
  | _ => None
  end.

(** A request to one of the four reply tools of the MCP server. *)
Inductive McpCall : Type :=
| McpUpdate (msg : string) (thread_ts : option string) (level : option Level)
    (mention monitor : option bool) (ms : option N)
| McpWaiting (thread_ts reason : option string) (mention : option bool)
| McpComplete (thread_ts summary : option string)
    (next : option (list string)) (mention : option bool)
| McpFail (thread_ts : option string) (err : string) (hint : option string)
    (mention : option bool).

Definition mcp (E : Env) (job : string) (c : McpCall) : M Output :=
  match c with
  | McpUpdate msg ts level mention monitor ms =>
      slack_thread_update E job msg ts level mention monitor ms
  | McpWaiting ts reason mention => slack_thread_waiting E job ts reason mention
  | McpComplete ts summary next mention =>
      slack_thread_complete E job ts summary next mention
  | McpFail ts err hint mention => slack_thread_fail E job ts err hint mention
  end.

Definition mcp_thread_ts (c : McpCall) : option string :=
  match c with
  | McpUpdate _ ts _ _ _ _ => ts
  | McpWaiting ts _ _ => ts
  | McpComplete ts _ _ _ => ts
  | McpFail ts _ _ _ => ts
  end.

Definition mcp_mention (c : McpCall) : option bool :=
  match c with
  | McpUpdate _ _ _ m _ _ => m
  | McpWaiting _ _ m => m
  | McpComplete _ _ _ m => m
  | McpFail _ _ _ m => m
  end.

(** The four reply commands of the command line. *)
Definition reply_command (cmd : Command) : bool :=
  match cmd with
  | cmd_update | cmd_waiting | cmd_complete | cmd_fail => true
  | _ => false
  end.

Definition terminal (st : ThreadState) : bool :=
  JobStatus_eqb (status st) completed || JobStatus_eqb (status st) failed.

Definition terminal_opt (st : option ThreadState) : bool :=
  match st with
  | Some x => terminal x
  | None => false
  end.

(** The one request of an MCP reply tool, into thread [t]. *)
Definition mcp_request (E : Env) (job : string) (c : McpCall)
  (st : option ThreadState) (t : string) : Call :=
  let ch := targetChannel E st in
  let ttl := or_default (option_map title st) job in
  match c with
  | McpUpdate msg _ level mention _ _ =>
      PostThreadReply ch t msg (match level with Some l => l | None => info end)
        (is_true mention)
  | McpWaiting _ reason mention =>
      PostWaiting ch t ttl (or_default reason "権限確認またはユーザー入力待ち")
        (not_false mention) None
  | McpComplete _ summary next mention =>
      PostComplete ch t ttl summary next (not_false mention)
  | McpFail _ err hint mention =>
      PostFail ch t ttl err hint (not_false mention)
  end.

(** What an MCP reply tool returns for a job that has ended. *)
Definition mcp_terminal_output (c : McpCall) : Output :=
  match c with
  | McpUpdate _ _ _ _ _ _ | McpWaiting _ _ _ =>
      OutRejected "ジョブは既に終了しています"
  | McpComplete _ _ _ _ | McpFail _ _ _ _ =>
      OutNoop "ジョブは既に終了済みです"
  end.

(** The status that an MCP reply tool files, given the platform's verdict on
    its request. *)
Definition mcp_status (c : McpCall) (ok : bool) : option JobStatus :=
  match c with
  | McpUpdate _ _ _ _ _ _ => Some in_progress
  | McpWaiting _ _ _ => None
  | McpComplete _ _ _ _ => if ok then Some completed else None
  | McpFail _ _ _ _ => if ok then Some failed else None
  end.

(** The reply phase of a command of the command line: everything from
    [ensureThread] on.  For update, the message and the upsert flag are those
    that the first part of the command has computed. *)
Inductive CliReply : Type :=
| CliUpdatePost (message : string) (useUpsert : bool)
| CliWaiting
| CliComplete
| CliFail.

Definition cli_reply (E : Env) (job : string) (o : Options) (c : CliReply)
  : M Output :=
  match c with
  | CliUpdatePost m u => update_post E job o m u
  | CliWaiting => cli_waiting E job o
  | CliComplete => cli_complete E job o
  | CliFail => cli_fail E job o
  end.

Definition cli_reply_command (c : CliReply) : Command :=
  match c with
  | CliUpdatePost _ _ => cmd_update
  | CliWaiting => cmd_waiting
  | CliComplete => cmd_complete
  | CliFail => cmd_fail
  end.

Definition cli_terminal_output (c : CliReply) : Output :=
  match c with
  | CliUpdatePost _ _ | CliWaiting => OutRejected "Job already terminated"
  | CliComplete | CliFail => OutNoop "Job already terminated"
  end.

(** The reply request of a command, into thread [ts] of [ch] titled [ttl],
    for a job whose state is [x]. *)
Definition cli_request (E : Env) (o : Options) (c : CliReply)
  (ch ts ttl : string) (x : ThreadState) : Call :=
  let mention := cli_mention (cli_reply_command c) o in
  match c with
  | CliUpdatePost m u =>
      UpsertThreadReply ch ts m
        (match o_level o with Some l => l | None => info end) mention
        (if u then progressMessageTs x else None)
  | CliWaiting =>
      PostWaiting ch ts ttl (waiting_reason o) mention (progressMessageTs x)
  | CliComplete =>
      PostComplete ch ts ttl (o_summary o) (o_next_suggestions o) mention
  | CliFail =>
      PostFail ch ts ttl (or_default (o_error o) "") (o_logs_hint o) mention
  end.

(** The state of the job that the reply phase leaves in the ledger, from the
    state [x] it found, the platform's answer [a] and the next two readings
    [t] and [t'] of the clock. *)
Definition cli_filed (o : Options) (c : CliReply) (x : ThreadState)
  (a : ReplyResult) (t t' : string) : ThreadState :=
  match c with
  | CliUpdatePost _ u =>
      let x1 := with_status in_progress t x in
      if reply_ok a && truthy_opt (reply_ts a) then
        if is_opt (o_hook_event o) "Stop"
        then touch t' (with_progress None x1)
        else if u
        then touch t' (with_progress (Some (or_default (reply_ts a) "")) x1)
        else x1
      else x1
  | CliWaiting => if reply_ok a then touch t (with_progress None x) else x
  | CliComplete => if reply_ok a then with_status completed t x else x
  | CliFail => if reply_ok a then with_status failed t x else x
  end.

Definition cli_result (c : CliReply) (a : ReplyResult) : Output :=
  match c with
  | CliUpdatePost _ _ => OutResult (reply_ok a) (reply_ts a)
  | _ => OutResult (reply_ok a) None
  end.

(** The fail command wants [--error]. *)
Definition cli_reply_ready (o : Options) (c : CliReply) : bool :=
  match c with
  | CliFail => truthy_opt (o_error o)
  | _ => true
  end.

(** The state that lazy creation files for [job]: the placeholder with its
    handle filled in, or a new state. *)
Definition lazy_state (job ttl : string) (st : option ThreadState)
  (a : PostResult) (t : string) : ThreadState :=
  match st with
  | Some x => touch t (with_threadTs (post_ts a) (post_permalink a) x)
  | None =>
      mkThreadState job (post_channel a) (post_ts a) ttl started t t
        (post_permalink a) None
  end.

(** No separator in [s]: [s] is a single path segment. *)
Fixpoint no_sep (sep : ascii) (s : string) : bool :=
  match s with
  | EmptyString => true
  | String c rest => negb (Ascii.eqb c sep) && no_sep sep rest
  end.

(** The requests issued between two states of the process. *)
Definition issued (s s' : Sys) : list Call :=
  skipn (length (calls s)) (calls s').

(** [m] keeps [I], however it ends. *)
Definition preserves (I : Sys -> Prop) {A : Type} (m : M A) : Prop :=
  forall s, I s -> I (snd (m s)).

Definition ledger_wf (s : Sys) : Prop := JsMap.wf (threads (store s)).

Create HintDb inv.

(** ** Vocabulary of the properties *)

Definition mcp_is_update (c : McpCall) : bool :=
  match c with
  | McpUpdate _ _ _ _ _ _ => true
  | _ => false
  end.

Definition cli_is_update (c : CliReply) : bool :=
  match c with
  | CliUpdatePost _ _ => true
  | _ => false
  end.

Definition status_of (job : string) (s : Sys) : option JobStatus :=
  option_map status (JsMap.get job (threads (store s))).

(** A platform that accepts top-level posts and refuses everything else. *)
Definition onlyTopPosts : list Call -> Call -> bool :=
  fun _ c => is_top_post c.

(** Every pending timer is the one its job's entry points to, and its handle
    is one that [setTimeout] has already given out. *)
Definition watchdog_wf (w : Watchdog) : Prop :=
  forall t, In t (timers w) ->
    (exists n, JsMap.get (timer_jobId t) (waitingNotifications w) = Some n /\
               wn_timeout n = timer_id t) /\
    timer_id t < nextTimer w.

Definition no_timer_for (job : string) (w : Watchdog) : Prop :=
  Forall (fun t => timer_jobId t <> job) (timers w).

(** The job whose "stalled" notice the firing of timer [id] posts, if any. *)
Definition notified_job (id : nat) (w : Watchdog) : option string :=
  match find (fun t => (timer_id t =? id)%nat) (timers w) with
  | Some t =>
      match JsMap.get (timer_jobId t) (waitingNotifications w) with
      | Some n => if notified n then None else Some (timer_jobId t)
      | None => None
      end
  | None => None
  end.

(** The timers come due in the order [ids]: the jobs whose notices are
    posted, in order. *)
Fixpoint stalled_jobs (E : Env) (ids : list nat) (s : Sys) : list string :=
  match ids with
  | [] => []
  | id :: rest =>
      match notified_job id (watchdog s) with
      | Some j => j :: stalled_jobs E rest (snd (fire E id s))
      | None => stalled_jobs E rest (snd (fire E id s))
      end
  end.

(** What an MCP reply tool does to the watchdog, when it gets as far as its
    thread ([resolved]) and finds the job not ended ([live]). *)
Definition mcp_watchdog (E : Env) (job : string) (c : McpCall)
  (st : option ThreadState) (w : Watchdog) : Watchdog :=
  match js_or (mcp_thread_ts c) (option_map threadTs st) with
  | Some t =>
      if truthy t then
        match c with
        | McpUpdate _ _ _ _ monitor ms =>
            if terminal_opt st then w
            else if not_false monitor
                 then wd_arm job (targetChannel E st) t ms
                        (wd_cancel job (wd_cancel job w))
                 else wd_cancel job w
        | McpWaiting _ _ _ => w
        | McpComplete _ _ _ _ | McpFail _ _ _ _ => wd_cancel job w
        end
      else w
  | None => w
  end.

(** The update command opens a new turn: the prompt of a UserPromptSubmit
    hook and no [--message]. *)
Definition new_turn (cmd : Command) (o : Options) : bool :=
  match cmd with
  | cmd_update =>
      negb (truthy_opt (o_message o))
      && is_opt (o_hook_event o) "UserPromptSubmit"
      && truthy_opt (o_prompt o)
  | _ => false
  end.

(** [getProgressMessageTs], as a function of the ledger. *)
Definition progress_of (job : string) (s : Sys) : option string :=
  match JsMap.get job (threads (store s)) with
  | Some x => progressMessageTs x
  | None => None
  end.

(** The state file at the path [p], which is not empty, holds the ledger of
    the process: reading it gives the map back.  True when a process starts,
    and after every operation. *)
Definition synced (p : string) (s : Sys) : Prop :=
  truthy p = true /\
  persistPath (store s) = Some p /\
  JsMap.wf (threads (store s)) /\
  loadFromDisk (Some p) (disk s) [] = threads (store s).

(** A ledger of [n] jobs, made by [n] calls of [create]. *)
Fixpoint fill (E : Env) (n : nat) (s : Sys) : Sys :=
  match n with
  | 0 => s
  | S k =>
      snd (create E (String.append "job-" (nat_str k)) "C0123456789"
             (String.append "1700000000." (nat_str k)) "Task" None
             (fill E k s))
  end.

(** The channel, thread handle and permalink of a state: what a start
    returns for a job on file. *)
Definition state_ids (x : ThreadState) : string * string * option string :=
  (channel x, threadTs x, permalink x).

Definition ids_of (job : string) (s : Sys)
  : option (string * string * option string) :=
  option_map state_ids (JsMap.get job (threads (store s))).

(** What can happen to a process: a start, a call of a reply tool, a command
    run on its ledger, a timer of the watchdog that fires. *)
Inductive Event : Type :=
| EvStart (job : string) (a : StartCall)
| EvMcp (job : string) (c : McpCall)
| EvCli (cmd : Command) (job : string) (o : Options)
    (stdin : option StdinData)
| EvTimer (id : nat).

(** The state after an event, whatever its outcome. *)
Definition handle (E : Env) (e : Event) (s : Sys) : Sys :=
  match e with
  | EvStart job a => snd (start E job a s)
  | EvMcp job c => snd (mcp E job c s)
  | EvCli cmd job o stdin => snd (cli_command E cmd job o stdin s)
  | EvTimer id => snd (fire E id s)
  end.

Definition serve (E : Env) (es : list Event) (s : Sys) : Sys :=
  fold_left (fun s e => handle E e s) es s.

(** From [s] to [s'], the identifiers [ids] stay on file for [job]. *)
Definition kept (job : string) (ids : string * string * option string)
  (s s' : Sys) : Prop :=
  ids_of job s = Some ids -> ids_of job s' = Some ids.

(** ** The arguments of the command line ([cli.ts], [index.ts]) *)

(** [s.startsWith(p)], [s.slice(n)] and [l.join(sep)]. *)
Fixpoint startsWith (p s : string) : bool :=
  match p, s with
  | EmptyString, _ => true
  | String _ _, EmptyString => false
  | String a p', String b s' => Ascii.eqb a b && startsWith p' s'
  end.

Fixpoint slice_from (n : nat) (s : string) : string :=
  match n, s with
  | 0, _ => s
  | S _, EmptyString => EmptyString
  | S k, String _ rest => slice_from k rest
  end.

Definition join (sep : string) (l : list string) : string :=
  String.concat sep l.

(** [Record<string, string>]: the own members of the object, in the order of
    their first assignment. *)
Definition RawOptions : Type := JsMap.t string.

(** [options[key] = value] on a plain object.  Assigning a string to
    [__proto__] reaches the setter of [Object.prototype], which ignores it. *)
Definition assign (key value : string) (o : RawOptions) : RawOptions :=
  if key =? "__proto__" then o else JsMap.set key value o.

(** [const [key, ...valueParts] = arg.slice(2).split("=");
     options[key] = valueParts.join("=") || "true"]. *)
Definition parse_option (arg : string) (o : RawOptions) : RawOptions :=
  match split "=" (slice_from 2 arg) with
  | key :: valueParts =>
      assign key (or_default (Some (join "=" valueParts)) "true") o
  | [] => o
  end.

(** [args[0] || "help"]. *)
Definition command_of (args : list string) : string :=
  or_default (hd_error args) "help".

(** The members of [interface StdinData] that [parseArgs] and [main] read
    from the JSON of a hook. *)
Record HookJson : Type := mkHookJson {
  h_session_id : option string;
  h_hook_event_name : option string;
  h_tool_name : option string;
  h_tool_input : option ToolInput;
  h_notification_type : option string;
  h_prompt : option string;
  h_message : option string;
  h_transcript_path : option string;
  h_cwd : option string
}.

(** [if (v) options[key] = v]. *)
Definition assign_if (key : string) (v : option string) (o : RawOptions)
  : RawOptions :=
  if truthy_opt v then JsMap.set key (or_default v "") o else o.

(** The loop of [parseArgs] over [args[1..]]. *)
Definition parse_options (args : list string) : RawOptions :=
  fold_left
    (fun o arg =>
       if startsWith "--" arg && negb (arg =? "--stdin")
       then parse_option arg o else o)
    (tl args) [].

(** What [parseArgs] copies from the JSON of the hook into [options]. *)
Definition hook_options (d : HookJson) (o : RawOptions) : RawOptions :=
  let o :=
    if truthy_opt (h_session_id d) && negb (truthy_opt (JsMap.get "job-id" o))
    then JsMap.set "job-id" (or_default (h_session_id d) "") o else o in
  let o := assign_if "_hook_event" (h_hook_event_name d) o in
  let o := assign_if "_tool_name" (h_tool_name d) o in
  let o := assign_if "_notification_type" (h_notification_type d) o in
  let o := assign_if "_prompt" (h_prompt d) o in
  let o := assign_if "_message" (h_message d) o in
  let o := assign_if "_transcript_path" (h_transcript_path d) o in
  assign_if "_cwd" (h_cwd d) o.

(** [parseArgs] of [cli.ts], without its writes to the debug log and, under
    [--save-env], to [CLAUDE_ENV_FILE].  [stdin] is the object that
    [JSON.parse] makes of the standard input; [None] when the input is empty
    or does not parse.  It is looked at only under [--stdin]. *)
Definition parseArgs (args : list string) (stdin : option HookJson)
  : string * RawOptions * option HookJson :=
  let useStdin := existsb (String.eqb "--stdin") args in
  let options := parse_options args in
  match (if useStdin then stdin else None) with
  | Some d => (command_of args, hook_options d options, Some d)
  | None => (command_of args, options, None)
  end.

(** [process.env]: the variables that are set. *)
Definition ProcessEnv : Type := JsMap.t string.

(** [options["job-id"] || process.env.SLACK_THREAD_JOB_ID] of [main]; without
    either the process exits with an error. *)
Definition resolve_job_id (options : RawOptions) (env : ProcessEnv)
  : option string :=
  let j := js_or (JsMap.get "job-id" options)
             (JsMap.get "SLACK_THREAD_JOB_ID" env) in
  if truthy_opt j then j else None.

(** The argument [--key=value]. *)
Definition option_arg (key value : string) : string :=
  String.append "--" (String.append key (String "=" value)).

(** The argument [--key]. *)
Definition flag_arg (key : string) : string := String.append "--" key.

(** Every value of [o] is a non-empty string. *)
Definition all_truthy (o : RawOptions) : Prop :=
  Forall (fun kv => truthy (snd kv) = true) o.

(** [process.env.SLACK_THREAD_JOB_ID], when set and not empty. *)
Definition env_job_id (env : ProcessEnv) : option string :=
  if truthy_opt (JsMap.get "SLACK_THREAD_JOB_ID" env)
  then JsMap.get "SLACK_THREAD_JOB_ID" env else None.

(** ** The environment and the configuration ([cli.ts], [index.ts],
    [config.ts]) *)

(** White space of [String.prototype.trim], among the characters of a Rocq
    string: tab to carriage return, space, no-break space. *)
Definition is_space (c : ascii) : bool :=
  let n := nat_of_ascii c in
  (Nat.leb 9 n && Nat.leb n 13) || Nat.eqb n 32 || Nat.eqb n 160.

Fixpoint trimStart (s : string) : string :=
  match s with
  | EmptyString => EmptyString
  | String c rest => if is_space c then trimStart rest else s
  end.

Fixpoint trimEnd (s : string) : string :=
  match s with
  | EmptyString => EmptyString
  | String c rest =>
      match trimEnd rest with
      | EmptyString => if is_space c then EmptyString else String c EmptyString
      | r => String c r
      end
  end.

Definition trim (s : string) : string := trimEnd (trimStart s).

(** [value.replace(/^["']|["']$/g, "")]: a quote of either kind is taken off
    the front, and one off the end of what is left. *)
Definition is_quote (c : ascii) : bool :=
  Ascii.eqb c "034" || Ascii.eqb c "'".

Definition strip_leading (s : string) : string :=
  match s with
  | EmptyString => EmptyString
  | String c rest => if is_quote c then rest else s
  end.

Fixpoint strip_trailing (s : string) : string :=
  match s with
  | EmptyString => EmptyString
  | String c EmptyString => if is_quote c then EmptyString else s
  | String c rest => String c (strip_trailing rest)
  end.

Definition strip_quotes (s : string) : string :=
  strip_trailing (strip_leading s).

(** What one line of [.env] defines: nothing for a blank line or a comment,
    else [[key, ...valueParts] = trimmed.split("=")] and the value without its
    quotes. *)
Definition dotenv_entry (line : string) : option (string * string) :=
  let trimmed := trim line in
  if truthy trimmed && negb (startsWith "#" trimmed) then
    match split "=" trimmed with
    | key :: valueParts => Some (key, strip_quotes (join "=" valueParts))
    | [] => None
    end
  else None.

(** [if (key && !process.env[key]) process.env[key] = value]. *)
Definition dotenv_define (env : ProcessEnv) (e : string * string)
  : ProcessEnv :=
  if truthy (fst e) && negb (truthy_opt (JsMap.get (fst e) env))
  then JsMap.set (fst e) (snd e) env else env.

Definition dotenv_step (env : ProcessEnv) (line : string) : ProcessEnv :=
  match dotenv_entry line with
  | Some e => dotenv_define env e
  | None => env
  end.

(** [loadDotEnv]; [file] is the content of [.env] in the working directory,
    [None] when there is no such file or it cannot be read. *)
Definition loadDotEnv (file : option string) (env : ProcessEnv) : ProcessEnv :=
  match file with
  | Some content => fold_left dotenv_step (split "010" content) env
  | None => env
  end.

(** [interface GlobalConfig]. *)
Record GlobalConfig : Type := mkGlobalConfig {
  g_slackBotToken : option string;
  g_slackDefaultChannel : option string;
  g_slackMentionUserIds : option (list string);
  g_slackMentionGroupId : option string;
  g_slackPostPrefix : option string;
  g_threadStatePath : option string
}.

Definition emptyGlobalConfig : GlobalConfig :=
  mkGlobalConfig None None None None None None.

(** One of [GLOBAL_CONFIG_PATHS]: no file there, a file that cannot be read
    or parsed, or the object it parses to. *)
Inductive ConfigFile : Type :=
| ConfigMissing
| ConfigUnreadable
| ConfigParsed (g : GlobalConfig).

(** [loadGlobalConfig], over the files at [GLOBAL_CONFIG_PATHS] in order. *)
Fixpoint loadGlobalConfig (files : list ConfigFile) : GlobalConfig :=
  match files with
  | [] => emptyGlobalConfig
  | ConfigParsed g :: _ => g
  | _ :: rest => loadGlobalConfig rest
  end.

(** [interface Config] of the command lines, [interface EnvConfig] of the
    server. *)
Record Config : Type := mkConfig {
  slackBotToken : string;
  slackDefaultChannel : string;
  slackMentionUserIds : option (list string);
  slackMentionGroupId : option string;
  slackPostPrefix : option string;
  threadStatePath : option string
}.

Inductive ConfigError : Type :=
| TokenNotSet      (* "SLACK_BOT_TOKEN is not set" *)
| ChannelNotSet.   (* "SLACK_DEFAULT_CHANNEL is not set" *)

(** [raw ? raw.split(",").map((id) => id.trim()) : undefined]. *)
Definition mentionUserIds_of (raw : option string) : option (list string) :=
  if truthy_opt raw
  then Some (map trim (split "," (or_default raw "")))
  else None.

(** What [resolveConfig] makes of the environment and of the global
    configuration, once [.env] is loaded. *)
Definition config_of (env : ProcessEnv) (g : GlobalConfig)
  : Config + ConfigError :=
  let token := js_or (JsMap.get "SLACK_BOT_TOKEN" env) (g_slackBotToken g) in
  let channel :=
    js_or (JsMap.get "SLACK_DEFAULT_CHANNEL" env) (g_slackDefaultChannel g) in
  if negb (truthy_opt token) then inr TokenNotSet
  else if negb (truthy_opt channel) then inr ChannelNotSet
  else
    inl (mkConfig (or_default token "") (or_default channel "")
           (mentionUserIds_of
              (js_or (JsMap.get "SLACK_MENTION_USER_IDS" env)
                 (option_map (join ",") (g_slackMentionUserIds g))))
           (js_or (JsMap.get "SLACK_MENTION_GROUP_ID" env)
              (g_slackMentionGroupId g))
           (js_or (JsMap.get "SLACK_POST_PREFIX" env) (g_slackPostPrefix g))
           (js_or (JsMap.get "THREAD_STATE_PATH" env) (g_threadStatePath g))).

(** [resolveConfig] of the command lines: the environment it leaves, and the
    configuration or the error it exits with. *)
Definition resolveConfig (dotenv : option string) (files : list ConfigFile)
  (env : ProcessEnv) : ProcessEnv * (Config + ConfigError) :=
  let env := loadDotEnv dotenv env in
  (env, config_of env (loadGlobalConfig files)).

(** [loadEnvConfig] of [config.ts], the configuration of the MCP server. *)
Definition loadEnvConfig (env : ProcessEnv) : Config + ConfigError :=
  let token := JsMap.get "SLACK_BOT_TOKEN" env in
  let channel := JsMap.get "SLACK_DEFAULT_CHANNEL" env in
  if negb (truthy_opt token) then inr TokenNotSet
  else if negb (truthy_opt channel) then inr ChannelNotSet
  else
    inl (mkConfig (or_default token "") (or_default channel "")
           (mentionUserIds_of (JsMap.get "SLACK_MENTION_USER_IDS" env))
           (JsMap.get "SLACK_MENTION_GROUP_ID" env)
           (JsMap.get "SLACK_POST_PREFIX" env)
           (JsMap.get "THREAD_STATE_PATH" env)).

(** The entries of a [.env] file, in order. *)
Definition dotenv_entries (content : string) : list (string * string) :=
  flat_map (fun line => match dotenv_entry line with
                        | Some e => [e]
                        | None => []
                        end)
    (split "010" content).

(** The first non-empty value that the entries give to [key]. *)
Definition first_value (key : string) (entries : list (string * string))
  : option string :=
  option_map snd
    (find (fun e => (fst e =? key) && truthy (snd e)) entries).

(** [key] is named by an entry. *)
Definition defined_in (key : string) (entries : list (string * string))
  : bool :=
  existsb (fun e => fst e =? key) entries.

(** The value of a variable as the command lines resolve it: the
    environment, else the first non-empty value in [.env], else the global
    configuration. *)
Definition pick (env : ProcessEnv) (entries : list (string * string))
  (name : string) (global : option string) : option string :=
  js_or (js_or (JsMap.get name env) (first_value name entries)) global.

Fixpoint all_space (s : string) : bool :=
  match s with
  | EmptyString => true
  | String c rest => is_space c && all_space rest
  end.

(** The last character of [s] is white space. *)
Fixpoint ends_with_space (s : string) : bool :=
  match s with
  | EmptyString => false
  | String c EmptyString => is_space c
  | String _ rest => ends_with_space rest
  end.

(** [key] starts with a character that is neither white space nor [#]. *)
Definition key_start (key : string) : bool :=
  match key with
  | EmptyString => false
  | String c _ => negb (is_space c) && negb (Ascii.eqb c "#")
  end.

(** A text of several lines. *)
Definition lines (l : list string) : string :=
  join (String "010" EmptyString) l.

(** ** The command that [main] runs ([cli.ts]) *)










(** Two option objects that agree on every key but [key]. *)
Definition agree_but (key : string) (o o' : RawOptions) : Prop :=
  forall k, k <> key -> JsMap.get k o = JsMap.get k o'.

(** ** The texts that the Slack client posts ([lib/slack-client.ts]) *)

(** [interface SlackConfig]. *)
Record SlackConfig : Type := mkSlackConfig {
  cfg_botToken : string;
  cfg_defaultChannel : string;
  cfg_mentionUserIds : option (list string);
  cfg_mentionGroupId : option string;
  cfg_postPrefix : option string;
  cfg_useChannelMention : option bool
}.

(** The [SlackConfig] that [index.ts] and the command lines build from their
    configuration; none of them sets [useChannelMention]. *)
Definition slackConfig_of (c : Config) : SlackConfig :=
  mkSlackConfig (slackBotToken c) (slackDefaultChannel c)
    (slackMentionUserIds c) (slackMentionGroupId c) (slackPostPrefix c) None.

Section Texts.

Variable cfg : SlackConfig.

Definition formatPrefix (text : string) : string :=
  if truthy_opt (cfg_postPrefix cfg)
  then String.append (or_default (cfg_postPrefix cfg) "")
         (String.append " " text)
  else text.

(** The targets that [formatMention] collects: the users, then the group. *)
Definition mentions : list string :=
  (match cfg_mentionUserIds cfg with
   | Some ids => map (fun id => String.append "<@" (String.append id ">")) ids
   | None => []
   end)
  ++ (if truthy_opt (cfg_mentionGroupId cfg)
      then [String.append "<!subteam^"
              (String.append (or_default (cfg_mentionGroupId cfg) "") ">")]
      else []).

Definition formatMention : string :=
  if Nat.eqb (length mentions) 0 && not_false (cfg_useChannelMention cfg)
  then "<!channel>"
  else if Nat.ltb 0 (length mentions) then join " " mentions
  else "".

(** [mention ? this.formatMention() : ""]. *)
Definition mentionText (mention : bool) : string :=
  if mention then formatMention else "".

(** [${x ? `\n\n${x}` : ""}] and [${x ? `\n${x}` : ""}]. *)
Definition paragraph (x : string) : string :=
  if truthy x then String "010" (String "010" x) else "".

Definition line (x : string) : string :=
  if truthy x then String "010" x else "".

(** [Object.entries(meta).map(([k, v]) => `• ${k}: ${v}`).join("\n")]; the
    values of [meta] are the strings that the template makes of them. *)
Definition metaText (meta : option Meta) : string :=
  match meta with
  | Some entries =>
      lines (map (fun kv =>
                    String.append "• "
                      (String.append (fst kv) (String.append ": " (snd kv))))
               entries)
  | None => ""
  end.

(** The [text] of each [chat.postMessage]. *)
Definition parentText (ttl : string) (meta : option Meta) (mention : bool)
  : string :=
  formatPrefix
    (String.append "🚀 *Started:* "
       (String.append ttl
          (String.append (line (metaText meta))
             (paragraph (mentionText mention))))).

Definition levelEmoji (level : Level) : string :=
  match level with
  | warn => "⚠️"
  | debug => "🔍"
  | info => "⏳"
  end.

Definition replyText (message : string) (level : Level) (mention : bool)
  : string :=
  String.append (levelEmoji level)
    (String.append " "
       (String.append message (paragraph (mentionText mention)))).

Definition suggestionsText (nextSuggestions : option (list string)) : string :=
  match nextSuggestions with
  | Some (s :: rest) =>
      String.append
        (String "010" (String "010" (String.append "*次の候補:*"
                                         (String "010" EmptyString))))
        (lines (map (fun s => String.append "• " s) (s :: rest)))
  | _ => ""
  end.

Definition completeText (ttl : string) (summary : option string)
  (nextSuggestions : option (list string)) (mention : bool) : string :=
  formatPrefix
    (String.append "✅ *Done:* "
       (String.append ttl
          (String.append (line (or_default summary ""))
             (String.append (suggestionsText nextSuggestions)
                (paragraph (mentionText mention)))))).

Definition logsText (logsHint : option string) : string :=
  if truthy_opt logsHint
  then String "010" (String "010"
         (String.append "*ログ:* " (or_default logsHint "")))
  else "".

Definition failText (ttl errorSummary : string) (logsHint : option string)
  (mention : bool) : string :=
  formatPrefix
    (String.append "❌ *Failed:* "
       (String.append ttl
          (String "010"
             (String.append errorSummary
                (String.append (logsText logsHint)
                   (paragraph (mentionText mention))))))).

Definition waitingText (ttl reason : string) (mention : bool) : string :=
  formatPrefix
    (String.append "⏸️ *Waiting:* "
       (String.append ttl
          (String "010"
             (String.append reason (paragraph (mentionText mention)))))).

End Texts.

(** The configuration with another prefix, and with other targets of a
    mention. *)
Definition with_postPrefix (p : option string) (cfg : SlackConfig)
  : SlackConfig :=
  mkSlackConfig (cfg_botToken cfg) (cfg_defaultChannel cfg)
    (cfg_mentionUserIds cfg) (cfg_mentionGroupId cfg) p
    (cfg_useChannelMention cfg).

Definition with_mentions (ids : option (list string)) (group : option string)
  (channel : option bool) (cfg : SlackConfig) : SlackConfig :=
  mkSlackConfig (cfg_botToken cfg) (cfg_defaultChannel cfg) ids group
    (cfg_postPrefix cfg) channel.

(** ** The transcript of the session ([cli.ts]) *)

(** A block of [entry.message.content]. *)
Record Block : Type := mkBlock {
  block_type : string;
  block_text : option string
}.

(** A line of the transcript that parses: [entry.type] and
    [entry.message?.content]. *)
Record TranscriptEntry : Type := mkTranscriptEntry {
  entry_type : string;
  entry_content : option (list Block)
}.

(** [block.type === "text" && block.text]. *)
Definition is_text_block (b : Block) : bool :=
  (block_type b =? "text") && truthy_opt (block_text b).

(** The body of the loop of [getLastAssistantResponse] on one line.  A line
    is [None] when [JSON.parse] throws on it, or when the search throws on
    what it parses to: both are caught, and the loop goes on. *)
Definition assistant_text (maxLength : nat) (line : option TranscriptEntry)
  : option string :=
  match line with
  | Some entry =>
      if entry_type entry =? "assistant" then
        match entry_content entry with
        | Some content =>
            match rev (filter is_text_block content) with
            | lastBlock :: _ =>
                Some (truncate maxLength (or_default (block_text lastBlock) ""))
            | [] => None
            end
        | None => None
        end
      else None
  | None => None
  end.

(** The first result of [f], in the order of [l]. *)
Fixpoint first_some {A B : Type} (f : A -> option B) (l : list A) : option B :=
  match l with
  | [] => None
  | a :: rest =>
      match f a with
      | Some b => Some b
      | None => first_some f rest
      end
  end.

(** [getLastAssistantResponse]: the lines of the file from the last to the
    first; [None] for the file when it does not exist or cannot be read. *)
Definition getLastAssistantResponse
  (file : option (list (option TranscriptEntry))) (maxLength : nat)
  : option string :=
  match file with
  | Some lines => first_some (assistant_text maxLength) (rev lines)
  | None => None
  end.

(** ** The MCP server over time *)

(** [has(jobId)]. *)
Definition has (job : string) : M bool :=
  gets (fun s => match JsMap.get job (threads (store s)) with
                 | Some _ => true
                 | None => false
                 end).

(** What happens to the server between its start and its end: a tool is
    called, or a timer of the watchdog comes due. *)
Inductive ServerEvent : Type :=
| SvStart (job ttl : string) (ch : option string) (meta : option Meta)
    (mention : option bool)
| SvCall (job : string) (c : McpCall)
| SvTimer (id : nat).

Definition server_step (E : Env) (e : ServerEvent) (s : Sys) : Sys :=
  match e with
  | SvStart job ttl ch meta mention =>
      snd (slack_thread_start E job ttl ch meta mention s)
  | SvCall job c => snd (mcp E job c s)
  | SvTimer id => snd (fire E id s)
  end.

Definition server_run (E : Env) (es : list ServerEvent) (s : Sys) : Sys :=
  fold_left (fun s e => server_step E e s) es s.

(** How far a job has come. *)
Definition rank (st : JobStatus) : nat :=
  match st with
  | started => 0
  | in_progress => 1
  | completed | failed => 2
  end.

(** [x'] is a later state of the job of [x]: what identifies the job and its
    thread is the same, the status has not gone back, and a job that has
    ended is as it was. *)
Definition later_state (x x' : ThreadState) : Prop :=
  jobId x' = jobId x /\ channel x' = channel x /\ threadTs x' = threadTs x /\
  title x' = title x /\ createdAt x' = createdAt x /\
  permalink x' = permalink x /\
  rank (status x) <= rank (status x') /\
  (terminal x = true -> x' = x).

(** No two pending timers are for the same job. *)
Definition one_timer_per_job (w : Watchdog) : Prop :=
  NoDup (map timer_jobId (timers w)).

(** The pending timers of [job]. *)
Definition timers_of (job : string) (w : Watchdog) : list Timer :=
  filter (fun t => timer_jobId t =? job) (timers w).

(** The channel a request goes to. *)
Definition call_channel (c : Call) : string :=
  match c with
  | PostParentMessage ch _ _ _ => ch
  | PostThreadReply ch _ _ _ _ => ch
  | PostComplete ch _ _ _ _ _ => ch
  | PostFail ch _ _ _ _ _ => ch
  | PostWaiting ch _ _ _ _ _ => ch
  | UpsertThreadReply ch _ _ _ _ _ => ch
  end.

(** ** The command line of [index.ts] *)

Module IndexTs.

(** [parseArgs]. *)
Definition parseArgs (args : list string) : string * RawOptions :=
  (command_of args,
   fold_left
     (fun o arg => if startsWith "--" arg then parse_option arg o else o)
     (tl args) []).

Section Commands.

Variable E : Env.

(** [options.mention !== "false"]. *)
Definition mention (o : Options) : bool := negb (is_opt (o_mention o) "false").

(** [options.channel || config.slackDefaultChannel]. *)
Definition channel_of (o : Options) : string :=
  or_default (o_channel o) (defaultChannel E).

(** [options["thread-ts"] || state?.threadTs], then the exit when there is
    none. *)
Definition target_thread (thread_ts : option string)
  (state : option ThreadState) : M string :=
  match js_or thread_ts (option_map threadTs state) with
  | Some ts => if truthy ts then ret ts else throw ThreadNotFound
  | None => throw ThreadNotFound
  end.

(** [state?.channel || channel]. *)
Definition target_channel (o : Options) (state : option ThreadState)
  : string :=
  or_default (option_map channel state) (channel_of o).

(** [state && threadStore.isTerminal(jobId)]. *)
Definition ended (state : option ThreadState) (job : string) : M bool :=
  match state with
  | Some _ => isTerminal job
  | None => ret false
  end.

Definition start (job : string) (o : Options) : M Output :=
  if negb (truthy_opt (o_title o)) then throw (MissingOption "title")
  else
    let ttl := or_default (o_title o) "" in
    existing <- get job ;;
    match existing with
    | Some existing =>
        ret (OutThread (jobId existing) (channel existing) (threadTs existing)
               (permalink existing) (Some "Reused existing thread"))
    | None =>
        match o_meta o with
        | BadMeta => throw InvalidMeta
        | meta =>
            let meta := match meta with GoodMeta m => Some m | _ => None end in
            result <- postParentMessage E (channel_of o) ttl meta (mention o) ;;
            if negb (post_ok result) then throw SlackPostFailed
            else
              state <- create E job (post_channel result) (post_ts result) ttl
                         (post_permalink result) ;;
              ret (OutThread (jobId state) (channel state) (threadTs state)
                     (permalink state) None)
        end
    end.

Definition update (job : string) (thread_ts : option string) (o : Options)
  : M Output :=
  if negb (truthy_opt (o_message o)) then throw (MissingOption "message")
  else
    state <- get job ;;
    targetThreadTs <- target_thread thread_ts state ;;
    terminal <- ended state job ;;
    if terminal then ret (OutRejected "Job already terminated")
    else
      match state with
      | Some _ => _ <- updateStatus E job in_progress ;; ret tt
      | None => ret tt
      end ;;
      result <- postThreadReply E (target_channel o state) targetThreadTs
                  (or_default (o_message o) "")
                  (match o_level o with Some l => l | None => info end)
                  false ;;
      ret (OutResult (reply_ok result) None).

Definition waiting (job : string) (thread_ts : option string) (o : Options)
  : M Output :=
  state <- get job ;;
  targetThreadTs <- target_thread thread_ts state ;;
  terminal <- ended state job ;;
  if terminal then ret (OutRejected "Job already terminated")
  else
    result <- postWaiting E (target_channel o state) targetThreadTs
                (or_default (option_map title state) job)
                (or_default (o_reason o) "Waiting for permission or user input")
                (mention o) None ;;
    ret (OutResult (reply_ok result) None).

Definition complete (job : string) (thread_ts : option string) (o : Options)
  : M Output :=
  state <- get job ;;
  targetThreadTs <- target_thread thread_ts state ;;
  terminal <- ended state job ;;
  if terminal then ret (OutNoop "Job already terminated")
  else
    result <- postComplete E (target_channel o state) targetThreadTs
                (or_default (option_map title state) job)
                (o_summary o) (o_next_suggestions o) (mention o) ;;
    match state with
    | Some _ =>
        when_ (reply_ok result) (_ <- updateStatus E job completed ;; ret tt)
    | None => ret tt
    end ;;
    ret (OutResult (reply_ok result) None).

Definition fail (job : string) (thread_ts : option string) (o : Options)
  : M Output :=
  if negb (truthy_opt (o_error o)) then throw (MissingOption "error")
  else
    state <- get job ;;
    targetThreadTs <- target_thread thread_ts state ;;
    terminal <- ended state job ;;
    if terminal then ret (OutNoop "Job already terminated")
    else
      result <- postFail E (target_channel o state) targetThreadTs
                  (or_default (option_map title state) job)
                  (or_default (o_error o) "") (o_logs_hint o) (mention o) ;;
      match state with
      | Some _ =>
          when_ (reply_ok result) (_ <- updateStatus E job failed ;; ret tt)
      | None => ret tt
      end ;;
      ret (OutResult (reply_ok result) None).

(** The [switch] of [main], after the exit for a missing [--job-id].
    [thread_ts] is [options["thread-ts"]]. *)
Definition main (cmd : Command) (job : option string)
  (thread_ts : option string) (o : Options) : M Output :=
  if negb (truthy_opt job) then throw (MissingOption "job-id")
  else
    let jobId := or_default job "" in
    match cmd with
    | cmd_start => start jobId o
    | cmd_update => update jobId thread_ts o
    | cmd_waiting => waiting jobId thread_ts o
    | cmd_complete => complete jobId thread_ts o
    | cmd_fail => fail jobId thread_ts o
    | cmd_other => throw UnknownCommand
    end.

End Commands.

End IndexTs.

(** The call of an MCP reply tool that does what a reply command of
    [index.ts] does, if there is one: update wants a message, fail an
    error. *)
Definition as_mcp_call (cmd : Command) (thread_ts : option string)
  (o : Options) : option McpCall :=
  match cmd with
  | cmd_update =>
      if truthy_opt (o_message o)
      then Some (McpUpdate (or_default (o_message o) "") thread_ts (o_level o)
                   None (Some false) None)
      else None
  | cmd_waiting =>
      Some (McpWaiting thread_ts
              (Some (or_default (o_reason o)
                       "Waiting for permission or user input"))
              (Some (IndexTs.mention o)))
  | cmd_complete =>
      Some (McpComplete thread_ts (o_summary o) (o_next_suggestions o)
              (Some (IndexTs.mention o)))
  | cmd_fail =>
      if truthy_opt (o_error o)
      then Some (McpFail thread_ts (or_default (o_error o) "") (o_logs_hint o)
                   (Some (IndexTs.mention o)))
      else None
  | _ => None
  end.

(** Two outcomes that differ at most in the wording of a note. *)
Definition same_outcome (a b : Result Output) : Prop :=
  match a, b with
  | Ok (OutResult ok _), Ok (OutResult ok' _) => ok = ok'
  | Ok (OutRejected _), Ok (OutRejected _) => True
  | Ok (OutNoop _), Ok (OutNoop _) => True
  | Thrown e, Thrown e' => e = e'
  | _, _ => False
  end.

(** ** The message of the update command *)

(** There is something for the update command to post: [--message], the
    prompt of a UserPromptSubmit hook, the tool of a hook, or the transcript
    of a Stop hook. *)
Definition has_message_source (o : Options) (stdin : option StdinData)
  : bool :=
  truthy_opt (o_message o)
  || (is_opt (o_hook_event o) "UserPromptSubmit" && truthy_opt (o_prompt o))
  || truthy_opt (match stdin with Some d => tool_name d | None => None end)
  || (is_opt (o_hook_event o) "Stop" && truthy_opt (o_transcript_path o)).

(** ** The debounce table of the ledger ([scheduleUpdate], [flushUpdate]) *)

(** [interface DebounceEntry]; [timeout] is the handle that [setTimeout]
    returned. *)
Record DebounceEntry : Type := mkDebounceEntry {
  de_message : string;
  de_level : Level;
  de_timeout : nat
}.

(** A pending [setTimeout] of [scheduleUpdate]: its handle, and the job,
    message and level that its callback closes over. *)
Record DebounceTimer : Type := mkDebounceTimer {
  dt_id : nat;
  dt_jobId : string;
  dt_message : string;
  dt_level : Level
}.

(** [ThreadStore.pendingUpdates], the pending timers of the runtime, the
    handle that the next [setTimeout] returns, and the calls of the
    callbacks so far: the job each was scheduled for, and its arguments. *)
Record Debouncer : Type := mkDebouncer {
  pendingUpdates : JsMap.t DebounceEntry;
  debounceTimers : list DebounceTimer;
  nextDebounceTimer : nat;
  delivered : list (string * string * Level)
}.

Definition noDebouncer : Debouncer := mkDebouncer [] [] 0 [].

Definition clearDebounce (id : nat) (ts : list DebounceTimer)
  : list DebounceTimer :=
  filter (fun t => negb (dt_id t =? id)%nat) ts.

(** [scheduleUpdate(jobId, message, level, callback)]. *)
Definition scheduleUpdate (job message : string) (level : Level)
  (d : Debouncer) : Debouncer :=
  let cleared :=
    match JsMap.get job (pendingUpdates d) with
    | Some existing => clearDebounce (de_timeout existing) (debounceTimers d)
    | None => debounceTimers d
    end in
  let id := nextDebounceTimer d in
  mkDebouncer
    (JsMap.set job (mkDebounceEntry message level id) (pendingUpdates d))
    (cleared ++ [mkDebounceTimer id job message level])
    (S id)
    (delivered d).

(** [flushUpdate(jobId)]. *)
Definition flushUpdate (job : string) (d : Debouncer)
  : option DebounceEntry * Debouncer :=
  match JsMap.get job (pendingUpdates d) with
  | Some entry =>
      (Some entry,
       mkDebouncer (JsMap.delete job (pendingUpdates d))
         (clearDebounce (de_timeout entry) (debounceTimers d))
         (nextDebounceTimer d) (delivered d))
  | None => (None, d)
  end.

(** The timer with handle [id] comes due: its callback takes the job off the
    table and calls [callback(message, level)].  A handle that was cleared,
    or whose timer has run, runs nothing. *)
Definition fireDebounce (id : nat) (d : Debouncer) : Debouncer :=
  match find (fun t => (dt_id t =? id)%nat) (debounceTimers d) with
  | Some t =>
      mkDebouncer (JsMap.delete (dt_jobId t) (pendingUpdates d))
        (clearDebounce id (debounceTimers d))
        (nextDebounceTimer d)
        (delivered d ++ [(dt_jobId t, dt_message t, dt_level t)])
  | None => d
  end.

(** Every pending timer is the one its job's entry points to, with a handle
    that [setTimeout] has given out; and no job has two of them. *)
Definition debouncer_wf (d : Debouncer) : Prop :=
  (forall t, In t (debounceTimers d) ->
     (exists e, JsMap.get (dt_jobId t) (pendingUpdates d) = Some e /\
                de_timeout e = dt_id t) /\
     dt_id t < nextDebounceTimer d) /\
  NoDup (map dt_jobId (debounceTimers d)).

(** The calls of the callbacks for [job]. *)
Definition delivered_for (job : string) (d : Debouncer)
  : list (string * Level) :=
  map (fun x => (snd (fst x), snd x))
    (filter (fun x => fst (fst x) =? job) (delivered d)).

(** The timers come due in the order [ids]. *)
Definition fireAll (ids : list nat) (d : Debouncer) : Debouncer :=
  fold_left (fun d id => fireDebounce id d) ids d.

(** What a caller does to the table of another job or of this one: schedule
    or flush. *)
Inductive DebounceCall : Type :=
| Schedule (job message : string) (level : Level)
| Flush (job : string)
| Due (id : nat).

Definition debounce_step (d : Debouncer) (c : DebounceCall) : Debouncer :=
  match c with
  | Schedule job message level => scheduleUpdate job message level d
  | Flush job => snd (flushUpdate job d)
  | Due id => fireDebounce id d
  end.

Definition debounce_run (cs : list DebounceCall) (d : Debouncer) : Debouncer :=
  fold_left debounce_step cs d.

(** ** Every operation of the three entry points *)

(** A tool of the server, a command of [cli.ts], a command of [index.ts]
    with its [--thread-ts], or a timer that comes due. *)
Inductive Operation : Type :=
| OpStart (job ttl : string) (ch : option string) (meta : option Meta)
    (mention : option bool)
| OpTool (job : string) (c : McpCall)
| OpCli (cmd : Command) (job : string) (o : Options)
    (stdin : option StdinData)
| OpIndex (cmd : Command) (job thread_ts : option string) (o : Options)
| OpTimer (id : nat).

Definition operate (E : Env) (op : Operation) (s : Sys) : Sys :=
  match op with
  | OpStart job ttl ch meta mention =>
      snd (slack_thread_start E job ttl ch meta mention s)
  | OpTool job c => snd (mcp E job c s)
  | OpCli cmd job o stdin => snd (cli_command E cmd job o stdin s)
  | OpIndex cmd job thread_ts o => snd (IndexTs.main E cmd job thread_ts o s)
  | OpTimer id => snd (fire E id s)
  end.

(** The operation is a call of the update tool of the server. *)
Definition is_update_tool (op : Operation) : bool :=
  match op with
  | OpTool _ c => mcp_is_update c
  | _ => false
  end.

(** [--meta] as [postParentMessage] gets it. *)
Definition meta_of (o : Options) : option Meta :=
  match o_meta o with
  | GoodMeta m => Some m
  | _ => None
  end.

(** Two outcomes of a start that name the same thread, or are the same
    error. *)
Definition same_thread (a b : Result Output) : Prop :=
  match a, b with
  | Ok out, Ok out' => thread_ids out = thread_ids out' /\ thread_ids out <> None
  | Thrown e, Thrown e' => e = e'
  | _, _ => False
  end.

Definition with_channel (ch : string) (o : Options) : Options :=
  mkOptions (o_title o) (o_silent o) (o_message o) (o_level o) (o_reason o)
    (o_summary o) (o_error o) (o_logs_hint o) (Some ch) (o_mention o)
    (o_meta o) (o_upsert o) (o_next_suggestions o) (o_hook_event o)
    (o_notification_type o) (o_prompt o) (o_hook_message o)
    (o_transcript_path o) (o_cwd o).

(** * Properties *)

(** ** JavaScript values *)

Module JSFacts.

Lemma truthy_opt_Some (x : option string) :
  truthy_opt x = true -> exists s, x = Some s /\ s <> "".
Proof.
  destruct x as [s|]; simpl; [|discriminate].
  unfold truthy. intros H. exists s. split; [reflexivity|].
  intros ->. discriminate.
Qed.

Lemma truthy_neq (s : string) : s <> "" -> truthy s = true.
Proof.
  intros H. unfold truthy. destruct (String.eqb_spec s ""); [contradiction|reflexivity].
Qed.

Lemma truthy_true (s : string) : truthy s = true -> s <> "".
Proof.
  unfold truthy. destruct (String.eqb_spec s ""); [discriminate|auto].
Qed.

Lemma js_or_left (s : string) (b : option string) :
  s <> "" -> js_or (Some s) b = Some s.
Proof. intros H. unfold js_or. simpl. now rewrite truthy_neq. Qed.

Lemma or_default_truthy (s d : string) :
  truthy s = true -> or_default (Some s) d = s.
Proof. intros H. simpl. now rewrite H. Qed.

End JSFacts.
Import JSFacts.

(** ** The map *)

Module JsMapFacts.

Section Facts.

Variable V : Type.
Implicit Types (m : JsMap.t V) (k : string) (v : V).

Lemma get_set_same m k v : JsMap.get k (JsMap.set k v m) = Some v.
Proof.
  induction m as [|[k' v'] m IH]; simpl.
  - now rewrite String.eqb_refl.
  - destruct (k' =? k) eqn:Hk; simpl.
    + now rewrite String.eqb_refl.
    + now rewrite Hk.
Qed.

Lemma get_set_other m k k' v :
  k' <> k -> JsMap.get k' (JsMap.set k v m) = JsMap.get k' m.
Proof.
  intros Hne. induction m as [|[k0 v0] m IH]; simpl.
  - destruct (String.eqb_spec k k'); [congruence|reflexivity].
  - destruct (String.eqb_spec k0 k) as [->|Hk]; simpl.
    + destruct (String.eqb_spec k k'); [congruence|reflexivity].
    + now rewrite IH.
Qed.

Lemma get_None_notin m k : JsMap.get k m = None <-> ~ In k (JsMap.keys m).
Proof.
  induction m as [|[k0 v0] m IH]; simpl.
  - tauto.
  - destruct (String.eqb_spec k0 k) as [->|Hk].
    + split; [discriminate|]. intros H. exfalso. apply H. now left.
    + rewrite IH. tauto.
Qed.

Lemma set_fresh m k v :
  ~ In k (JsMap.keys m) -> JsMap.set k v m = m ++ [(k, v)].
Proof.
  induction m as [|[k0 v0] m IH]; simpl; intros Hnin; [reflexivity|].
  destruct (String.eqb_spec k0 k) as [->|Hk].
  - exfalso. apply Hnin. now left.
  - rewrite IH; [reflexivity|tauto].
Qed.

Lemma keys_set_present m k v v0 :
  JsMap.get k m = Some v0 -> JsMap.keys (JsMap.set k v m) = JsMap.keys m.
Proof.
  induction m as [|[k1 v1] m IH]; simpl; [discriminate|].
  destruct (String.eqb_spec k1 k) as [->|Hk]; simpl; intros H.
  - reflexivity.
  - now rewrite IH.
Qed.

Lemma get_In m k v : JsMap.get k m = Some v -> In (k, v) m.
Proof.
  induction m as [|[k1 v1] m IH]; simpl; [discriminate|].
  destruct (String.eqb_spec k1 k) as [->|Hk]; intros H.
  - left. congruence.
  - right. auto.
Qed.

Lemma In_set m k v kv :
  In kv (JsMap.set k v m) -> kv = (k, v) \/ In kv m.
Proof.
  induction m as [|[k1 v1] m IH]; simpl.
  - intros [H|[]]. now left.
  - destruct (k1 =? k); simpl; intros [H|H]; auto.
    destruct (IH H); auto.
Qed.

End Facts.

(** [set] at the state's own [jobId] keeps the ledger well formed. *)
Lemma wf_nil : JsMap.wf [].
Proof. split; constructor. Qed.

Lemma wf_set (m : JsMap.t ThreadState) (st : ThreadState) :
  JsMap.wf m -> JsMap.wf (JsMap.set (jobId st) st m).
Proof.
  intros [Hnd Hk]. split.
  - destruct (JsMap.get (jobId st) m) as [v0|] eqn:Hg.
    + now rewrite (keys_set_present _ m (jobId st) st v0 Hg).
    + apply get_None_notin in Hg. rewrite set_fresh by assumption.
      unfold JsMap.keys in *. rewrite map_app. simpl.
      apply NoDup_rev in Hnd. rewrite <- rev_involutive.
      apply NoDup_rev. rewrite rev_app_distr. simpl.
      constructor; [|assumption]. now rewrite <- in_rev.
  - apply Forall_forall. intros kv Hin.
    destruct (In_set _ _ _ _ _ Hin) as [->|Hin']; [reflexivity|].
    rewrite Forall_forall in Hk. auto.
Qed.

End JsMapFacts.
Import JsMapFacts.

(** ** The state file *)

Lemma load_states_app (l : JsMap.t ThreadState) : forall acc,
  NoDup (JsMap.keys (acc ++ l)) ->
  Forall (fun kv => fst kv = jobId (snd kv)) l ->
  load_states (map Some (JsMap.values l)) acc = acc ++ l.
Proof.
  induction l as [|[k v] l IH]; intros acc Hnd Hk; simpl.
  - now rewrite app_nil_r.
  - inversion Hk as [|? ? Hkv Hk']; subst. simpl in Hkv. subst k.
    assert (Hfresh : ~ In (jobId v) (JsMap.keys acc)).
    { unfold JsMap.keys in *. rewrite map_app in Hnd. simpl in Hnd.
      apply NoDup_remove_2 in Hnd. intros Hin. apply Hnd.
      apply in_or_app. now left. }
    rewrite set_fresh by assumption.
    rewrite IH.
    + now rewrite <- app_assoc.
    + now rewrite <- app_assoc.
    + assumption.
Qed.

(** A well-formed ledger is read back from its own image. *)
Lemma load_saved (m : JsMap.t ThreadState) (p : string) :
  truthy p = true ->
  JsMap.wf m ->
  loadFromDisk (Some p) (saved m) [] = m.
Proof.
  intros Hp [Hnd Hk]. unfold loadFromDisk, saved. cbn [truthy_opt].
  rewrite Hp. now rewrite load_states_app.
Qed.


(** ** Invariants of the ledger *)

Section Preservation.

Variable I : Sys -> Prop.

Lemma preserves_ret {A} (a : A) : preserves I (ret a).
Proof. intros s H. exact H. Qed.

Lemma preserves_throw {A} (e : Error) : preserves I (@throw A e).
Proof. intros s H. exact H. Qed.

Lemma preserves_gets {A} (f : Sys -> A) : preserves I (gets f).
Proof. intros s H. exact H. Qed.

Lemma preserves_modify (f : Sys -> Sys) :
  (forall s, I s -> I (f s)) -> preserves I (modify f).
Proof. intros Hf s H. simpl. auto. Qed.

Lemma preserves_bind {A B} (m : M A) (k : A -> M B) :
  preserves I m -> (forall a, preserves I (k a)) -> preserves I (bind m k).
Proof.
  intros Hm Hk s H. unfold bind. specialize (Hm s H).
  destruct (m s) as [[a|e] s']; simpl in *; auto.
  now apply Hk.
Qed.

Lemma preserves_when (b : bool) (m : M unit) :
  preserves I m -> preserves I (when_ b m).
Proof. intros Hm. destruct b; simpl; auto using preserves_ret. Qed.

Lemma preserves_if {A} (b : bool) (m1 m2 : M A) :
  preserves I m1 -> preserves I m2 -> preserves I (if b then m1 else m2).
Proof. now destruct b. Qed.

End Preservation.

#[local] Hint Resolve preserves_ret preserves_throw preserves_gets
  preserves_when preserves_if : inv.

(** Syntax-directed proof that a computation keeps an invariant: split at
    every [bind], and case on what the code cases on. *)
Ltac preserve_step :=
  match goal with
  | |- preserves _ (bind _ _) => apply preserves_bind; [|intros ?]
  | |- preserves _ (ret _) => apply preserves_ret
  | |- preserves _ (throw _) => apply preserves_throw
  | |- preserves _ (gets _) => apply preserves_gets
  | |- preserves _ (when_ _ _) => apply preserves_when
  | |- preserves _ (if ?b then _ else _) => destruct b
  | |- preserves _ (match ?x with _ => _ end) => destruct x
  | |- preserves _ (let '(_, _) := ?x in _) => destruct x
  end.

Section LedgerInvariant.

Variable E : Env.

Lemma get_jobId (s : Sys) (job : string) (st : ThreadState) :
  ledger_wf s -> JsMap.get job (threads (store s)) = Some st -> jobId st = job.
Proof.
  intros [_ Hk] Hg. apply get_In in Hg.
  rewrite Forall_forall in Hk. symmetry. exact (Hk _ Hg).
Qed.

Lemma wf_now : preserves ledger_wf (now E).
Proof. intros s H. exact H. Qed.

Lemma wf_saveToDisk : preserves ledger_wf saveToDisk.
Proof. apply preserves_modify. intros s H. exact H. Qed.

Lemma wf_get (job : string) : preserves ledger_wf (get job).
Proof. apply preserves_gets. Qed.

Lemma wf_create (job ch ts ttl : string) (link : option string) :
  preserves ledger_wf (create E job ch ts ttl link).
Proof.
  unfold create. apply preserves_bind; [apply wf_now|intros t].
  apply preserves_bind; [|intros _].
  - apply preserves_modify. intros s H. unfold ledger_wf. simpl.
    exact (wf_set _ (mkThreadState job ch ts ttl started t t link None) H).
  - apply preserves_bind; [apply wf_saveToDisk|intros _; apply preserves_ret].
Qed.

(** Rewriting the state of [job] with one of the same [jobId]. *)
Lemma wf_replace (job : string) (f : ThreadState -> ThreadState) (s : Sys)
  (st : ThreadState) :
  (forall x, jobId (f x) = jobId x) ->
  ledger_wf s ->
  JsMap.get job (threads (store s)) = Some st ->
  ledger_wf (put_thread job (f st) s).
Proof.
  intros Hf H Hg. unfold ledger_wf. simpl.
  rewrite <- (get_jobId s job st H Hg), <- (Hf st). now apply wf_set.
Qed.

Lemma wf_updateStatus (job : string) (x : JobStatus) :
  preserves ledger_wf (updateStatus E job x).
Proof.
  intros s H. unfold updateStatus, bind, get, gets, now, modify, saveToDisk, ret.
  simpl. destruct (JsMap.get job (threads (store s))) as [st|] eqn:Hg; simpl;
    [|exact H].
  assert (Hw := wf_replace job (with_status x (toISOString E (ticks s)))
                  s st (fun _ => eq_refl) H Hg).
  exact Hw.
Qed.

Lemma wf_updateThreadTs (job ts : string) (link : option string) :
  preserves ledger_wf (updateThreadTs E job ts link).
Proof.
  intros s H.
  unfold updateThreadTs, bind, get, gets, now, modify, saveToDisk, ret.
  simpl. destruct (JsMap.get job (threads (store s))) as [st|] eqn:Hg; simpl;
    [|exact H].
  assert (Hw := wf_replace job
                  (fun x => touch (toISOString E (ticks s))
                              (with_threadTs ts link x))
                  s st (fun _ => eq_refl) H Hg).
  exact Hw.
Qed.

Lemma wf_setProgress (job : string) (p : option string) :
  preserves ledger_wf (setProgress E job p).
Proof.
  intros s H.
  unfold setProgress, bind, get, gets, now, modify, saveToDisk, ret.
  simpl. destruct (JsMap.get job (threads (store s))) as [st|] eqn:Hg; simpl;
    [|exact H].
  assert (Hw := wf_replace job
                  (fun x => touch (toISOString E (ticks s)) (with_progress p x))
                  s st (fun _ => eq_refl) H Hg).
  exact Hw.
Qed.

Lemma wf_isTerminal (job : string) : preserves ledger_wf (isTerminal job).
Proof. unfold isTerminal, get. repeat preserve_step. Qed.

Lemma wf_getProgressMessageTs (job : string) :
  preserves ledger_wf (getProgressMessageTs job).
Proof. unfold getProgressMessageTs, get. repeat preserve_step. Qed.

Lemma wf_request_post (c : Call) : preserves ledger_wf (request_post E c).
Proof. intros s H. exact H. Qed.

Lemma wf_request_reply (c : Call) : preserves ledger_wf (request_reply E c).
Proof. intros s H. exact H. Qed.

Lemma wf_cancel (job : string) : preserves ledger_wf (cancelWaitingMonitor job).
Proof.
  apply preserves_modify. intros s H. exact H.
Qed.

Lemma wf_startWaitingMonitor (job ch ts : string) (ms : option N) :
  preserves ledger_wf (startWaitingMonitor job ch ts ms).
Proof.
  unfold startWaitingMonitor. apply preserves_bind; [apply wf_cancel|intros _].
  apply preserves_modify. intros s H. exact H.
Qed.

(** A ledger read from any file is well formed. *)
Lemma wf_load_states (elems : list (option ThreadState)) : forall m,
  JsMap.wf m -> JsMap.wf (load_states elems m).
Proof.
  induction elems as [|[state|] elems IH]; intros m H; simpl;
    [exact H| |exact H].
  apply IH. now apply wf_set.
Qed.

Lemma wf_loadFromDisk (path : option string) (d : FileContent)
  (m : JsMap.t ThreadState) :
  JsMap.wf m -> JsMap.wf (loadFromDisk path d m).
Proof.
  intros H. unfold loadFromDisk.
  destruct (truthy_opt path); [|exact H].
  destruct d; try exact H. now apply wf_load_states.
Qed.

Lemma wf_newThreadStore (path : option string) (d : FileContent) :
  JsMap.wf (threads (newThreadStore path d)).
Proof.
  unfold newThreadStore. simpl.
  destruct (truthy_opt path); [|apply wf_nil].
  apply wf_loadFromDisk, wf_nil.
Qed.

End LedgerInvariant.

#[local] Hint Resolve wf_now wf_saveToDisk wf_get wf_create wf_updateStatus
  wf_updateThreadTs wf_setProgress wf_isTerminal wf_getProgressMessageTs
  wf_request_post wf_request_reply wf_cancel wf_startWaitingMonitor : inv.

Ltac preserve := repeat (first [preserve_step | solve [auto with inv]]).

Section OperationsKeepLedger.

Variable E : Env.

Lemma wf_slack_thread_start job ttl ch meta mention :
  preserves ledger_wf (slack_thread_start E job ttl ch meta mention).
Proof. unfold slack_thread_start, postParentMessage. preserve. Qed.

Lemma wf_slack_thread_update job msg ts level mention monitor ms :
  preserves ledger_wf (slack_thread_update E job msg ts level mention monitor ms).
Proof.
  unfold slack_thread_update, require_thread, known_and_terminal,
    postThreadReply. preserve.
Qed.

Lemma wf_slack_thread_waiting job ts reason mention :
  preserves ledger_wf (slack_thread_waiting E job ts reason mention).
Proof.
  unfold slack_thread_waiting, require_thread, known_and_terminal, postWaiting.
  preserve.
Qed.

Lemma wf_slack_thread_complete job ts summary next mention :
  preserves ledger_wf (slack_thread_complete E job ts summary next mention).
Proof.
  unfold slack_thread_complete, require_thread, known_and_terminal,
    postComplete. preserve.
Qed.

Lemma wf_slack_thread_fail job ts err hint mention :
  preserves ledger_wf (slack_thread_fail E job ts err hint mention).
Proof.
  unfold slack_thread_fail, require_thread, known_and_terminal, postFail.
  preserve.
Qed.

Lemma wf_ensureThread job ch ttl cwd mention :
  preserves ledger_wf (ensureThread E job ch ttl cwd mention).
Proof. unfold ensureThread, postParentMessage. preserve. Qed.

Lemma wf_update_message job o stdin :
  preserves ledger_wf (update_message E job o stdin).
Proof.
  unfold update_message, clearProgressMessageTs. preserve.
Qed.

Lemma wf_cli_command cmd job o stdin :
  preserves ledger_wf (cli_command E cmd job o stdin).
Proof.
  destruct cmd; simpl;
    unfold cli_start, cli_update, update_post, cli_waiting, cli_complete,
      cli_fail, postParentMessage, postComplete, postFail, postWaiting,
      upsertThreadReply, clearProgressMessageTs, updateProgressMessageTs;
    preserve; auto using wf_ensureThread, wf_update_message with inv.
Qed.

(** Every ledger a process ever holds is well formed. *)
Lemma wf_cli_main path cmd job o stdin (s : Sys) :
  ledger_wf (snd (cli_main E path cmd job o stdin s)).
Proof.
  unfold cli_main. apply wf_cli_command. apply wf_newThreadStore.
Qed.

Lemma wf_mcp_boot path (s : Sys) : ledger_wf (mcp_boot path s).
Proof. apply wf_newThreadStore. Qed.

End OperationsKeepLedger.

(** ** C9: the state file *)

(** Without a path, and with the empty path, there is no state file: nothing
    is written, and a new store reads nothing. *)
Lemma no_path_no_file (s : Sys) (path : option string) (d : FileContent) :
  truthy_opt path = false ->
  (persistPath (store s) = path -> saveToDisk s = (Ok tt, s)) /\
  threads (newThreadStore path d) = [].
Proof.
  intros Hp. split.
  - intros Hs. unfold saveToDisk, modify, persist. rewrite Hs, Hp.
    now destruct s.
  - unfold newThreadStore. simpl. now rewrite Hp.
Qed.

(** States with distinct identifiers, written one after the other, are read
    into a map that lists them as written. *)
Lemma load_states_listed (xs : list ThreadState) :
  NoDup (map jobId xs) ->
  JsMap.values (load_states (map Some xs) []) = xs.
Proof.
  intros Hnd.
  set (l := map (fun x => (jobId x, x)) xs).
  assert (Hv : JsMap.values l = xs).
  { unfold JsMap.values, l. rewrite map_map. simpl. apply map_id. }
  assert (Hk : JsMap.keys l = map jobId xs).
  { unfold JsMap.keys, l. now rewrite map_map. }
  rewrite <- Hv at 1. rewrite (load_states_app l []).
  - exact Hv.
  - simpl. now rewrite Hk.
  - unfold l. apply Forall_forall. intros kv Hin.
    apply in_map_iff in Hin. destruct Hin as (x & <- & _). reflexivity.
Qed.

(** C9.  Persisting a ledger of N states (distinct job identifiers, each
    filed under its own identifier) to the configured path, constructing a new
    ledger from that file and calling list() yields the N states that were
    persisted, member for member and in the same order; for every N, so for
    0, 1 and 50.  The same holds of any N states with distinct identifiers
    that the file holds. *)
Theorem C9_roundtrip_persistence (s : Sys) (p : string) :
  truthy p = true ->
  persistPath (store s) = Some p ->
  JsMap.wf (threads (store s)) ->
  let states := JsMap.values (threads (store s)) in
  let written := snd (saveToDisk s) in
  let restarted := with_store (newThreadStore (Some p) (disk written)) written in
  disk written = JsonArray (map Some states) /\
  fst (list_ restarted) = Ok states /\
  store restarted = store s /\
  (forall xs : list ThreadState,
     NoDup (map jobId xs) ->
     fst (list_ (with_store (newThreadStore (Some p) (JsonArray (map Some xs)))
                   s))
     = Ok xs).
Proof.
  intros Ht Hp Hwf.
  assert (Hd : disk (snd (saveToDisk s)) = saved (threads (store s))).
  { unfold saveToDisk, modify, persist. simpl. rewrite Hp. cbn [truthy_opt].
    now rewrite Ht. }
  assert (Hnew : newThreadStore (Some p) (disk (snd (saveToDisk s))) = store s).
  { unfold newThreadStore. cbn [truthy_opt]. rewrite Ht, Hd.
    rewrite (load_saved _ p Ht Hwf).
    destruct (store s) as [m q]. simpl in *. now subst q. }
  cbv zeta. split; [exact Hd|].
  unfold list_, gets, with_store. cbn [fst store].
  rewrite Hnew. split; [reflexivity|]. split; [reflexivity|].
  intros xs Hnd. unfold newThreadStore, loadFromDisk. cbn [truthy_opt threads].
  rewrite Ht. now rewrite load_states_listed.
Qed.

(** ** Frame lemmas of the primitives *)

Section Frames.
Variable E : Env.

Lemma store_cancel job s : store (cancel_monitor job s) = store s.
Proof. reflexivity. Qed.
Lemma disk_cancel job s : disk (cancel_monitor job s) = disk s.
Proof. reflexivity. Qed.
Lemma ticks_cancel job s : ticks (cancel_monitor job s) = ticks s.
Proof. reflexivity. Qed.
Lemma calls_cancel job s : calls (cancel_monitor job s) = calls s.
Proof. reflexivity. Qed.
End Frames.

Ltac unfold_m := unfold bind, ret, throw, gets, modify, when_ in *.
Ltac sys :=
  repeat progress
    (simpl; rewrite ?store_cancel, ?disk_cancel, ?ticks_cancel, ?calls_cancel).

(** ** C10: a reply into an explicit thread of an unknown job *)

(** C10.  When the MCP update or waiting tool is called with an explicit,
    non-empty [thread_ts] for a [job_id] that the ledger does not hold, the
    reply is posted into that thread of the default channel, and the ledger is
    left as it was: the map, the state file and the clock are unchanged, so no
    state is created for the job and no status is set. *)
Theorem C10_explicit_thread_leaves_ledger (E : Env) (s : Sys)
  (job ts msg : string) (level : option Level) (mention monitor : option bool)
  (ms : option N) (reason : option string) :
  JsMap.get job (threads (store s)) = None ->
  ts <> "" ->
  (let '(r, s') :=
     slack_thread_update E job msg (Some ts) level mention monitor ms s in
   let c := PostThreadReply (defaultChannel E) ts msg
              (match level with Some l => l | None => info end)
              (is_true mention) in
   r = Ok (OutResult (reply_ok (reply_answer E (calls s) c)) None) /\
   calls s' = calls s ++ [c] /\
   store s' = store s /\ disk s' = disk s /\ ticks s' = ticks s /\
   JsMap.get job (threads (store s')) = None)
  /\
  (let '(r, s') := slack_thread_waiting E job (Some ts) reason mention s in
   let c := PostWaiting (defaultChannel E) ts job
              (or_default reason "権限確認またはユーザー入力待ち")
              (not_false mention) None in
   r = Ok (OutResult (reply_ok (reply_answer E (calls s) c)) None) /\
   calls s' = calls s ++ [c] /\
   store s' = store s /\ disk s' = disk s /\ ticks s' = ticks s /\
   JsMap.get job (threads (store s')) = None).
Proof.
  intros Habsent Hts. split.
  - unfold slack_thread_update, get, targetThreadTs, targetChannel,
      require_thread, known_and_terminal, cancelWaitingMonitor,
      startWaitingMonitor, cancelWaitingMonitor, postThreadReply, request_reply.
    unfold_m. rewrite Habsent. simpl option_map.
    rewrite js_or_left by assumption. rewrite truthy_neq by assumption.
    destruct (not_false monitor); repeat split; sys; auto.
  - unfold slack_thread_waiting, get, targetThreadTs, targetChannel,
      require_thread, known_and_terminal, postWaiting, request_reply.
    unfold_m. rewrite Habsent. simpl option_map.
    rewrite js_or_left by assumption. rewrite truthy_neq by assumption.
    repeat split; sys; auto.
Qed.

(** ** C2: start is idempotent *)

(** A start for a job that the ledger holds returns the stored identifiers
    and does nothing else, whatever its arguments and its transport. *)
Lemma start_existing (E : Env) (s : Sys) (job : string) (st : ThreadState)
  (b : StartCall) :
  JsMap.get job (threads (store s)) = Some st ->
  exists out, start E job b s = (Ok out, s) /\
              thread_ids out = Some (channel st, threadTs st, permalink st).
Proof.
  intros Hg. destruct b; simpl;
    unfold slack_thread_start, cli_start, get, bind, gets, ret; rewrite Hg;
    eexists; split; reflexivity.
Qed.

(** A start that posts, for a job that the ledger does not hold: one
    top-level request, accepted by the platform, and the job filed under the
    identifiers returned. *)
Lemma start_new (E : Env) (s s1 : Sys) (job : string) (a : StartCall)
  (out1 : Output) :
  JsMap.get job (threads (store s)) = None ->
  silent_start a = false ->
  start E job a s = (Ok out1, s1) ->
  exists c st,
    is_top_post c = true /\ calls s1 = calls s ++ [c] /\
    post_ok (post_answer E (calls s) c) = true /\
    thread_ids out1 = Some (channel st, threadTs st, permalink st) /\
    JsMap.get job (threads (store s1)) = Some st.
Proof.
  intros Habsent Hsilent Hrun.
  destruct a as [ttl ch meta mention|o]; simpl in Hsilent, Hrun.
  - unfold slack_thread_start, get, postParentMessage, request_post, create,
      now, saveToDisk in Hrun.
    unfold_m. rewrite Habsent in Hrun.
    match type of Hrun with
    | context [post_answer E (calls s) ?c] =>
        exists c; destruct (post_ok (post_answer E (calls s) c)) eqn:Hok
    end; simpl in Hrun; [|discriminate].
    injection Hrun as <- <-. eexists. sys.
    rewrite get_set_same. repeat split; reflexivity.
  - unfold cli_start, get, postParentMessage, request_post, create,
      now, saveToDisk in Hrun.
    unfold_m. rewrite Habsent, Hsilent in Hrun.
    destruct (o_meta o) eqn:Hmeta; try discriminate;
    match type of Hrun with
    | context [post_answer E (calls s) ?c] =>
        exists c; destruct (post_ok (post_answer E (calls s) c)) eqn:Hok
    end; simpl in Hrun; try discriminate;
    injection Hrun as <- <-; eexists; sys;
    rewrite get_set_same; repeat split; reflexivity.
Qed.

(** C2.  After a successful start of a new job (one that posts: the MCP tool,
    or the command without [--silent]), a later start for the same job, with
    any title and arguments and over either transport, returns the channel,
    thread handle and permalink that the first start returned, posts nothing
    and leaves the process state as it is; the first start issued exactly one
    request, a top-level post, so that exactly one top-level message is posted
    across both calls. *)
Theorem C2_start_idempotent (E : Env) (s s1 : Sys) (job : string)
  (a b : StartCall) (out1 : Output) :
  JsMap.get job (threads (store s)) = None ->
  silent_start a = false ->
  start E job a s = (Ok out1, s1) ->
  exists (c : Call) (out2 : Output) (ids : string * string * option string),
    is_top_post c = true /\ issued s s1 = [c] /\
    thread_ids out1 = Some ids /\
    start E job b s1 = (Ok out2, s1) /\
    thread_ids out2 = Some ids /\
    issued s1 (snd (start E job b s1)) = [].
Proof.
  intros Habsent Hsilent Hrun.
  destruct (start_new E s s1 job a out1 Habsent Hsilent Hrun)
    as (c & st & Htop & Hcalls & _ & Hids & Hg).
  destruct (start_existing E s1 job st b Hg) as (out2 & Hrun2 & Hids2).
  exists c, out2, (channel st, threadTs st, permalink st).
  repeat split; auto.
  - unfold issued. rewrite Hcalls. rewrite skipn_app, Nat.sub_diag, skipn_all.
    reflexivity.
  - rewrite Hrun2. unfold issued. simpl. apply skipn_all.
Qed.

(** ** The MCP tools, case by case *)

Lemma issued_app (s s' : Sys) (l : list Call) :
  calls s' = calls s ++ l -> issued s s' = l.
Proof.
  intros H. unfold issued. rewrite H, skipn_app, Nat.sub_diag, skipn_all.
  reflexivity.
Qed.

Lemma issued_same (s s' : Sys) : calls s' = calls s -> issued s s' = [].
Proof. intros H. unfold issued. rewrite H. apply skipn_all. Qed.

Ltac unfold_mcp :=
  unfold mcp, slack_thread_update, slack_thread_waiting, slack_thread_complete,
    slack_thread_fail, targetThreadTs, require_thread,
    known_and_terminal, isTerminal, updateStatus, get, now, saveToDisk,
    startWaitingMonitor, cancelWaitingMonitor,
    postThreadReply, postWaiting, postComplete, postFail, request_reply in *.

(** What an MCP reply tool does, case by case. *)
Lemma mcp_run (E : Env) (job : string) (c : McpCall) (s : Sys) :
  let st := JsMap.get job (threads (store s)) in
  let s' := snd (mcp E job c s) in
  let r := fst (mcp E job c s) in
  match js_or (mcp_thread_ts c) (option_map threadTs st) with
  | Some t =>
      if truthy t then
        if terminal_opt st then
          r = Ok (mcp_terminal_output c) /\
          calls s' = calls s /\ store s' = store s /\ disk s' = disk s /\
          ticks s' = ticks s
        else
          let c0 := mcp_request E job c st t in
          let ok := reply_ok (reply_answer E (calls s) c0) in
          r = Ok (OutResult ok None) /\
          calls s' = calls s ++ [c0] /\
          threads (store s') =
            match st, mcp_status c ok with
            | Some x, Some new =>
                JsMap.set job (with_status new (toISOString E (ticks s)) x)
                  (threads (store s))
            | _, _ => threads (store s)
            end
      else r = Thrown ThreadNotFound /\ s' = s
  | None => r = Thrown ThreadNotFound /\ s' = s
  end.
Proof.
  cbv zeta.
  destruct c as [msg ts level mention monitor ms|ts reason mention
                 |ts summary next mention|ts err hint mention];
    unfold_mcp; unfold_m; cbv beta;
    destruct (JsMap.get job (threads (store s))) as [x|] eqn:Hg;
    cbn [option_map terminal_opt mcp_thread_ts];
    match goal with
    | |- context [js_or ?a ?b] => destruct (js_or a b) as [t|] eqn:Ht
    end.
  all: try solve [sys; auto].
  all: destruct (truthy t) eqn:Htt; [|solve [sys; auto]]; unfold terminal.
  all: try destruct (JobStatus_eqb (status x) completed
                  || JobStatus_eqb (status x) failed) eqn:Hterm.
  all: repeat progress (sys; rewrite ?Hg, ?Hterm).
  all: repeat match goal with
       | |- context [if ?b then _ else _] => destruct b eqn:?
       end.
  all: repeat progress (sys; rewrite ?Hg, ?Hterm).
  all: auto.
Qed.

(** ** The command line, case by case *)

Ltac break_if :=
  repeat match goal with
         | |- context [if ?b then _ else _] => destruct b eqn:?
         end.

(** [ensureThread], case by case: the stored thread, or one top-level post
    and, when it is accepted, the handle filed. *)
Lemma ensureThread_run (E : Env) (job ch : string) (ttl cwd : option string)
  (mention : bool) (s : Sys) :
  let st := JsMap.get job (threads (store s)) in
  let r := fst (ensureThread E job ch ttl cwd mention s) in
  let s1 := snd (ensureThread E job ch ttl cwd mention s) in
  match st with
  | Some x =>
      if truthy (threadTs x) then
        r = Ok (mkLazyInitResult (threadTs x) (channel x) (title x) false) /\
        s1 = s
      else
        let top := PostParentMessage ch (lazy_title_of ttl st cwd) None mention in
        let a := post_answer E (calls s) top in
        if post_ok a then
          r = Ok (mkLazyInitResult (post_ts a) (post_channel a)
                    (lazy_title_of ttl st cwd) true) /\
          s1 = persist (put_thread job
                  (touch (toISOString E (ticks s))
                     (with_threadTs (post_ts a) (post_permalink a) x))
                  (tick (log_call top s)))
        else r = Thrown LazyCreateFailed /\ s1 = log_call top s
  | None =>
      let top := PostParentMessage ch (lazy_title_of ttl st cwd) None mention in
      let a := post_answer E (calls s) top in
      if post_ok a then
        r = Ok (mkLazyInitResult (post_ts a) (post_channel a)
                  (lazy_title_of ttl st cwd) true) /\
        s1 = persist (put_thread job
                (mkThreadState job (post_channel a) (post_ts a)
                   (lazy_title_of ttl st cwd) started
                   (toISOString E (ticks s)) (toISOString E (ticks s))
                   (post_permalink a) None)
                (tick (log_call top s)))
      else r = Thrown LazyCreateFailed /\ s1 = log_call top s
  end.
Proof.
  cbv zeta. unfold ensureThread, get, postParentMessage, request_post,
    updateThreadTs, create, get, now, saveToDisk. unfold_m. cbv beta.
  destruct (JsMap.get job (threads (store s))) as [x|] eqn:Hg;
    cbn [option_map truthy_opt].
  - destruct (truthy (threadTs x)) eqn:Htt; [auto|].
    destruct (post_ok _) eqn:Hok; sys; rewrite ?Hg; sys; auto.
  - destruct (post_ok _) eqn:Hok; sys; rewrite ?Hg; sys; auto.
Qed.

Lemma set_set {V} (m : JsMap.t V) (k : string) (v1 v2 : V) :
  JsMap.set k v2 (JsMap.set k v1 m) = JsMap.set k v2 m.
Proof.
  induction m as [|[k' v'] m IH]; simpl.
  - now rewrite String.eqb_refl.
  - destruct (k' =? k) eqn:Hk; simpl.
    + now rewrite String.eqb_refl.
    + now rewrite Hk, IH.
Qed.

Lemma set_get_same {V} (m : JsMap.t V) (k : string) (v : V) :
  JsMap.get k m = Some v -> JsMap.set k v m = m.
Proof.
  induction m as [|[k' v'] m IH]; simpl; [discriminate|].
  destruct (String.eqb_spec k' k) as [->|Hk]; intros H.
  - congruence.
  - now rewrite IH.
Qed.

Ltac unfold_cli :=
  unfold cli_reply, update_post, cli_waiting, cli_complete, cli_fail,
    ensureThread, isTerminal, updateStatus, getProgressMessageTs,
    clearProgressMessageTs, updateProgressMessageTs, setProgress,
    updateThreadTs, create, get, now, saveToDisk,
    postParentMessage, postWaiting, postComplete, postFail, upsertThreadReply,
    request_post, request_reply in *.

Ltac crunch Hs :=
  repeat progress (sys; rewrite ?get_set_same, ?set_set, ?Hs).

Ltac known_if :=
  match goal with
  | H : ?b = _ |- context [if ?b then _ else _] => rewrite H
  end.

Ltac split_if :=
  match goal with
  | |- context [if ?b then _ else _] => destruct b eqn:?
  end.

Ltac run Hs := repeat first [progress crunch Hs | known_if | split_if].

(** The reply phase of a command for a job with a stored thread: nothing for
    a job that has ended, else one reply request and the state filed. *)
Lemma cli_reply_stored (E : Env) (job : string) (o : Options) (c : CliReply)
  (s : Sys) (x : ThreadState) :
  JsMap.get job (threads (store s)) = Some x ->
  truthy (threadTs x) = true ->
  cli_reply_ready o c = true ->
  let r := fst (cli_reply E job o c s) in
  let s' := snd (cli_reply E job o c s) in
  if terminal x then r = Ok (cli_terminal_output c) /\ s' = s
  else
    let c0 := cli_request E o c (channel x) (threadTs x) (title x) x in
    let a := reply_answer E (calls s) c0 in
    r = Ok (cli_result c a) /\
    calls s' = calls s ++ [c0] /\
    threads (store s') =
      JsMap.set job
        (cli_filed o c x a (toISOString E (ticks s))
           (toISOString E (S (ticks s))))
        (threads (store s)) /\
    persistPath (store s') = persistPath (store s).
Proof.
  intros Hg Htt Hready. cbv zeta.
  destruct c as [m u| | |]; simpl in Hready; unfold_cli; unfold_m; cbv beta;
    rewrite ?Hready; cbn [negb]; rewrite Hg; cbn [option_map truthy_opt];
    rewrite Htt; unfold terminal;
    destruct (JobStatus_eqb (status x) completed
              || JobStatus_eqb (status x) failed) eqn:Hterm;
    run Hg; rewrite ?(set_get_same _ _ _ Hg); auto.
Qed.

(** The reply phase of a command for a job without a stored thread: the
    top-level post first, whatever the status on file. *)
Lemma cli_reply_lazy (E : Env) (job : string) (o : Options) (c : CliReply)
  (s : Sys) :
  let st := JsMap.get job (threads (store s)) in
  truthy_opt (option_map threadTs st) = false ->
  cli_reply_ready o c = true ->
  let r := fst (cli_reply E job o c s) in
  let s' := snd (cli_reply E job o c s) in
  let ttl := lazy_title_of (o_title o) st (o_cwd o) in
  let top := PostParentMessage (cli_channel E o) ttl None
               (cli_mention (cli_reply_command c) o) in
  let a_top := post_answer E (calls s) top in
  if post_ok a_top then
    let x1 := lazy_state job ttl st a_top (toISOString E (ticks s)) in
    let t1 := toISOString E (S (ticks s)) in
    let t2 := toISOString E (S (S (ticks s))) in
    if terminal x1 then
      r = Ok (cli_terminal_output c) /\
      calls s' = calls s ++ [top] /\
      threads (store s') = JsMap.set job x1 (threads (store s))
    else
      let c0 := cli_request E o c (post_channel a_top) (post_ts a_top) ttl x1 in
      let a := reply_answer E (calls s ++ [top]) c0 in
      r = Ok (cli_result c a) /\
      calls s' = calls s ++ [top; c0] /\
      threads (store s') =
        JsMap.set job (cli_filed o c x1 a t1 t2) (threads (store s)) /\
      persistPath (store s') = persistPath (store s)
  else r = Thrown LazyCreateFailed /\ s' = log_call top s.
Proof.
  cbv zeta. intros Hfalsy Hready.
  destruct c as [m u| | |]; simpl in Hready; unfold_cli; unfold_m; cbv beta;
    rewrite ?Hready; cbn [negb]; rewrite Hfalsy;
    destruct (JsMap.get job (threads (store s))) as [x|] eqn:Hg;
    cbn [cli_reply_command lazy_state];
    unfold terminal; run Hg; rewrite <- ?app_assoc; auto.

Qed.

(** ** Where a reply goes *)

Section PathSegments.

Variable sep : ascii.

Lemma split_nonempty (s : string) : split sep s <> [].
Proof.
  destruct s as [|c rest]; simpl; [discriminate|].
  destruct (Ascii.eqb c sep); [discriminate|].
  destruct (split sep rest); discriminate.
Qed.

Lemma split_app (a b : string) :
  split sep (String.append a (String sep b)) = split sep a ++ split sep b.
Proof.
  induction a as [|c a IH]; simpl.
  - now rewrite Ascii.eqb_refl.
  - destruct (Ascii.eqb c sep); [now rewrite IH|].
    rewrite IH. destruct (split sep a) as [|h t] eqn:Hs; [|reflexivity].
    now apply split_nonempty in Hs.
Qed.

Lemma split_no_sep (s : string) : no_sep sep s = true -> split sep s = [s].
Proof.
  induction s as [|c s IH]; simpl; [reflexivity|].
  destruct (Ascii.eqb c sep); simpl; [discriminate|].
  intros H. now rewrite IH.
Qed.

End PathSegments.




(** ** The first part of the update command *)

Lemma update_message_run (E : Env) (job : string) (o : Options)
  (stdin : option StdinData) (s : Sys) :
  let r := fst (update_message E job o stdin s) in
  let s0 := snd (update_message E job o stdin s) in
  (exists m u, r = Ok (m, u)) /\
  calls s0 = calls s /\ ticks s <= ticks s0 /\
  persistPath (store s0) = persistPath (store s) /\
  (s0 = s \/
   exists x, JsMap.get job (threads (store s)) = Some x /\
             s0 = persist (put_thread job
                             (touch (toISOString E (ticks s))
                                (with_progress None x))
                             (tick s))).
Proof.
  cbv zeta. unfold update_message, clearProgressMessageTs, setProgress,
    getProgressMessageTs, get, now, saveToDisk. unfold_m. cbv beta.
  destruct (negb (truthy_opt (o_message o)) &&
            is_opt (o_hook_event o) "UserPromptSubmit" &&
            truthy_opt (o_prompt o)).
  - destruct (JsMap.get job (threads (store s))) as [x|] eqn:Hg; sys;
      break_if; sys; rewrite ?get_set_same; sys;
      repeat split; eauto.
  - break_if; sys;
      destruct (JsMap.get job (threads (store s))) as [x|] eqn:Hg; sys;
      repeat split; eauto.
Qed.

(** Unless it opens a new turn, the first part of the update command leaves
    the process as it is. *)
Lemma update_message_quiet (E : Env) (job : string) (o : Options)
  (stdin : option StdinData) (s : Sys) :
  new_turn cmd_update o = false ->
  snd (update_message E job o stdin s) = s.
Proof.
  unfold new_turn. intros Hq.
  unfold update_message, getProgressMessageTs, get. unfold_m. cbv beta.
  rewrite Hq. break_if; sys;
    destruct (JsMap.get job (threads (store s))); reflexivity.
Qed.

Lemma issued_after (s s0 s' : Sys) :
  calls s0 = calls s -> issued s s' = issued s0 s'.
Proof. intros H. unfold issued. now rewrite H. Qed.

(** ** C7: the mention flag *)

(** Every request of the reply phase carries the command's mention flag. *)
Lemma cli_reply_mentions (E : Env) (job : string) (o : Options) (c : CliReply)
  (s : Sys) :
  Forall (fun c0 => call_mention c0 = cli_mention (cli_reply_command c) o)
    (issued s (snd (cli_reply E job o c s))).
Proof.
  destruct (cli_reply_ready o c) eqn:Hready.
  - destruct (JsMap.get job (threads (store s))) as [x|] eqn:Hg.
    + destruct (truthy (threadTs x)) eqn:Htt.
      * pose proof (cli_reply_stored E job o c s x Hg Htt Hready) as H.
        cbv zeta in H. destruct (terminal x).
        -- destruct H as (_ & ->). rewrite issued_same by reflexivity. constructor.
        -- destruct H as (_ & Hcalls & _). rewrite (issued_app _ _ _ Hcalls).
           constructor; [|constructor]. destruct c; reflexivity.
      * assert (Hf : truthy_opt (option_map threadTs
                       (JsMap.get job (threads (store s)))) = false)
          by (rewrite Hg; exact Htt).
        pose proof (cli_reply_lazy E job o c s Hf Hready) as H.
        cbv zeta in H. destruct (post_ok _).
        -- destruct (terminal _).
           ++ destruct H as (_ & Hcalls & _). rewrite (issued_app _ _ _ Hcalls).
              constructor; [|constructor]. reflexivity.
           ++ destruct H as (_ & Hcalls & _). rewrite (issued_app _ _ _ Hcalls).
              constructor; [|constructor; [|constructor]];
                [|destruct c]; reflexivity.
        -- destruct H as (_ & ->). rewrite (issued_app _ (log_call _ s) [_]) by reflexivity.
           constructor; [|constructor]. reflexivity.
    + assert (Hf : truthy_opt (option_map threadTs
                     (JsMap.get job (threads (store s)))) = false)
        by (rewrite Hg; reflexivity).
      pose proof (cli_reply_lazy E job o c s Hf Hready) as H.
      cbv zeta in H. destruct (post_ok _).
      -- destruct (terminal _).
         ++ destruct H as (_ & Hcalls & _). rewrite (issued_app _ _ _ Hcalls).
            constructor; [|constructor]. reflexivity.
         ++ destruct H as (_ & Hcalls & _). rewrite (issued_app _ _ _ Hcalls).
            constructor; [|constructor; [|constructor]];
              [|destruct c]; reflexivity.
      -- destruct H as (_ & ->). rewrite (issued_app _ (log_call _ s) [_]) by reflexivity.
         constructor; [|constructor]. reflexivity.
  - destruct c; simpl in Hready; try discriminate.
    simpl. unfold cli_fail. rewrite Hready. simpl.
    rewrite issued_same by reflexivity. constructor.
Qed.

Lemma cli_command_mentions (E : Env) (cmd : Command) (job : string)
  (o : Options) (stdin : option StdinData) (s : Sys) :
  Forall (fun c0 => call_mention c0 = cli_mention cmd o)
    (issued s (snd (cli_command E cmd job o stdin s))).
Proof.
  destruct cmd; simpl.
  - unfold cli_start, get, postParentMessage, request_post, create, now,
      saveToDisk. unfold_m. cbv beta.
    destruct (JsMap.get job (threads (store s))) as [x|] eqn:Hg;
      [rewrite issued_same by reflexivity; constructor|].
    destruct (o_silent o);
      [rewrite issued_same by reflexivity; constructor|].
    destruct (o_meta o);
      try (rewrite issued_same by reflexivity; constructor);
      destruct (post_ok _); sys;
      (erewrite issued_app by (sys; reflexivity));
      constructor; try constructor; reflexivity.
  - unfold cli_update. unfold bind at 1.
    destruct (update_message_run E job o stdin s) as ((m & u & Hr) & Hc & _).
    destruct (update_message E job o stdin s) as [r s0]. simpl in Hr, Hc.
    subst r. destruct (negb (truthy_opt m)).
    + simpl. rewrite issued_same by assumption. constructor.
    + rewrite (issued_after s s0 _ Hc).
      apply (cli_reply_mentions E job o (CliUpdatePost (or_default m "") u) s0).
  - apply (cli_reply_mentions E job o CliWaiting s).
  - apply (cli_reply_mentions E job o CliComplete s).
  - apply (cli_reply_mentions E job o CliFail s).
  - rewrite issued_same by reflexivity. constructor.
Qed.

Lemma mcp_mentions (E : Env) (job : string) (c : McpCall) (s : Sys) :
  Forall (fun c0 => call_mention c0 =
                    match c with
                    | McpUpdate _ _ _ m _ _ => is_true m
                    | _ => not_false (mcp_mention c)
                    end)
    (issued s (snd (mcp E job c s))).
Proof.
  pose proof (mcp_run E job c s) as H. cbv zeta in H.
  destruct (js_or _ _) as [t|].
  - destruct (truthy t).
    + destruct (terminal_opt _).
      * destruct H as (_ & Hcalls & _). rewrite issued_same by assumption.
        constructor.
      * destruct H as (_ & Hcalls & _). rewrite (issued_app _ _ _ Hcalls).
        constructor; [|constructor]. destruct c; reflexivity.
    + destruct H as (_ & ->). rewrite issued_same by reflexivity. constructor.
  - destruct H as (_ & ->). rewrite issued_same by reflexivity. constructor.
Qed.

Lemma mcp_start_mentions (E : Env) (job ttl : string) (ch : option string)
  (meta : option Meta) (mention : option bool) (s : Sys) :
  Forall (fun c0 => call_mention c0 = not_false mention)
    (issued s (snd (slack_thread_start E job ttl ch meta mention s))).
Proof.
  unfold slack_thread_start, get, postParentMessage, request_post, create, now,
    saveToDisk. unfold_m. cbv beta.
  destruct (JsMap.get job (threads (store s))) as [x|] eqn:Hg;
    [rewrite issued_same by reflexivity; constructor|].
  destruct (post_ok _); sys;
    (erewrite issued_app by (sys; reflexivity));
    constructor; try constructor; reflexivity.
Qed.

(** C7, as amended.  When the caller does not specify the mention flag, every
    request of the MCP tools start, waiting, complete and fail asks for a
    mention and every request of the MCP tool update asks for none; on the
    command line it is start and update (unless the hook event is
    PostToolUse) that ask for a mention, and waiting, complete and fail that
    ask for none. *)
Theorem C7_mention_defaults (E : Env) (job : string) (s : Sys) :
  (forall ttl ch meta,
     Forall (fun c0 => call_mention c0 = true)
       (issued s (snd (slack_thread_start E job ttl ch meta None s))))
  /\
  (forall c, mcp_mention c = None ->
     Forall (fun c0 => call_mention c0 =
                       match c with
                       | McpUpdate _ _ _ _ _ _ => false
                       | _ => true
                       end)
       (issued s (snd (mcp E job c s))))
  /\
  (forall cmd o stdin, o_mention o = None ->
     Forall (fun c0 => call_mention c0 =
                       match cmd with
                       | cmd_start => true
                       | cmd_update =>
                           negb (is_opt (o_hook_event o) "PostToolUse")
                       | _ => false
                       end)
       (issued s (snd (cli_command E cmd job o stdin s)))).
Proof.
  repeat apply conj.
  - intros ttl ch meta. exact (mcp_start_mentions E job ttl ch meta None s).
  - intros c Hc. pose proof (mcp_mentions E job c s) as H.
    destruct c; simpl in Hc; subst; exact H.
  - intros cmd o stdin Ho.
    pose proof (cli_command_mentions E cmd job o stdin s) as H.
    unfold cli_mention in H. rewrite Ho in H. simpl in H.
    destruct cmd; exact H.
Qed.

(** C7, as stated, fails: on the command line, a complete without
    [--mention] asks for no mention, and an update without it asks for one. *)
Lemma C7_cli_complete_asks_no_mention :
  let E := sampleEnv alwaysUp in
  let s := snd (cli_command E cmd_start "j1" (with_title "Deploy" noOptions)
                  None (initSys None)) in
  o_mention noOptions = None /\
  issued s (snd (cli_command E cmd_complete "j1" noOptions None s)) =
    [PostComplete "C0123456789" "1700000000.0" "Deploy" None None false] /\
  issued s (snd (cli_command E cmd_update "j1"
                   (with_message "Building" noOptions) None s)) =
    [UpsertThreadReply "C0123456789" "1700000000.0" "Building" info true None].
Proof. vm_compute. repeat split; reflexivity. Qed.
(** ** C8: when the platform refuses *)

(** The last request of the reply phase, if it is a reply: its verdict is the
    [ok] of the result; the phase throws only for a missing [--error] or a
    refused top-level post of lazy creation. *)
Lemma cli_reply_outcome (E : Env) (job : string) (o : Options) (c : CliReply)
  (s : Sys) :
  let r := fst (cli_reply E job o c s) in
  let l := issued s (snd (cli_reply E job o c s)) in
  (forall e, r = Thrown e ->
     (e = MissingOption "error" /\ l = []) \/
     (e = LazyCreateFailed /\
      exists top, l = [top] /\ is_top_post top = true /\
                  post_ok (post_answer E (calls s) top) = false)) /\
  (forall rest c0, l = rest ++ [c0] -> is_top_post c0 = false ->
     r = Ok (cli_result c (reply_answer E (calls s ++ rest) c0))).
Proof.
  cbv zeta. destruct (cli_reply_ready o c) eqn:Hready.
  - assert (Hcases :
      (exists x, JsMap.get job (threads (store s)) = Some x /\
                 truthy (threadTs x) = true) \/
      truthy_opt (option_map threadTs (JsMap.get job (threads (store s))))
        = false).
    { destruct (JsMap.get job (threads (store s))) as [x|]; simpl; [|now right].
      destruct (truthy (threadTs x)) eqn:Htt; [left; eauto|now right]. }
    destruct Hcases as [(x & Hg & Htt)|Hf].
    + pose proof (cli_reply_stored E job o c s x Hg Htt Hready) as H.
      cbv zeta in H. destruct (terminal x).
      * destruct H as (Hr & Hs). rewrite Hr, Hs.
        rewrite issued_same by reflexivity. split.
        -- intros e He. discriminate.
        -- intros rest c0 Hl. now destruct rest.
      * destruct H as (Hr & Hcalls & _). rewrite Hr, (issued_app _ _ _ Hcalls).
        split.
        -- intros e He. discriminate.
        -- intros rest c0 Hl Htop.
           apply (app_inj_tail []) in Hl. destruct Hl as [<- <-].
           now rewrite app_nil_r.
    + pose proof (cli_reply_lazy E job o c s Hf Hready) as H.
      cbv zeta in H. destruct (post_ok _) eqn:Hok.
      * destruct (terminal _).
        -- destruct H as (Hr & Hcalls & _).
           rewrite Hr, (issued_app _ _ _ Hcalls). split.
           ++ intros e He. discriminate.
           ++ intros rest c0 Hl Htop.
              apply (app_inj_tail []) in Hl. destruct Hl as [_ <-].
              discriminate.
        -- destruct H as (Hr & Hcalls & _).
           rewrite Hr, (issued_app _ _ _ Hcalls). split.
           ++ intros e He. discriminate.
           ++ intros rest c0 Hl Htop.
              apply (app_inj_tail [_]) in Hl. destruct Hl as [<- <-].
              reflexivity.
      * destruct H as (Hr & Hs). rewrite Hr, Hs.
        rewrite (issued_app _ (log_call _ s) [_]) by reflexivity. split.
        -- intros e He. injection He as <-. right. split; [reflexivity|].
           eexists. repeat split. exact Hok.
        -- intros rest c0 Hl Htop.
           apply (app_inj_tail []) in Hl. destruct Hl as [_ <-].
           discriminate.
  - destruct c; simpl in Hready; try discriminate.
    simpl. unfold cli_fail. rewrite Hready. simpl.
    rewrite issued_same by reflexivity. split.
    + intros e He. injection He as <-. now left.
    + intros rest c0 Hl. now destruct rest.
Qed.

Lemma mcp_outcome (E : Env) (job : string) (c : McpCall) (s : Sys) :
  let r := fst (mcp E job c s) in
  let l := issued s (snd (mcp E job c s)) in
  (forall e, r = Thrown e -> e = ThreadNotFound /\ l = []) /\
  (forall c0, l = [c0] ->
     r = Ok (OutResult (reply_ok (reply_answer E (calls s) c0)) None)).
Proof.
  cbv zeta. pose proof (mcp_run E job c s) as H. cbv zeta in H.
  destruct (js_or _ _) as [t|].
  - destruct (truthy t).
    + destruct (terminal_opt _).
      * destruct H as (Hr & Hcalls & _). rewrite Hr, issued_same by assumption.
        split; [discriminate|discriminate].
      * destruct H as (Hr & Hcalls & _). rewrite Hr, (issued_app _ _ _ Hcalls).
        split; [discriminate|]. intros c0 Hl. now injection Hl as <-.
    + destruct H as (Hr & Hs). rewrite Hr, Hs, issued_same by reflexivity.
      split; [|discriminate]. intros e He. now injection He as <-.
  - destruct H as (Hr & Hs). rewrite Hr, Hs, issued_same by reflexivity.
    split; [|discriminate]. intros e He. now injection He as <-.
Qed.

(** A start whose top-level post is refused. *)
Lemma start_refused (E : Env) (job : string) (a : StartCall) (s : Sys)
  (top : Call) :
  issued s (snd (start E job a s)) = [top] ->
  post_ok (post_answer E (calls s) top) = false ->
  fst (start E job a s) = Thrown SlackPostFailed /\
  store (snd (start E job a s)) = store s.
Proof.
  destruct a as [ttl ch meta mention|o]; simpl;
    unfold slack_thread_start, cli_start, get, postParentMessage, request_post,
      create, now, saveToDisk; unfold_m; cbv beta;
    (destruct (JsMap.get job (threads (store s))) as [x|] eqn:Hg;
     [rewrite issued_same by reflexivity; discriminate|]).
  - destruct (post_ok _) eqn:Hok; sys;
      (erewrite issued_app by (sys; reflexivity));
      intros Hl Hno; injection Hl as <-; [congruence|auto].
  - destruct (o_silent o);
      [sys; rewrite issued_same by reflexivity; discriminate|].
    destruct (o_meta o);
      try (rewrite issued_same by reflexivity; discriminate);
      (destruct (post_ok _) eqn:Hok; sys;
       (erewrite issued_app by (sys; reflexivity));
       intros Hl Hno; injection Hl as <-; [congruence|auto]).
Qed.

(** C8, as amended.  When the platform refuses a request: a refused reply
    makes update, wait, complete and fail return a result with [ok: false],
    over both transports, and they raise no error for it; a refused top-level
    post is a hard error, under start and also under the lazy thread creation
    of the command line's update, wait, complete and fail.  The only other
    errors of these operations are "thread not found" (MCP tools) and a
    missing option (command line), raised before any request. *)
Theorem C8_upstream_failure (E : Env) (job : string) (s : Sys) :
  (* MCP reply tools *)
  (forall c c0, issued s (snd (mcp E job c s)) = [c0] ->
     reply_ok (reply_answer E (calls s) c0) = false ->
     fst (mcp E job c s) = Ok (OutResult false None))
  /\
  (forall c e, fst (mcp E job c s) = Thrown e ->
     e = ThreadNotFound /\ issued s (snd (mcp E job c s)) = [])
  /\
  (* the reply phase of the command line *)
  (forall o c rest c0,
     issued s (snd (cli_reply E job o c s)) = rest ++ [c0] ->
     is_top_post c0 = false ->
     reply_ok (reply_answer E (calls s ++ rest) c0) = false ->
     exists ts, fst (cli_reply E job o c s) = Ok (OutResult false ts))
  /\
  (forall o c e, fst (cli_reply E job o c s) = Thrown e ->
     (e = MissingOption "error" /\
      issued s (snd (cli_reply E job o c s)) = []) \/
     (e = LazyCreateFailed /\
      exists top, issued s (snd (cli_reply E job o c s)) = [top] /\
                  is_top_post top = true /\
                  post_ok (post_answer E (calls s) top) = false))
  /\
  (* start *)
  (forall a top, issued s (snd (start E job a s)) = [top] ->
     post_ok (post_answer E (calls s) top) = false ->
     fst (start E job a s) = Thrown SlackPostFailed).
Proof.
  repeat apply conj.
  - intros c c0 Hl Hno. destruct (mcp_outcome E job c s) as (_ & H).
    cbv zeta in H. rewrite (H c0 Hl), Hno. reflexivity.
  - intros c. exact (proj1 (mcp_outcome E job c s)).
  - intros o c rest c0 Hl Htop Hno.
    destruct (cli_reply_outcome E job o c s) as (_ & H). cbv zeta in H.
    rewrite (H rest c0 Hl Htop). destruct c; simpl; rewrite Hno; eauto.
  - intros o c. exact (proj1 (cli_reply_outcome E job o c s)).
  - intros a top Hl Hno. exact (proj1 (start_refused E job a s top Hl Hno)).
Qed.

(** C8, as stated, fails: with the platform down, the update command for a
    job without a thread ends in the hard error of [ensureThread]. *)
Lemma C8_cli_update_hard_error :
  cli_command (sampleEnv alwaysDown) cmd_update "j1"
    (with_message "Building" noOptions) None (initSys None)
  = (Thrown LazyCreateFailed,
     log_call (PostParentMessage "C0123456789" "Claude Code Task" None true)
       (initSys None)).
Proof. vm_compute. reflexivity. Qed.
(** ** C6: what is filed, and when *)

(** The update command at the start of a new turn (the UserPromptSubmit hook
    with a prompt, no [--message]): the coalescable handle is cleared before
    anything is posted, and stays cleared whatever the platform answers. *)
Lemma update_message_new_turn (E : Env) (job : string) (o : Options)
  (stdin : option StdinData) (s : Sys) (x : ThreadState) :
  truthy_opt (o_message o) = false ->
  o_hook_event o = Some "UserPromptSubmit" ->
  truthy_opt (o_prompt o) = true ->
  JsMap.get job (threads (store s)) = Some x ->
  let x0 := touch (toISOString E (ticks s)) (with_progress None x) in
  exists m,
    update_message E job o stdin s =
      (Ok (Some m, false), persist (put_thread job x0 (tick s))) /\
    truthy m = true.
Proof.
  intros Hm Hh Hp Hg. cbv zeta.
  unfold update_message, clearProgressMessageTs, setProgress,
    getProgressMessageTs, get, now, saveToDisk. unfold_m. cbv beta.
  rewrite Hm, Hh, Hp. simpl. rewrite Hg. simpl.
  eexists. split; reflexivity.
Qed.

Lemma cli_update_new_turn (E : Env) (job : string) (o : Options)
  (stdin : option StdinData) (s : Sys) (x : ThreadState) :
  truthy_opt (o_message o) = false ->
  o_hook_event o = Some "UserPromptSubmit" ->
  truthy_opt (o_prompt o) = true ->
  JsMap.get job (threads (store s)) = Some x ->
  calls (snd (update_message E job o stdin s)) = calls s /\
  progress_of job (snd (update_message E job o stdin s)) = None /\
  progress_of job (snd (cli_update E job o stdin s)) = None.
Proof.
  intros Hm Hh Hp Hg.
  destruct (update_message_new_turn E job o stdin s x Hm Hh Hp Hg)
    as (m & Hrun & Htm).
  cbv zeta in Hrun.
  set (x0 := touch (toISOString E (ticks s)) (with_progress None x)) in *.
  assert (Hg0 : JsMap.get job
            (threads (store (persist (put_thread job x0 (tick s)))))
          = Some x0) by (sys; apply get_set_same).
  unfold cli_update, bind. rewrite Hrun. cbn [fst snd].
  split; [reflexivity|].
  split; [unfold progress_of; now rewrite Hg0|].
  unfold truthy_opt. rewrite Htm. cbn [negb or_default]. rewrite Htm.
  set (s0 := persist (put_thread job x0 (tick s))) in *.
  change (update_post E job o m false) with
    (cli_reply E job o (CliUpdatePost m false)).
  unfold progress_of.
  destruct (truthy (threadTs x)) eqn:Htt.
  - pose proof (cli_reply_stored E job o (CliUpdatePost m false) s0 _ Hg0 Htt
                  eq_refl) as H.
    cbv zeta in H. destruct (terminal _).
    + destruct H as [_ ->]. now rewrite Hg0.
    + destruct H as (_ & _ & -> & _). rewrite get_set_same.
      simpl. rewrite Hh. simpl. now destruct (_ && _).
  - assert (Hf : truthy_opt (option_map threadTs
                    (JsMap.get job (threads (store s0)))) = false)
      by (rewrite Hg0; exact Htt).
    pose proof (cli_reply_lazy E job o (CliUpdatePost m false) s0 Hf eq_refl)
      as H.
    cbv zeta in H. rewrite Hg0 in H. cbn [lazy_state] in H.
    destruct (post_ok _).
    + destruct (terminal _).
      * destruct H as (_ & _ & ->). now rewrite get_set_same.
      * destruct H as (_ & _ & -> & _). rewrite get_set_same.
        simpl. rewrite Hh. simpl. now destruct (_ && _).
    + destruct H as [_ ->].
      change (store (log_call _ s0)) with (store s0). now rewrite Hg0.
Qed.

(** C6, as stated, fails: the update tool files the status in_progress before
    it posts, so the status stays when the platform refuses the reply. *)
Lemma C6_update_files_status_before_post :
  let E := sampleEnv onlyTopPosts in
  let s := snd (slack_thread_start E "j1" "Deploy" None None None
                  (initSys None)) in
  let run := slack_thread_update E "j1" "Building" None None None None None s in
  status_of "j1" s = Some started /\
  fst run = Ok (OutResult false None) /\
  status_of "j1" (snd run) = Some in_progress.
Proof. vm_compute. repeat split; reflexivity. Qed.

(** C6, as amended.  The terminal status of complete and fail, the cleared
    handle of a waiting message, the state of a started job and the thread
    handle of a lazily created thread are filed only after the platform has
    accepted the post they record: when the platform refuses it, the ledger
    is left as it was.  Update is the exception: it files the status
    in_progress before it posts its reply, and the status stays whatever the
    platform answers; and the update command that opens a new turn (the
    UserPromptSubmit hook) clears the coalescable handle before it posts. *)
Theorem C6_ledger_written_on_outcome (E : Env) (job : string) (s : Sys) :
  (* MCP waiting, complete, fail: a refused reply *)
  (forall c c0, mcp_is_update c = false ->
     issued s (snd (mcp E job c s)) = [c0] ->
     reply_ok (reply_answer E (calls s) c0) = false ->
     threads (store (snd (mcp E job c s))) = threads (store s))
  /\
  (* command line waiting, complete, fail: a refused reply *)
  (forall o c x c0, cli_is_update c = false ->
     JsMap.get job (threads (store s)) = Some x -> threadTs x <> "" ->
     issued s (snd (cli_reply E job o c s)) = [c0] ->
     reply_ok (reply_answer E (calls s) c0) = false ->
     threads (store (snd (cli_reply E job o c s))) = threads (store s))
  /\
  (* start, lazy creation: a refused top-level post *)
  (forall a top, issued s (snd (start E job a s)) = [top] ->
     post_ok (post_answer E (calls s) top) = false ->
     store (snd (start E job a s)) = store s)
  /\
  (forall o c top, issued s (snd (cli_reply E job o c s)) = [top] ->
     is_top_post top = true ->
     post_ok (post_answer E (calls s) top) = false ->
     store (snd (cli_reply E job o c s)) = store s)
  /\
  (* update: in_progress whatever the answer *)
  (forall c x c0, mcp_is_update c = true ->
     JsMap.get job (threads (store s)) = Some x ->
     issued s (snd (mcp E job c s)) = [c0] ->
     status_of job (snd (mcp E job c s)) = Some in_progress)
  /\
  (forall o c rest c0, cli_is_update c = true ->
     issued s (snd (cli_reply E job o c s)) = rest ++ [c0] ->
     is_top_post c0 = false ->
     status_of job (snd (cli_reply E job o c s)) = Some in_progress)
  /\
  (* update at the start of a new turn: the handle is cleared first *)
  (forall o stdin x, truthy_opt (o_message o) = false ->
     o_hook_event o = Some "UserPromptSubmit" ->
     truthy_opt (o_prompt o) = true ->
     JsMap.get job (threads (store s)) = Some x ->
     calls (snd (update_message E job o stdin s)) = calls s /\
     progress_of job (snd (update_message E job o stdin s)) = None /\
     progress_of job (snd (cli_update E job o stdin s)) = None).
Proof.
  repeat apply conj.
  - intros c c0 Hc Hl Hno. pose proof (mcp_run E job c s) as H. cbv zeta in H.
    destruct (js_or _ _) as [t|].
    + destruct (truthy t).
      * destruct (terminal_opt _).
        -- destruct H as (_ & _ & -> & _). reflexivity.
        -- destruct H as (_ & Hcalls & Hth).
           rewrite (issued_app _ _ _ Hcalls) in Hl. injection Hl as <-.
           rewrite Hno in Hth. rewrite Hth.
           destruct c; try discriminate;
             now destruct (JsMap.get job (threads (store s))).
      * destruct H as (_ & ->). reflexivity.
    + destruct H as (_ & ->). reflexivity.
  - intros o c x c0 Hc Hg Hx Hl Hno.
    assert (Hready : cli_reply_ready o c = true).
    { destruct (cli_reply_ready o c) eqn:Hr; [reflexivity|].
      destruct c; try discriminate. simpl in Hr, Hl. unfold cli_fail in Hl.
      rewrite Hr in Hl. simpl in Hl. now rewrite issued_same in Hl. }
    pose proof (cli_reply_stored E job o c s x Hg (truthy_neq _ Hx) Hready) as H.
    cbv zeta in H. destruct (terminal x).
    + destruct H as (_ & ->). reflexivity.
    + destruct H as (_ & Hcalls & Hth & _).
      rewrite (issued_app _ _ _ Hcalls) in Hl. injection Hl as <-.
      rewrite Hth. destruct c; try discriminate; unfold cli_filed;
        rewrite Hno; now apply set_get_same.
  - intros a top Hl Hno. exact (proj2 (start_refused E job a s top Hl Hno)).
  - intros o c top Hl Htop Hno.
    destruct (cli_reply_ready o c) eqn:Hready.
    + assert (Hcases :
        (exists x, JsMap.get job (threads (store s)) = Some x /\
                   truthy (threadTs x) = true) \/
        truthy_opt (option_map threadTs (JsMap.get job (threads (store s))))
          = false).
      { destruct (JsMap.get job (threads (store s))) as [x|]; simpl; [|now right].
        destruct (truthy (threadTs x)) eqn:Htt; [left; eauto|now right]. }
      destruct Hcases as [(x & Hg & Htt)|Hf].
      * pose proof (cli_reply_stored E job o c s x Hg Htt Hready) as H.
        cbv zeta in H. destruct (terminal x).
        -- destruct H as (_ & ->). reflexivity.
        -- destruct H as (_ & Hcalls & _).
           rewrite (issued_app _ _ _ Hcalls) in Hl. injection Hl as <-.
           destruct c; discriminate.
      * pose proof (cli_reply_lazy E job o c s Hf Hready) as H.
        cbv zeta in H.
        match type of H with (if ?b then _ else _) => destruct b eqn:Hok end.
        -- match type of H with (if ?b then _ else _) => destruct b end.
           ++ destruct H as (_ & Hcalls & _).
              rewrite (issued_app _ _ _ Hcalls) in Hl. injection Hl as <-.
              congruence.
           ++ destruct H as (_ & Hcalls & _).
              rewrite (issued_app _ _ _ Hcalls) in Hl. discriminate.
        -- destruct H as (_ & ->). reflexivity.
    + destruct c; try discriminate. simpl. unfold cli_fail.
      simpl in Hready. rewrite Hready. reflexivity.
  - intros c x c0 Hc Hg Hl. pose proof (mcp_run E job c s) as H. cbv zeta in H.
    unfold status_of.
    destruct (js_or _ _) as [t|].
    + destruct (truthy t).
      * destruct (terminal_opt _).
        -- destruct H as (_ & Hcalls & _). rewrite issued_same in Hl by assumption.
           discriminate.
        -- destruct H as (_ & _ & Hth). rewrite Hth, Hg.
           destruct c; try discriminate. simpl. now rewrite get_set_same.
      * destruct H as (_ & Hs). rewrite Hs, issued_same in Hl by reflexivity.
        discriminate.
    + destruct H as (_ & Hs). rewrite Hs, issued_same in Hl by reflexivity.
      discriminate.
  - intros o c rest c0 Hc Hl Htop. unfold status_of.
    assert (Hready : cli_reply_ready o c = true) by (destruct c; auto; discriminate).
    assert (Hcases :
      (exists x, JsMap.get job (threads (store s)) = Some x /\
                 truthy (threadTs x) = true) \/
      truthy_opt (option_map threadTs (JsMap.get job (threads (store s))))
        = false).
    { destruct (JsMap.get job (threads (store s))) as [x|]; simpl; [|now right].
      destruct (truthy (threadTs x)) eqn:Htt; [left; eauto|now right]. }
    destruct Hcases as [(x & Hg & Htt)|Hf].
    + pose proof (cli_reply_stored E job o c s x Hg Htt Hready) as H.
      cbv zeta in H. destruct (terminal x).
      * destruct H as (_ & Hs). rewrite Hs, issued_same in Hl by reflexivity.
        now destruct rest.
      * destruct H as (_ & _ & Hth & _). rewrite Hth, get_set_same.
        destruct c; try discriminate. simpl.
        repeat match goal with
               | |- context [if ?b then _ else _] => destruct b
               end; reflexivity.
    + pose proof (cli_reply_lazy E job o c s Hf Hready) as H.
      cbv zeta in H.
        match type of H with (if ?b then _ else _) => destruct b eqn:Hok end.
      * match type of H with (if ?b then _ else _) => destruct b end.
        -- destruct H as (_ & Hcalls & _).
           rewrite (issued_app _ _ _ Hcalls) in Hl.
           apply (app_inj_tail []) in Hl. destruct Hl as [_ <-]. discriminate.
        -- destruct H as (_ & _ & Hth & _). rewrite Hth, get_set_same.
           destruct c; try discriminate. simpl.
           repeat match goal with
                  | |- context [if ?b then _ else _] => destruct b
                  end; reflexivity.
      * destruct H as (_ & Hs). rewrite Hs in Hl.
        rewrite (issued_app _ (log_call _ s) [_]) in Hl by reflexivity.
        apply (app_inj_tail []) in Hl. destruct Hl as [_ <-]. discriminate.
  - intros o stdin x Hm Hh Hp Hg.
    exact (cli_update_new_turn E job o stdin s x Hm Hh Hp Hg).
Qed.

(** ** C1: jobs that have ended *)

(** The MCP reply tools leave a job that has ended alone, whatever thread
    handle they are given. *)
Lemma mcp_terminal_absorbing (E : Env) (job : string) (c : McpCall) (s : Sys)
  (x : ThreadState) :
  JsMap.get job (threads (store s)) = Some x ->
  terminal x = true ->
  let s' := snd (mcp E job c s) in
  issued s s' = [] /\ store s' = store s /\ disk s' = disk s /\
  ticks s' = ticks s /\
  (fst (mcp E job c s) = Ok (mcp_terminal_output c) \/
   fst (mcp E job c s) = Thrown ThreadNotFound).
Proof.
  intros Hg Hterm. cbv zeta. pose proof (mcp_run E job c s) as H.
  cbv zeta in H. rewrite Hg in H. simpl terminal_opt in H. rewrite Hterm in H.
  destruct (js_or _ _) as [t|].
  - destruct (truthy t).
    + destruct H as (Hr & Hcalls & Hs & Hd & Ht).
      rewrite issued_same by assumption. repeat split; auto.
    + destruct H as (Hr & ->). rewrite issued_same by reflexivity.
      repeat split; auto.
  - destruct H as (Hr & ->). rewrite issued_same by reflexivity.
    repeat split; auto.
Qed.

(** So does the command line, for a job that has a thread: nothing is
    posted and the status stays.  The process is left as it is, but for the
    update command that opens a new turn, which clears the coalescable handle
    before it looks at the status. *)
Lemma cli_terminal_absorbing (E : Env) (cmd : Command) (job : string)
  (o : Options) (stdin : option StdinData) (s : Sys) (x : ThreadState) :
  reply_command cmd = true ->
  JsMap.get job (threads (store s)) = Some x ->
  terminal x = true ->
  threadTs x <> "" ->
  let s' := snd (cli_command E cmd job o stdin s) in
  issued s s' = [] /\
  (exists x', JsMap.get job (threads (store s')) = Some x' /\
              status x' = status x) /\
  (new_turn cmd o = false -> s' = s).
Proof.
  intros Hcmd Hg Hterm Hx. cbv zeta.
  assert (Hreply : forall c s0 x0,
    JsMap.get job (threads (store s0)) = Some x0 ->
    terminal x0 = true -> threadTs x0 <> "" ->
    snd (cli_reply E job o c s0) = s0).
  { intros c s0 x0 Hg0 Ht0 Hx0. destruct (cli_reply_ready o c) eqn:Hready.
    - pose proof (cli_reply_stored E job o c s0 x0 Hg0 (truthy_neq _ Hx0) Hready)
        as H. cbv zeta in H. rewrite Ht0 in H. tauto.
    - destruct c; try discriminate. simpl in *. unfold cli_fail.
      now rewrite Hready. }
  assert (Hquiet : forall s0, calls s0 = calls s -> issued s s0 = [])
    by (intros s0 Hc; now apply issued_same).
  destruct cmd; try discriminate; cbn [cli_command new_turn].
  - unfold cli_update, bind.
    pose proof (update_message_quiet E job o stdin s) as Hq.
    destruct (update_message_run E job o stdin s)
      as ((m & u & Hr) & Hc & _ & _ & Hs0).
    destruct (update_message E job o stdin s) as [r s0].
    simpl in Hr, Hc, Hs0, Hq. subst r.
    assert (Hx0 : exists x0, JsMap.get job (threads (store s0)) = Some x0 /\
                   status x0 = status x /\ threadTs x0 = threadTs x).
    { destruct Hs0 as [->|(y & Hy & ->)]; [eauto|].
      rewrite Hg in Hy. injection Hy as <-. simpl. rewrite get_set_same.
      eexists. repeat split. }
    destruct Hx0 as (x0 & Hg0 & Hst & Hts).
    cbv beta iota zeta. destruct (negb (truthy_opt m)).
    + simpl. split; [auto|]. split; [exists x0; auto|exact Hq].
    + change (update_post E job o (or_default m "") u)
        with (cli_reply E job o (CliUpdatePost (or_default m "") u)).
      rewrite (Hreply (CliUpdatePost (or_default m "") u) s0 x0 Hg0).
      * split; [auto|]. split; [exists x0; auto|exact Hq].
      * unfold terminal in *. now rewrite Hst.
      * now rewrite Hts.
  - change (cli_waiting E job o) with (cli_reply E job o CliWaiting).
    rewrite (Hreply CliWaiting s x Hg Hterm Hx).
    split; [auto|]. split; [exists x; auto|reflexivity].
  - change (cli_complete E job o) with (cli_reply E job o CliComplete).
    rewrite (Hreply CliComplete s x Hg Hterm Hx).
    split; [auto|]. split; [exists x; auto|reflexivity].
  - change (cli_fail E job o) with (cli_reply E job o CliFail).
    rewrite (Hreply CliFail s x Hg Hterm Hx).
    split; [auto|]. split; [exists x; auto|reflexivity].
Qed.

(** C1, on the code.  A job started silently on the command line and then
    completed through the MCP tool, with an explicit thread handle, is filed
    as completed with an empty thread handle.  The next update (or waiting,
    complete, fail) command for it runs [ensureThread] before it looks at the
    status: it posts a new top-level message and files its handle, and only
    then reports that the job has ended. *)
Theorem C1_terminal_job_gets_new_thread :
  let E := sampleEnv alwaysUp in
  let path := Some "threads.json" in
  let s1 := snd (cli_main E path cmd_start "j1"
                   (with_silent (with_title "Deploy" noOptions)) None
                   (initSys path)) in
  let s2 := snd (slack_thread_complete E "j1" (Some "1699999999.5")
                   (Some "Done") None None (mcp_boot path s1)) in
  let run := cli_main E path cmd_update "j1"
               (with_message "Still here" noOptions) None s2 in
  status_of "j1" (mcp_boot path s2) = Some completed /\
  fst run = Ok (OutRejected "Job already terminated") /\
  issued s2 (snd run) = [PostParentMessage "C0123456789" "Deploy" None true] /\
  option_map threadTs (JsMap.get "j1" (threads (store (mcp_boot path s2))))
    = Some "" /\
  option_map threadTs (JsMap.get "j1" (threads (store (snd run))))
    = Some "1700000000.1".
Proof. vm_compute. repeat split; reflexivity. Qed.
(** ** C4: the watchdog *)

Lemma get_delete_other {V} (m : JsMap.t V) (k k' : string) :
  k' <> k -> JsMap.get k' (JsMap.delete k m) = JsMap.get k' m.
Proof.
  intros Hne. induction m as [|[k0 v0] m IH]; simpl; [reflexivity|].
  destruct (String.eqb_spec k0 k) as [->|Hk]; simpl.
  - destruct (String.eqb_spec k k'); [congruence|reflexivity].
  - now rewrite IH.
Qed.

Lemma In_clearTimeout (id : nat) (ts : list Timer) (t : Timer) :
  In t (clearTimeout id ts) <-> In t ts /\ timer_id t <> id.
Proof.
  unfold clearTimeout. rewrite filter_In.
  destruct (Nat.eqb_spec (timer_id t) id); simpl; intuition congruence.
Qed.

(** [fire] says what [notified_job] says. *)
Lemma fire_issues (E : Env) (id : nat) (s : Sys) :
  match notified_job id (watchdog s) with
  | Some j => exists c, issued s (snd (fire E id s)) = [c] /\
                        is_stalled_notice c = true
  | None => issued s (snd (fire E id s)) = []
  end.
Proof.
  unfold notified_job, fire, watchdog_callback, postThreadReply, request_reply.
  unfold_m. cbv beta.
  destruct (find _ (timers (watchdog s))) as [t|]; [|now rewrite issued_same].
  simpl.
  destruct (JsMap.get (timer_jobId t) (waitingNotifications (watchdog s)))
    as [n|]; [|now rewrite issued_same].
  destruct (notified n); [now rewrite issued_same|]. simpl.
  eexists. split; [apply issued_app; reflexivity|]. reflexivity.
Qed.

Lemma timers_fire (E : Env) (id : nat) (s : Sys) (t : Timer) :
  In t (timers (watchdog (snd (fire E id s)))) -> In t (timers (watchdog s)).
Proof.
  unfold fire, watchdog_callback, postThreadReply, request_reply.
  unfold_m. cbv beta.
  destruct (find _ (timers (watchdog s))) as [t0|]; [|auto].
  simpl.
  destruct (JsMap.get (timer_jobId t0) (waitingNotifications (watchdog s)))
    as [n|]; simpl; [destruct (notified n); simpl|]; intros H;
    apply In_clearTimeout in H; tauto.
Qed.

(** Once a job has no pending timer, no firing posts a notice for it. *)
Lemma no_timer_no_notice (E : Env) (job : string) (ids : list nat) :
  forall s, no_timer_for job (watchdog s) ->
            Forall (fun j => j <> job) (stalled_jobs E ids s).
Proof.
  induction ids as [|id ids IH]; intros s Hno; simpl; [constructor|].
  assert (Hnext : no_timer_for job (watchdog (snd (fire E id s)))).
  { unfold no_timer_for in *. rewrite Forall_forall in *.
    intros t Ht. apply Hno. exact (timers_fire E id s t Ht). }
  unfold notified_job.
  destruct (find _ (timers (watchdog s))) as [t|] eqn:Hfind; [|now apply IH].
  destruct (JsMap.get _ _) as [n|]; [|now apply IH].
  destruct (notified n); [now apply IH|].
  constructor; [|now apply IH].
  apply find_some in Hfind. destruct Hfind as [Hin _].
  unfold no_timer_for in Hno. rewrite Forall_forall in Hno. now apply Hno.
Qed.

(** Cancelling the monitor of a job leaves it no pending timer. *)
Lemma cancel_clears (job : string) (w : Watchdog) :
  watchdog_wf w ->
  no_timer_for job (wd_cancel job w) /\ watchdog_wf (wd_cancel job w) /\
  nextTimer (wd_cancel job w) = nextTimer w /\
  (forall t, In t (timers (wd_cancel job w)) -> In t (timers w)).
Proof.
  intros Hwf. unfold wd_cancel.
  destruct (JsMap.get job (waitingNotifications w)) as [n|] eqn:Hn.
  - repeat apply conj; simpl.
    + unfold no_timer_for. apply Forall_forall. intros t Ht. simpl in Ht.
      apply In_clearTimeout in Ht. destruct Ht as [Hin Hid].
      intros Hjob. destruct (Hwf t Hin) as ((n' & Hg & Hto) & _).
      rewrite Hjob, Hn in Hg. injection Hg as <-. congruence.
    + intros t Ht. simpl in Ht. apply In_clearTimeout in Ht.
      destruct Ht as [Hin Hid]. destruct (Hwf t Hin) as ((n' & Hg & Hto) & Hlt).
      split; [|assumption]. exists n'. split; [|assumption]. simpl.
      rewrite get_delete_other; [assumption|].
      intros Hjob. rewrite Hjob, Hn in Hg. injection Hg as <-. congruence.
    + reflexivity.
    + intros t Ht. apply In_clearTimeout in Ht. tauto.
  - repeat apply conj; auto.
    unfold no_timer_for. apply Forall_forall. intros t Ht Hjob.
    destruct (Hwf t Ht) as ((n' & Hg & _) & _). rewrite Hjob, Hn in Hg.
    discriminate.
Qed.

(** Arming a monitor for a job without a pending timer keeps the table and
    the timers in step; the job has one pending timer, the new one. *)
Lemma arm_wf (job ch ts : string) (ms : option N) (w : Watchdog) :
  watchdog_wf w -> no_timer_for job w ->
  watchdog_wf (wd_arm job ch ts ms w) /\
  (forall t, In t (timers (wd_arm job ch ts ms w)) -> timer_jobId t = job ->
             timer_id t = nextTimer w).
Proof.
  intros Hwf Hno. unfold wd_arm. split.
  - intros t Ht. simpl in Ht. apply in_app_or in Ht. destruct Ht as [Ht|[<-|[]]].
    + destruct (Hwf t Ht) as ((n & Hg & Hto) & Hlt). split; [|simpl; lia].
      exists n. split; [|assumption].
      simpl. rewrite get_set_other; [assumption|].
      unfold no_timer_for in Hno. rewrite Forall_forall in Hno. exact (Hno t Ht).
    + simpl. rewrite get_set_same. split; [|lia]. eexists. split; reflexivity.
  - intros t Ht Hjob. simpl in Ht. apply in_app_or in Ht.
    destruct Ht as [Ht|[<-|[]]].
    + unfold no_timer_for in Hno. rewrite Forall_forall in Hno.
      now destruct (Hno t Ht).
    + reflexivity.
Qed.

Lemma fire_wf (E : Env) (id : nat) (s : Sys) :
  watchdog_wf (watchdog s) -> watchdog_wf (watchdog (snd (fire E id s))).
Proof.
  intros Hwf t Ht. pose proof (timers_fire E id s t Ht) as Hin.
  destruct (Hwf t Hin) as ((n & Hg & Hto) & Hlt).
  revert Ht. unfold fire, watchdog_callback, postThreadReply, request_reply,
    mark_notified. unfold_m. cbv beta.
  destruct (find _ (timers (watchdog s))) as [t0|]; [|eauto].
  simpl.
  destruct (JsMap.get (timer_jobId t0) (waitingNotifications (watchdog s)))
    as [n0|] eqn:Hn0; simpl; [destruct (notified n0); simpl|]; eauto.
  intros _. split; [|assumption].
  destruct (String.eqb_spec (timer_jobId t0) (timer_jobId t)) as [He|Hne].
  - rewrite He, get_set_same. eexists. split; [reflexivity|]. simpl.
    rewrite He, Hg in Hn0. injection Hn0 as <-. assumption.
  - rewrite get_set_other by congruence. eauto.
Qed.

(** The watchdog after an MCP reply tool. *)
Lemma mcp_watchdog_run (E : Env) (job : string) (c : McpCall) (s : Sys) :
  watchdog (snd (mcp E job c s)) =
  mcp_watchdog E job c (JsMap.get job (threads (store s))) (watchdog s).
Proof.
  unfold mcp_watchdog.
  destruct c as [msg ts level mention monitor ms|ts reason mention
                 |ts summary next mention|ts err hint mention];
    unfold_mcp; unfold_m; cbv beta;
    destruct (JsMap.get job (threads (store s))) as [x|] eqn:Hg;
    cbn [option_map terminal_opt mcp_thread_ts];
    match goal with
    | |- context [js_or ?a ?b] => destruct (js_or a b) as [t|] eqn:Ht
    end.
  all: try solve [sys; auto].
  all: destruct (truthy t) eqn:Htt; [|solve [sys; auto]]; unfold terminal.
  all: try destruct (JobStatus_eqb (status x) completed
                  || JobStatus_eqb (status x) failed) eqn:Hterm.
  all: repeat progress (sys; rewrite ?Hg, ?Hterm).
  all: repeat match goal with
       | |- context [if ?b then _ else _] => destruct b eqn:?
       end.
  all: repeat progress (sys; rewrite ?Hg, ?Hterm).
  all: auto.
Qed.

(** What holds of the claim: complete and fail, once they have a thread,
    cancel the job's pending timer, so that no firing, however late, posts
    a "stalled" notice for the job; update, for a job that has not ended,
    cancels the pending timer before it arms a new one. *)
Lemma complete_cancels_watchdog (E : Env) (job : string) (c : McpCall)
  (s : Sys) (ids : list nat) :
  watchdog_wf (watchdog s) ->
  mcp_is_update c = false ->
  (forall ts reason mention, c <> McpWaiting ts reason mention) ->
  fst (mcp E job c s) <> Thrown ThreadNotFound ->
  no_timer_for job (watchdog (snd (mcp E job c s))) /\
  Forall (fun j => j <> job) (stalled_jobs E ids (snd (mcp E job c s))).
Proof.
  intros Hwf Hupd Hwait Hres.
  assert (Hno : no_timer_for job (watchdog (snd (mcp E job c s)))).
  { rewrite mcp_watchdog_run. unfold mcp_watchdog.
    pose proof (mcp_run E job c s) as H. cbv zeta in H.
    destruct (js_or _ _) as [t|].
    - destruct (truthy t).
      + destruct c; try discriminate;
          try (now destruct (Hwait thread_ts reason mention));
          apply (cancel_clears job _ Hwf).
      + destruct H as (Hr & _). contradiction.
    - destruct H as (Hr & _). contradiction. }
  split; [assumption|]. now apply no_timer_no_notice.
Qed.

Lemma update_rearms_watchdog (E : Env) (job msg : string)
  (ts : option string) (level : option Level) (mention monitor : option bool)
  (ms : option N) (s : Sys) (c0 : Call) :
  watchdog_wf (watchdog s) ->
  issued s (snd (slack_thread_update E job msg ts level mention monitor ms s))
    = [c0] ->
  forall t, In t (timers (watchdog s)) -> timer_jobId t = job ->
    ~ In t (timers (watchdog
              (snd (slack_thread_update E job msg ts level mention monitor ms s)))).
Proof.
  intros Hwf Hl t Hin Hjob.
  change (slack_thread_update E job msg ts level mention monitor ms)
    with (mcp E job (McpUpdate msg ts level mention monitor ms)) in *.
  rewrite mcp_watchdog_run. unfold mcp_watchdog.
  pose proof (mcp_run E job (McpUpdate msg ts level mention monitor ms) s) as H.
  cbv zeta in H.
  destruct (js_or _ _) as [t0|].
  - destruct (truthy t0).
    + destruct (terminal_opt _).
      * destruct H as (_ & Hcalls & _). rewrite issued_same in Hl by assumption.
        discriminate.
      * destruct (cancel_clears job _ Hwf) as (Hno1 & Hwf1 & Hnext1 & Hsub1).
        destruct (not_false monitor).
        -- destruct (cancel_clears job _ Hwf1) as (Hno2 & Hwf2 & Hnext2 & Hsub2).
           destruct (arm_wf job (targetChannel E (JsMap.get job (threads (store s))))
                       t0 ms _ Hwf2 Hno2) as (_ & Hnew).
           intros Hin'. specialize (Hnew t Hin' Hjob).
           destruct (Hwf t Hin) as (_ & Hlt). rewrite Hnext2, Hnext1 in Hnew. lia.
        -- intros Hin'. unfold no_timer_for in Hno1.
           rewrite Forall_forall in Hno1. now apply (Hno1 t Hin').
    + destruct H as (_ & Hs). rewrite Hs, issued_same in Hl by reflexivity.
      discriminate.
  - destruct H as (_ & Hs). rewrite Hs, issued_same in Hl by reflexivity.
    discriminate.
Qed.

(** The waiting tool never touches the watchdog. *)
Lemma waiting_keeps_watchdog (E : Env) (job : string)
  (ts reason : option string) (mention : option bool) (s : Sys) :
  watchdog (snd (slack_thread_waiting E job ts reason mention s)) = watchdog s.
Proof.
  change (slack_thread_waiting E job ts reason mention)
    with (mcp E job (McpWaiting ts reason mention)).
  rewrite mcp_watchdog_run. unfold mcp_watchdog.
  destruct (js_or _ _) as [t|]; [destruct (truthy t)|]; reflexivity.
Qed.

(** C4, on the code.  The waiting tool does not cancel the watchdog that a
    preceding update has armed: the timer is still pending after the waiting
    message, and when it comes due the "stalled" notice is posted into the
    thread.  (Complete issued in place of waiting cancels it.) *)
Theorem C4_waiting_leaves_watchdog_armed :
  let E := sampleEnv alwaysUp in
  let s0 := snd (slack_thread_start E "j1" "Deploy" None None None
                   (mcp_boot None (initSys None))) in
  let s1 := snd (slack_thread_update E "j1" "Building" None None None None None
                   s0) in
  let s2 := snd (slack_thread_waiting E "j1" None (Some "approval") None s1) in
  let s3 := snd (slack_thread_complete E "j1" None None None None s1) in
  timers (watchdog s1)
    = [mkTimer 0 "j1" "C0123456789" "1700000000.0" 30000%N] /\
  timers (watchdog s2) = timers (watchdog s1) /\
  stalled_jobs E [0] s2 = ["j1"] /\
  issued s2 (snd (fire E 0 s2))
    = [PostThreadReply "C0123456789" "1700000000.0" stalledMessage warn false] /\
  timers (watchdog s3) = [] /\
  stalled_jobs E [0] s3 = [].
Proof. vm_compute. repeat split; reflexivity. Qed.

(** The table and the timers stay in step, from the start of the server on. *)
Lemma noWatchdog_wf : watchdog_wf noWatchdog.
Proof. intros t []. Qed.

Lemma mcp_watchdog_wf (E : Env) (job : string) (c : McpCall) (s : Sys) :
  watchdog_wf (watchdog s) -> watchdog_wf (watchdog (snd (mcp E job c s))).
Proof.
  intros Hwf. rewrite mcp_watchdog_run. unfold mcp_watchdog.
  destruct (cancel_clears job _ Hwf) as (Hno1 & Hwf1 & _).
  destruct (cancel_clears job _ Hwf1) as (Hno2 & Hwf2 & _).
  destruct (js_or _ _) as [t|]; [|assumption].
  destruct (truthy t); [|assumption].
  destruct c; try assumption.
  destruct (terminal_opt _); [assumption|].
  destruct (not_false monitor); [|assumption].
  now apply arm_wf.
Qed.
(** ** C3: upsert *)

(** A first part of the update command that asks for an upsert has not
    touched the ledger. *)
Lemma update_message_upsert (E : Env) (job : string) (o : Options)
  (stdin : option StdinData) (s : Sys) (m : option string) :
  fst (update_message E job o stdin s) = Ok (m, true) ->
  snd (update_message E job o stdin s) = s.
Proof.
  unfold update_message, clearProgressMessageTs, setProgress,
    getProgressMessageTs, get, saveToDisk. unfold_m. cbv beta.
  destruct (negb (truthy_opt (o_message o)) &&
            is_opt (o_hook_event o) "UserPromptSubmit" &&
            truthy_opt (o_prompt o)).
  - destruct (JsMap.get job (threads (store s))) as [x|] eqn:Hg; sys;
      break_if; sys; rewrite ?get_set_same; sys; try discriminate.
  - break_if; sys;
      destruct (JsMap.get job (threads (store s))) as [x|] eqn:Hg; sys;
      auto.
Qed.

(** A successful upserting update that is not the Stop hook: top-level
    posts of lazy creation if any, then one request that carries the handle
    on file; the handle that the platform returns is filed. *)
Lemma update_post_success (E : Env) (job : string) (o : Options) (m r : string)
  (s s1 : Sys) :
  update_post E job o m true s = (Ok (OutResult true (Some r)), s1) ->
  r <> "" ->
  is_opt (o_hook_event o) "Stop" = false ->
  exists pre ch ts,
    Forall (fun c => is_top_post c = true) pre /\
    issued s s1 =
      pre ++ [UpsertThreadReply ch ts m
                (match o_level o with Some l => l | None => info end)
                (cli_mention cmd_update o) (progress_of job s)] /\
    progress_of job s1 = Some r /\
    (forall x, JsMap.get job (threads (store s)) = Some x ->
               threadTs x <> "" ->
               pre = [] /\ ts = threadTs x /\
               option_map threadTs (JsMap.get job (threads (store s1)))
                 = Some (threadTs x)).
Proof.
  intros Hrun Hr Hstop.
  change (update_post E job o m true)
    with (cli_reply E job o (CliUpdatePost m true)) in Hrun.
  assert (Hfst : fst (cli_reply E job o (CliUpdatePost m true) s)
                 = Ok (OutResult true (Some r))) by now rewrite Hrun.
  assert (Hsnd : snd (cli_reply E job o (CliUpdatePost m true) s) = s1)
    by now rewrite Hrun.
  clear Hrun.
  assert (Hcases :
    (exists x, JsMap.get job (threads (store s)) = Some x /\
               truthy (threadTs x) = true) \/
    truthy_opt (option_map threadTs (JsMap.get job (threads (store s))))
      = false).
  { destruct (JsMap.get job (threads (store s))) as [x|]; simpl; [|now right].
    destruct (truthy (threadTs x)) eqn:Htt; [left; eauto|now right]. }
  destruct Hcases as [(x & Hg & Htt)|Hf].
  - pose proof (cli_reply_stored E job o (CliUpdatePost m true) s x Hg Htt
                  eq_refl) as H.
    cbv zeta in H. rewrite Hfst, Hsnd in H. destruct (terminal x).
    + destruct H as (H & _). discriminate.
    + destruct H as (Hres & Hcalls & Hth & _).
      unfold cli_result in Hres. injection Hres as Hok Hts.
      exists [], (channel x), (threadTs x). repeat apply conj.
      * constructor.
      * rewrite (issued_app _ _ _ Hcalls). unfold progress_of. rewrite Hg.
        reflexivity.
      * unfold progress_of. rewrite Hth, get_set_same. unfold cli_filed. cbn [cli_request cli_reply_command].
        rewrite <- Hok, <- Hts, Hstop. simpl. now rewrite (truthy_neq _ Hr).
      * intros x' Hx' _. rewrite Hg in Hx'. injection Hx' as <-.
        repeat split. rewrite Hth, get_set_same. unfold cli_filed.
        repeat match goal with
               | |- context [if ?b then _ else _] => destruct b
               end; reflexivity.
  - pose proof (cli_reply_lazy E job o (CliUpdatePost m true) s Hf eq_refl) as H.
    cbv zeta in H. rewrite Hfst, Hsnd in H.
    match type of H with (if ?b then _ else _) => destruct b eqn:Hok end.
    + match type of H with (if ?b then _ else _) => destruct b end.
      * destruct H as (H & _). discriminate.
      * destruct H as (Hres & Hcalls & Hth & _).
        unfold cli_result in Hres. injection Hres as Hrok Hts.
        cbn [cli_request cli_reply_command] in Hcalls.
        match type of Hcalls with
        | _ = _ ++ [?top; UpsertThreadReply ?ch ?ts _ _ _ _] =>
            exists [top], ch, ts
        end.
        repeat apply conj.
        -- constructor; [reflexivity|constructor].
        -- rewrite (issued_app _ _ _ Hcalls). simpl. unfold progress_of.
           destruct (JsMap.get job (threads (store s))); reflexivity.
        -- unfold progress_of. rewrite Hth, get_set_same. unfold cli_filed. cbn [cli_request cli_reply_command].
           rewrite <- Hrok, <- Hts, Hstop. simpl. now rewrite (truthy_neq _ Hr).
        -- intros x Hx Hne. rewrite Hx in Hf. simpl in Hf.
           rewrite (truthy_neq _ Hne) in Hf. discriminate.
    + destruct H as (H & _). discriminate.
Qed.

(** An update command whose first part asks for an upsert is its second
    part, run on the same state. *)
Lemma cli_update_upsert (E : Env) (job : string) (o : Options)
  (stdin : option StdinData) (s s1 : Sys) (m : option string) (out : Output) :
  fst (update_message E job o stdin s) = Ok (m, true) ->
  cli_command E cmd_update job o stdin s = (Ok out, s1) ->
  update_post E job o (or_default m "") true s = (Ok out, s1).
Proof.
  intros Hmsg Hrun. pose proof (update_message_upsert E job o stdin s m Hmsg) as Hs.
  simpl in Hrun. unfold cli_update, bind in Hrun.
  destruct (update_message E job o stdin s) as [r s0]. simpl in Hmsg, Hs.
  subst r s0. cbv beta iota zeta in Hrun.
  destruct (negb (truthy_opt m)); [discriminate|assumption].
Qed.

(** Two upserting updates in a row, on one ledger. *)
Lemma upsert_twice (E : Env) (job : string) (o1 o2 : Options)
  (stdin1 stdin2 : option StdinData) (m1 m2 : option string)
  (s s1 s2 : Sys) (r1 r2 : string) :
  truthy_opt (progress_of job s) = false ->
  fst (update_message E job o1 stdin1 s) = Ok (m1, true) ->
  is_opt (o_hook_event o1) "Stop" = false ->
  cli_command E cmd_update job o1 stdin1 s
    = (Ok (OutResult true (Some r1)), s1) ->
  r1 <> "" ->
  fst (update_message E job o2 stdin2 s1) = Ok (m2, true) ->
  is_opt (o_hook_event o2) "Stop" = false ->
  cli_command E cmd_update job o2 stdin2 s1
    = (Ok (OutResult true (Some r2)), s2) ->
  r2 <> "" ->
  exists pre1 c1 pre2 c2,
    issued s s1 = pre1 ++ [c1] /\
    Forall (fun c => is_top_post c = true) pre1 /\
    is_new_reply c1 = true /\
    issued s1 s2 = pre2 ++ [c2] /\
    Forall (fun c => is_top_post c = true) pre2 /\
    is_edit c2 = true /\ call_edited c2 = Some r1 /\
    progress_of job s2 = Some r2 /\
    (forall x, JsMap.get job (threads (store s)) = Some x ->
               threadTs x <> "" ->
               pre1 = [] /\ pre2 = [] /\ call_thread c2 = call_thread c1).
Proof.
  intros Hnone Hm1 Hstop1 Hrun1 Hr1 Hm2 Hstop2 Hrun2 Hr2.
  apply (cli_update_upsert E job o1 stdin1 s s1 m1 _ Hm1) in Hrun1.
  apply (cli_update_upsert E job o2 stdin2 s1 s2 m2 _ Hm2) in Hrun2.
  destruct (update_post_success E job o1 _ r1 s s1 Hrun1 Hr1 Hstop1)
    as (pre1 & ch1 & ts1 & Hpre1 & Hl1 & Hp1 & Hx1).
  destruct (update_post_success E job o2 _ r2 s1 s2 Hrun2 Hr2 Hstop2)
    as (pre2 & ch2 & ts2 & Hpre2 & Hl2 & Hp2 & Hx2).
  rewrite Hp1 in Hl2.
  eexists pre1, _, pre2, _. repeat apply conj; try eassumption.
  - unfold is_new_reply. simpl. now rewrite Hnone.
  - simpl. now apply truthy_neq.
  - reflexivity.
  - intros x Hx Hne. destruct (Hx1 x Hx Hne) as (-> & -> & Hts1).
    destruct (JsMap.get job (threads (store s1))) as [x1|] eqn:Hg1;
      [|discriminate].
    simpl in Hts1. injection Hts1 as Hts1.
    destruct (Hx2 x1 eq_refl) as (-> & -> & _); [congruence|].
    repeat split. simpl. now rewrite Hts1.
Qed.

(** C3.  For a job with no coalescable reply handle on file, two consecutive
    update commands that ask for an upsert (the first part of the command
    sets [useUpsert]), neither of them the Stop hook, and that both succeed,
    make exactly one new reply and then one edit in place of that reply: the
    first issues one reply request that carries no handle (after the
    top-level post of lazy creation, if the job had no thread), the second
    issues one request that carries the handle the first returned; afterwards
    the handle on file is the one that the edit returned. *)
Theorem C3_upsert_coalescing (E : Env) (job : string) (o1 o2 : Options)
  (stdin1 stdin2 : option StdinData) (m1 m2 : option string)
  (s s1 s2 : Sys) (r1 r2 : string) :
  truthy_opt (progress_of job s) = false ->
  fst (update_message E job o1 stdin1 s) = Ok (m1, true) ->
  is_opt (o_hook_event o1) "Stop" = false ->
  cli_command E cmd_update job o1 stdin1 s
    = (Ok (OutResult true (Some r1)), s1) ->
  r1 <> "" ->
  fst (update_message E job o2 stdin2 s1) = Ok (m2, true) ->
  is_opt (o_hook_event o2) "Stop" = false ->
  cli_command E cmd_update job o2 stdin2 s1
    = (Ok (OutResult true (Some r2)), s2) ->
  r2 <> "" ->
  exists pre1 c1 pre2 c2,
    issued s s1 = pre1 ++ [c1] /\
    Forall (fun c => is_top_post c = true) pre1 /\
    is_new_reply c1 = true /\
    issued s1 s2 = pre2 ++ [c2] /\
    Forall (fun c => is_top_post c = true) pre2 /\
    is_edit c2 = true /\ call_edited c2 = Some r1 /\
    progress_of job s2 = Some r2 /\
    (forall x, JsMap.get job (threads (store s)) = Some x ->
               threadTs x <> "" ->
               pre1 = [] /\ pre2 = [] /\ call_thread c2 = call_thread c1).
Proof.
  exact (upsert_twice E job o1 o2 stdin1 stdin2 m1 m2 s s1 s2 r1 r2).
Qed.

(** ** The identifiers of a job stay on file *)

Section Identifiers.

Variable E : Env.
Variable job : string.
Variable ids : string * string * option string.
Hypothesis has_thread : truthy (snd (fst ids)) = true.

(** An operation that leaves the map alone. *)
Lemma kept_same (s s' : Sys) :
  threads (store s') = threads (store s) -> kept job ids s s'.
Proof. unfold kept, ids_of. now intros ->. Qed.

Lemma kept_refl (s : Sys) : kept job ids s s.
Proof. now apply kept_same. Qed.

Lemma kept_trans (s s0 s' : Sys) : kept job ids s s0 -> kept job ids s0 s' -> kept job ids s s'.
Proof. unfold kept. auto. Qed.

(** An operation that files, for a job on file, a state with the same
    identifiers. *)
Lemma kept_update (s s' : Sys) (job' : string) (x x' : ThreadState) :
  JsMap.get job' (threads (store s)) = Some x ->
  state_ids x' = state_ids x ->
  threads (store s') = JsMap.set job' x' (threads (store s)) ->
  kept job ids s s'.
Proof.
  intros Hg Hids Hth. unfold kept, ids_of. rewrite Hth.
  destruct (String.eqb_spec job' job) as [->|Hne].
  - rewrite get_set_same, Hg. simpl. congruence.
  - rewrite get_set_other by congruence. auto.
Qed.

(** An operation that files a state for a job that had no thread. *)
Lemma kept_fresh (s s' : Sys) (job' : string) (x' : ThreadState) :
  truthy_opt (option_map threadTs (JsMap.get job' (threads (store s))))
  = false ->
  threads (store s') = JsMap.set job' x' (threads (store s)) ->
  kept job ids s s'.
Proof.
  intros Hfalsy Hth. unfold kept, ids_of. rewrite Hth.
  destruct (String.eqb_spec job' job) as [->|Hne].
  - destruct (JsMap.get job (threads (store s))) as [x|]; [|discriminate].
    simpl in *. intros [= <-]. simpl in has_thread. congruence.
  - rewrite get_set_other by congruence. auto.
Qed.

Lemma kept_start (job' : string) (a : StartCall) (s : Sys) :
  kept job ids s (snd (start E job' a s)).
Proof.
  destruct (JsMap.get job' (threads (store s))) as [x|] eqn:Hg.
  - destruct (start_existing E s job' x a Hg) as (out & -> & _).
    apply kept_refl.
  - destruct a as [ttl ch meta mention|o]; simpl;
      unfold slack_thread_start, cli_start, get, postParentMessage,
        request_post, create, now, saveToDisk;
      unfold_m; rewrite Hg; try destruct (o_meta o); repeat break_if; sys;
      solve [ now apply kept_same
            | eapply kept_fresh; [rewrite Hg; reflexivity | sys; reflexivity] ].
Qed.

Lemma ids_with_status (x : ThreadState) (new : JobStatus) (t : string) :
  state_ids (with_status new t x) = state_ids x.
Proof. reflexivity. Qed.

Lemma ids_with_progress (x : ThreadState) (p : option string) :
  state_ids (with_progress p x) = state_ids x.
Proof. reflexivity. Qed.

Lemma ids_cli_filed (o : Options) (c : CliReply) (x : ThreadState)
  (a : ReplyResult) (t t' : string) :
  state_ids (cli_filed o c x a t t') = state_ids x.
Proof. destruct c; simpl; repeat break_if; reflexivity. Qed.

Lemma kept_mcp (job' : string) (c : McpCall) (s : Sys) :
  kept job ids s (snd (mcp E job' c s)).
Proof.
  pose proof (mcp_run E job' c s) as H. cbv zeta in H.
  destruct (js_or _ _) as [t|]; [|destruct H as [_ ->]; apply kept_refl].
  destruct (truthy t); [|destruct H as [_ ->]; apply kept_refl].
  destruct (terminal_opt _).
  - destruct H as (_ & _ & Hs & _). apply kept_same. now rewrite Hs.
  - destruct H as (_ & _ & Hth).
    destruct (JsMap.get job' (threads (store s))) as [x|] eqn:Hg;
      [|now apply kept_same].
    destruct (mcp_status c _) as [new|]; [|now apply kept_same].
    eapply kept_update; [exact Hg| |exact Hth]. reflexivity.
Qed.

Lemma kept_fire (id : nat) (s : Sys) : kept job ids s (snd (fire E id s)).
Proof.
  apply kept_same.
  unfold fire, watchdog_callback, postThreadReply, request_reply.
  unfold_m. cbv beta. repeat break_if; sys; try reflexivity.
  all: repeat match goal with
       | |- context [match ?x with _ => _ end] => destruct x eqn:?
       end; sys; reflexivity.
Qed.

Lemma kept_cli_reply (job' : string) (o : Options) (c : CliReply) (s : Sys) :
  cli_reply_ready o c = true ->
  kept job ids s (snd (cli_reply E job' o c s)).
Proof.
  intros Hready.
  destruct (truthy_opt (option_map threadTs
              (JsMap.get job' (threads (store s))))) eqn:Htt.
  - destruct (JsMap.get job' (threads (store s))) as [x|] eqn:Hg;
      [|discriminate]. simpl in Htt.
    pose proof (cli_reply_stored E job' o c s x Hg Htt Hready) as H.
    cbv zeta in H. destruct (terminal x).
    + destruct H as [_ ->]. apply kept_refl.
    + destruct H as (_ & _ & Hth & _).
      eapply kept_update; [exact Hg|apply ids_cli_filed|exact Hth].
  - pose proof (cli_reply_lazy E job' o c s Htt Hready) as H.
    cbv zeta in H. destruct (post_ok _).
    + destruct (terminal _).
      * destruct H as (_ & _ & Hth). eapply kept_fresh; eauto.
      * destruct H as (_ & _ & Hth & _). eapply kept_fresh; eauto.
    + destruct H as [_ ->]. now apply kept_same.
Qed.

Lemma kept_update_message (job' : string) (o : Options)
  (stdin : option StdinData) (s : Sys) :
  kept job ids s (snd (update_message E job' o stdin s)).
Proof.
  destruct (update_message_run E job' o stdin s)
    as (_ & _ & _ & _ & [-> | (x & Hg & ->)]); [apply kept_refl|].
  eapply kept_update; [exact Hg| |reflexivity].
  apply (ids_with_progress x None).
Qed.

Lemma kept_cli_command (cmd : Command) (job' : string) (o : Options)
  (stdin : option StdinData) (s : Sys) :
  kept job ids s (snd (cli_command E cmd job' o stdin s)).
Proof.
  destruct cmd; simpl.
  - apply (kept_start job' (CliStart o)).
  - unfold cli_update, bind.
    pose proof (kept_update_message job' o stdin s) as H0.
    destruct (update_message_run E job' o stdin s) as ((m & u & Hr) & _).
    destruct (update_message E job' o stdin s) as [r s0]. simpl in *.
    subst r. destruct (negb (truthy_opt m)); [exact H0|].
    eapply kept_trans; [exact H0|].
    apply (kept_cli_reply job' o (CliUpdatePost (or_default m "") u) s0).
    reflexivity.
  - now apply (kept_cli_reply job' o CliWaiting).
  - now apply (kept_cli_reply job' o CliComplete).
  - destruct (truthy_opt (o_error o)) eqn:Herr.
    + now apply (kept_cli_reply job' o CliFail).
    + unfold cli_fail, throw. rewrite Herr. apply kept_refl.
  - apply kept_refl.
Qed.

Lemma kept_handle (e : Event) (s : Sys) : kept job ids s (handle E e s).
Proof.
  destruct e; simpl;
    auto using kept_start, kept_mcp, kept_cli_command, kept_fire.
Qed.

Lemma kept_serve (es : list Event) : forall s, kept job ids s (serve E es s).
Proof.
  induction es as [|e es IH]; intros s; simpl; [apply kept_refl|].
  eapply kept_trans; [apply kept_handle|apply IH].
Qed.

End Identifiers.

(** Once a job has a thread, the channel, thread handle and permalink on file
    for it stay what they are under any further requests, for that job or
    another, over either transport, and under any firing of a timer; and any
    later start of the job returns them. *)
Lemma ids_stable (E : Env) (job : string) (s : Sys)
  (ids : string * string * option string) (es : list Event) (b : StartCall) :
  ids_of job s = Some ids ->
  snd (fst ids) <> "" ->
  ids_of job (serve E es s) = Some ids /\
  exists out, fst (start E job b (serve E es s)) = Ok out /\
              thread_ids out = Some ids.
Proof.
  intros Hids Hts.
  assert (Hrun : ids_of job (serve E es s) = Some ids)
    by (apply kept_serve; auto using truthy_neq).
  split; [exact Hrun|]. unfold ids_of in Hrun.
  destruct (JsMap.get job (threads (store (serve E es s)))) as [x|] eqn:Hg;
    [|discriminate].
  destruct (start_existing E _ job x b Hg) as (out & -> & Hout).
  exists out. split; [reflexivity|]. simpl in Hrun. unfold state_ids in Hrun.
  congruence.
Qed.

(** ** One process after another *)

Section Synced.

Variable E : Env.
Variable p : string.

Lemma synced_frame (s s' : Sys) :
  store s' = store s -> disk s' = disk s -> synced p s -> synced p s'.
Proof. unfold synced. intros -> ->. auto. Qed.

Lemma synced_put (job : string) (st : ThreadState) (s s0 : Sys) :
  jobId st = job -> store s0 = store s ->
  synced p s -> synced p (persist (put_thread job st s0)).
Proof.
  intros Hj Hs (Ht & Hp & Hwf & _). unfold synced, persist. simpl.
  rewrite Hs, Hp. cbn [truthy_opt]. rewrite Ht.
  assert (Hwf' : JsMap.wf (JsMap.set job st (threads (store s))))
    by (rewrite <- Hj; now apply wf_set).
  split; [reflexivity|]. split; [reflexivity|]. split; [exact Hwf'|].
  exact (load_saved _ p Ht Hwf').
Qed.

Lemma synced_now : preserves (synced p) (now E).
Proof. intros s H. exact H. Qed.

Lemma synced_get (job : string) : preserves (synced p) (get job).
Proof. apply preserves_gets. Qed.

Lemma synced_create (job ch ts ttl : string) (link : option string) :
  preserves (synced p) (create E job ch ts ttl link).
Proof.
  intros s H. unfold create, now, saveToDisk. unfold_m. simpl.
  now apply (synced_put _ _ s).
Qed.

Lemma synced_replace (job : string) (f : ThreadState -> ThreadState)
  (s s0 : Sys) (st : ThreadState) :
  (forall x, jobId (f x) = jobId x) -> store s0 = store s ->
  JsMap.get job (threads (store s)) = Some st ->
  synced p s -> synced p (persist (put_thread job (f st) s0)).
Proof.
  intros Hf Hs Hg H. apply (synced_put _ _ s); auto.
  rewrite Hf. destruct H as (_ & _ & Hwf & _).
  exact (get_jobId s job st Hwf Hg).
Qed.

Lemma synced_updateStatus (job : string) (x : JobStatus) :
  preserves (synced p) (updateStatus E job x).
Proof.
  intros s H. unfold updateStatus, get, now, saveToDisk. unfold_m. simpl.
  destruct (JsMap.get job (threads (store s))) as [st|] eqn:Hg; simpl;
    [|exact H].
  now apply (synced_replace job (with_status x _) s).
Qed.

Lemma synced_updateThreadTs (job ts : string) (link : option string) :
  preserves (synced p) (updateThreadTs E job ts link).
Proof.
  intros s H. unfold updateThreadTs, get, now, saveToDisk. unfold_m. simpl.
  destruct (JsMap.get job (threads (store s))) as [st|] eqn:Hg; simpl;
    [|exact H].
  now apply (synced_replace job
               (fun x => touch (toISOString E (ticks s))
                           (with_threadTs ts link x)) s).
Qed.

Lemma synced_setProgress (job : string) (q : option string) :
  preserves (synced p) (setProgress E job q).
Proof.
  intros s H. unfold setProgress, get, now, saveToDisk. unfold_m. simpl.
  destruct (JsMap.get job (threads (store s))) as [st|] eqn:Hg; simpl;
    [|exact H].
  now apply (synced_replace job
               (fun x => touch (toISOString E (ticks s)) (with_progress q x))
               s).
Qed.

Lemma synced_isTerminal (job : string) : preserves (synced p) (isTerminal job).
Proof. unfold isTerminal, get. repeat preserve_step. Qed.

Lemma synced_getProgressMessageTs (job : string) :
  preserves (synced p) (getProgressMessageTs job).
Proof. unfold getProgressMessageTs, get. repeat preserve_step. Qed.

Lemma synced_request_post (c : Call) : preserves (synced p) (request_post E c).
Proof. intros s H. exact H. Qed.

Lemma synced_request_reply (c : Call) : preserves (synced p) (request_reply E c).
Proof. intros s H. exact H. Qed.

End Synced.

#[local] Hint Resolve synced_now synced_get synced_create synced_updateStatus
  synced_updateThreadTs synced_setProgress synced_isTerminal
  synced_getProgressMessageTs synced_request_post synced_request_reply : inv.

Lemma synced_cli_command (E : Env) (p : string) cmd job o stdin :
  preserves (synced p) (cli_command E cmd job o stdin).
Proof.
  destruct cmd; simpl;
    unfold cli_start, cli_update, update_post, update_message, cli_waiting,
      cli_complete, cli_fail, ensureThread, postParentMessage, postComplete,
      postFail, postWaiting, upsertThreadReply, clearProgressMessageTs,
      updateProgressMessageTs;
    preserve.
Qed.

(** A new process finds the ledger that the last one left. *)
Lemma synced_start (p : string) (d : FileContent) (t : nat) (l : list Call) :
  truthy p = true ->
  synced p (mkSys (newThreadStore (Some p) d) d t l noWatchdog).
Proof.
  intros Ht. unfold synced. simpl. rewrite Ht.
  split; [reflexivity|]. split; [reflexivity|]. split; [|reflexivity].
  apply wf_loadFromDisk, wf_nil.
Qed.

Lemma restart_same_store (p : string) (s : Sys) :
  synced p s -> newThreadStore (Some p) (disk s) = store s.
Proof.
  intros (Ht & Hp & _ & Hload). unfold newThreadStore. cbn [truthy_opt].
  rewrite Ht, Hload. destruct (store s) as [m q]. simpl in *. now subst q.
Qed.

(** From one run of the command line to the next, the ledger is carried by
    the state file: the next run is the command, on the state the last run
    left. *)
Lemma cli_main_continues (E : Env) (p : string) cmd job o stdin (s : Sys) :
  synced p s -> watchdog s = noWatchdog ->
  cli_main E (Some p) cmd job o stdin s = cli_command E cmd job o stdin s.
Proof.
  intros Hsync Hwd. unfold cli_main. rewrite (restart_same_store p s Hsync).
  rewrite <- Hwd. now destruct s.
Qed.

(** The command line never touches the watchdog. *)
Lemma cli_command_watchdog (E : Env) (w : Watchdog) cmd job o stdin :
  preserves (fun s => watchdog s = w) (cli_command E cmd job o stdin).
Proof.
  assert (Hput : forall j st, preserves (fun s => watchdog s = w)
                                (modify (put_thread j st)))
    by (intros j st s H; exact H).
  assert (Hsave : preserves (fun s => watchdog s = w) saveToDisk)
    by (intros s H; exact H).
  assert (Hnow : preserves (fun s => watchdog s = w) (now E))
    by (intros s H; exact H).
  assert (Hpost : forall c, preserves (fun s => watchdog s = w)
                              (request_post E c))
    by (intros c s H; exact H).
  assert (Hreply : forall c, preserves (fun s => watchdog s = w)
                               (request_reply E c))
    by (intros c s H; exact H).
  destruct cmd; simpl;
    unfold cli_start, cli_update, update_post, update_message, cli_waiting,
      cli_complete, cli_fail, ensureThread, postParentMessage, postComplete,
      postFail, postWaiting, upsertThreadReply, clearProgressMessageTs,
      updateProgressMessageTs, setProgress, updateThreadTs, updateStatus,
      create, isTerminal, getProgressMessageTs, get;
    preserve.
Qed.

(** So a sequence of runs of the command line, with a state file, is the
    sequence of its commands on one ledger. *)
Lemma cli_main_chain (E : Env) (p : string) cmd job o stdin (s : Sys) :
  synced p s -> watchdog s = noWatchdog ->
  let s' := snd (cli_main E (Some p) cmd job o stdin s) in
  synced p s' /\ watchdog s' = noWatchdog.
Proof.
  intros Hsync Hwd. cbv zeta. rewrite cli_main_continues by assumption.
  split.
  - now apply synced_cli_command.
  - now apply (cli_command_watchdog E noWatchdog).
Qed.

(** The same, for two runs of the command line that share a state file. *)
Lemma upsert_twice_across_runs (E : Env) (p job : string) (o1 o2 : Options)
  (stdin1 stdin2 : option StdinData) (m1 m2 : option string)
  (s s1 s2 : Sys) (r1 r2 : string) :
  synced p s -> watchdog s = noWatchdog ->
  truthy_opt (progress_of job s) = false ->
  fst (update_message E job o1 stdin1 s) = Ok (m1, true) ->
  is_opt (o_hook_event o1) "Stop" = false ->
  cli_main E (Some p) cmd_update job o1 stdin1 s
    = (Ok (OutResult true (Some r1)), s1) ->
  r1 <> "" ->
  fst (update_message E job o2 stdin2 s1) = Ok (m2, true) ->
  is_opt (o_hook_event o2) "Stop" = false ->
  cli_main E (Some p) cmd_update job o2 stdin2 s1
    = (Ok (OutResult true (Some r2)), s2) ->
  r2 <> "" ->
  exists pre1 c1 pre2 c2,
    issued s s1 = pre1 ++ [c1] /\
    Forall (fun c => is_top_post c = true) pre1 /\
    is_new_reply c1 = true /\
    issued s1 s2 = pre2 ++ [c2] /\
    Forall (fun c => is_top_post c = true) pre2 /\
    is_edit c2 = true /\ call_edited c2 = Some r1 /\
    progress_of job s2 = Some r2.
Proof.
  intros Hsync Hwd Hnone Hm1 Hstop1 Hrun1 Hr1 Hm2 Hstop2 Hrun2 Hr2.
  destruct (cli_main_chain E p cmd_update job o1 stdin1 s Hsync Hwd)
    as (Hsync1 & Hwd1).
  rewrite Hrun1 in Hsync1, Hwd1. simpl in Hsync1, Hwd1.
  rewrite cli_main_continues in Hrun1, Hrun2 by assumption.
  destruct (upsert_twice E job o1 o2 stdin1 stdin2 m1 m2 s s1 s2 r1 r2
              Hnone Hm1 Hstop1 Hrun1 Hr1 Hm2 Hstop2 Hrun2 Hr2)
    as (pre1 & c1 & pre2 & c2 & H1 & H2 & H3 & H4 & H5 & H6 & H7 & H8 & _).
  exists pre1, c1, pre2, c2. repeat split; assumption.
Qed.

(** ** The theorems at work *)

Lemma fill_wf (E : Env) (n : nat) (s : Sys) :
  ledger_wf s -> ledger_wf (fill E n s).
Proof.
  intros H. induction n as [|n IH]; simpl; [exact H|].
  now apply wf_create.
Qed.

Lemma fill_path (E : Env) (n : nat) (s : Sys) :
  persistPath (store (fill E n s)) = persistPath (store s).
Proof. induction n as [|n IH]; simpl; [reflexivity|exact IH]. Qed.

(** Ledgers of 0, 1 and 50 jobs, saved to [threads.json] and read back by a
    new store. *)
Lemma C9_roundtrip_persistence_witness :
  let E := sampleEnv alwaysUp in
  let p := "threads.json" in
  let restart s :=
    with_store (newThreadStore (Some p) (disk (snd (saveToDisk s))))
      (snd (saveToDisk s)) in
  let s0 := fill E 0 (initSys (Some p)) in
  let s1 := fill E 1 (initSys (Some p)) in
  let s50 := fill E 50 (initSys (Some p)) in
  (truthy p = true /\ persistPath (store s50) = Some p /\
   JsMap.wf (threads (store s50))) /\
  fst (list_ (restart s0)) = Ok [] /\
  fst (list_ (restart s1))
  = Ok [mkThreadState "job-0" "C0123456789" "1700000000.0" "Task" started
          "2026-01-01T00:00:00.0Z" "2026-01-01T00:00:00.0Z" None None] /\
  (length (JsMap.values (threads (store s50))) = 50 /\
   fst (list_ (restart s50)) = Ok (JsMap.values (threads (store s50)))).
Proof.
  cbv zeta.
  assert (Ht : truthy "threads.json" = true) by reflexivity.
  assert (Hwf : forall n, JsMap.wf (threads (store
                  (fill (sampleEnv alwaysUp) n (initSys (Some "threads.json")))))).
  { intros n. apply fill_wf. apply (wf_newThreadStore (Some "threads.json") NoFile). }
  assert (Hp : forall n, persistPath (store
                 (fill (sampleEnv alwaysUp) n (initSys (Some "threads.json"))))
               = Some "threads.json").
  { intros n. rewrite fill_path. reflexivity. }
  split; [split; [exact Ht|split; [apply Hp|apply Hwf]]|].
  split; [|split; [|split; [vm_compute; reflexivity|]]].
  - etransitivity;
      [exact (proj1 (proj2
                (C9_roundtrip_persistence _ "threads.json" Ht (Hp 0) (Hwf 0))))
      |vm_compute; reflexivity].
  - etransitivity;
      [exact (proj1 (proj2
                (C9_roundtrip_persistence _ "threads.json" Ht (Hp 1) (Hwf 1))))
      |vm_compute; reflexivity].
  - exact (proj1 (proj2
             (C9_roundtrip_persistence _ "threads.json" Ht (Hp 50) (Hwf 50)))).
Defined.

(** An update and a waiting message into thread [1699999999.5] for a job
    that a newly started server does not know. *)
Lemma C10_explicit_thread_leaves_ledger_witness :
  let E := sampleEnv alwaysUp in
  let s := mcp_boot None (initSys None) in
  JsMap.get "j1" (threads (store s)) = None /\
  "1699999999.5" <> "" /\
  calls (snd (slack_thread_update E "j1" "Building" (Some "1699999999.5")
                None None None None s))
    = [PostThreadReply "C0123456789" "1699999999.5" "Building" info false] /\
  store (snd (slack_thread_update E "j1" "Building" (Some "1699999999.5")
                None None None None s)) = store s /\
  store (snd (slack_thread_waiting E "j1" (Some "1699999999.5") None None s))
    = store s.
Proof.
  cbv zeta.
  assert (H1 : JsMap.get "j1" (threads (store (mcp_boot None (initSys None))))
               = None) by reflexivity.
  assert (H2 : "1699999999.5" <> "") by discriminate.
  split; [exact H1|]. split; [exact H2|].
  destruct (C10_explicit_thread_leaves_ledger (sampleEnv alwaysUp)
              (mcp_boot None (initSys None)) "j1" "1699999999.5" "Building"
              None None None None None H1 H2) as [Hu Hw].
  destruct (slack_thread_update _ _ _ _ _ _ _ _ _) as [r s'].
  destruct (slack_thread_waiting _ _ _ _ _ _) as [r2 s2].
  destruct Hu as (_ & Hc & Hs & _). destruct Hw as (_ & _ & Hs2 & _).
  simpl. split; [exact Hc|]. split; [exact Hs|exact Hs2].
Defined.

(** A job started through the MCP tool, then started again from the command
    line under another title. *)
Lemma C2_start_idempotent_witness :
  let E := sampleEnv alwaysUp in
  let s := initSys None in
  let a := McpStart "Deploy" None None None in
  let b := CliStart (with_title "Another title" noOptions) in
  let out1 := OutThread "j1" "C0123456789" "1700000000.0"
                (Some "https://slack.example/p1700000000.0") None in
  let s1 := snd (start E "j1" a s) in
  JsMap.get "j1" (threads (store s)) = None /\
  silent_start a = false /\
  start E "j1" a s = (Ok out1, s1) /\
  exists c out2 ids,
    is_top_post c = true /\ issued s s1 = [c] /\
    thread_ids out1 = Some ids /\
    start E "j1" b s1 = (Ok out2, s1) /\
    thread_ids out2 = Some ids /\
    issued s1 (snd (start E "j1" b s1)) = [].
Proof.
  cbv zeta.
  assert (H1 : JsMap.get "j1" (threads (store (initSys None))) = None)
    by reflexivity.
  assert (H2 : silent_start (McpStart "Deploy" None None None) = false)
    by reflexivity.
  assert (H3 : start (sampleEnv alwaysUp) "j1" (McpStart "Deploy" None None None)
                 (initSys None)
               = (Ok (OutThread "j1" "C0123456789" "1700000000.0"
                        (Some "https://slack.example/p1700000000.0") None),
                  snd (start (sampleEnv alwaysUp) "j1"
                         (McpStart "Deploy" None None None) (initSys None))))
    by (vm_compute; reflexivity).
  split; [exact H1|]. split; [exact H2|]. split; [exact H3|].
  exact (C2_start_idempotent (sampleEnv alwaysUp) (initSys None) _ "j1"
           (McpStart "Deploy" None None None)
           (CliStart (with_title "Another title" noOptions)) _ H1 H2 H3).
Defined.

(** Two [update --upsert=true] commands after a start: a reply, then an edit
    of that reply. *)
Lemma C3_upsert_coalescing_witness :
  let E := sampleEnv alwaysUp in
  let s := snd (cli_command E cmd_start "j1" (with_title "Deploy" noOptions)
                  None (initSys None)) in
  let o1 := with_upsert (with_message "Building" noOptions) in
  let o2 := with_upsert (with_message "Still building" noOptions) in
  let s1 := snd (cli_command E cmd_update "j1" o1 None s) in
  let s2 := snd (cli_command E cmd_update "j1" o2 None s1) in
  let r := "1700000000.1" in
  (truthy_opt (progress_of "j1" s) = false /\
   fst (update_message E "j1" o1 None s) = Ok (Some "Building", true) /\
   is_opt (o_hook_event o1) "Stop" = false /\
   cli_command E cmd_update "j1" o1 None s = (Ok (OutResult true (Some r)), s1) /\
   r <> "" /\
   fst (update_message E "j1" o2 None s1) = Ok (Some "Still building", true) /\
   is_opt (o_hook_event o2) "Stop" = false /\
   cli_command E cmd_update "j1" o2 None s1
     = (Ok (OutResult true (Some r)), s2)) /\
  exists pre1 c1 pre2 c2,
    issued s s1 = pre1 ++ [c1] /\
    Forall (fun c => is_top_post c = true) pre1 /\
    is_new_reply c1 = true /\
    issued s1 s2 = pre2 ++ [c2] /\
    Forall (fun c => is_top_post c = true) pre2 /\
    is_edit c2 = true /\ call_edited c2 = Some r /\
    progress_of "j1" s2 = Some r /\
    (forall x, JsMap.get "j1" (threads (store s)) = Some x ->
               threadTs x <> "" ->
               pre1 = [] /\ pre2 = [] /\ call_thread c2 = call_thread c1).
Proof.
  cbv zeta.
  set (E := sampleEnv alwaysUp).
  set (s := snd (cli_command E cmd_start "j1" (with_title "Deploy" noOptions)
                   None (initSys None))).
  set (o1 := with_upsert (with_message "Building" noOptions)).
  set (o2 := with_upsert (with_message "Still building" noOptions)).
  set (s1 := snd (cli_command E cmd_update "j1" o1 None s)).
  set (s2 := snd (cli_command E cmd_update "j1" o2 None s1)).
  assert (H1 : truthy_opt (progress_of "j1" s) = false) by reflexivity.
  assert (H2 : fst (update_message E "j1" o1 None s)
               = Ok (Some "Building", true)) by reflexivity.
  assert (H3 : is_opt (o_hook_event o1) "Stop" = false) by reflexivity.
  assert (H4 : cli_command E cmd_update "j1" o1 None s
               = (Ok (OutResult true (Some "1700000000.1")), s1))
    by (vm_compute; reflexivity).
  assert (H5 : "1700000000.1" <> "") by discriminate.
  assert (H6 : fst (update_message E "j1" o2 None s1)
               = Ok (Some "Still building", true)) by (vm_compute; reflexivity).
  assert (H7 : is_opt (o_hook_event o2) "Stop" = false) by reflexivity.
  assert (H8 : cli_command E cmd_update "j1" o2 None s1
               = (Ok (OutResult true (Some "1700000000.1")), s2))
    by (vm_compute; reflexivity).
  split;
    [exact (conj H1 (conj H2 (conj H3 (conj H4 (conj H5 (conj H6
              (conj H7 H8)))))))|].
  exact (C3_upsert_coalescing E "j1" o1 o2 None None _ _ s s1 s2 _ _
           H1 H2 H3 H4 H5 H6 H7 H8 H5).
Defined.

(** A platform that accepts top-level posts only: the refused completion
    and the refused update of a started job. *)
Lemma C6_ledger_written_on_outcome_witness :
  let E := sampleEnv onlyTopPosts in
  let s := snd (slack_thread_start E "j1" "Deploy" None None None
                  (mcp_boot None (initSys None))) in
  let complete := McpComplete None (Some "Done") None None in
  let update := McpUpdate "Building" None None None None None in
  (* a refused completion leaves the ledger as it was *)
  threads (store (snd (mcp E "j1" complete s))) = threads (store s) /\
  threads (store (snd (cli_reply E "j1" noOptions CliComplete s)))
    = threads (store s) /\
  (* a refused update leaves the status in_progress *)
  status_of "j1" (snd (mcp E "j1" update s)) = Some in_progress /\
  status_of "j1" (snd (cli_reply E "j1" noOptions
                         (CliUpdatePost "Building" false) s))
    = Some in_progress /\
  (* a new turn leaves no coalescable handle *)
  progress_of "j1"
    (snd (cli_update E "j1"
            (with_prompt "Go on" (with_hook_event "UserPromptSubmit" noOptions))
            None s)) = None.
Proof.
  cbv zeta.
  set (E := sampleEnv onlyTopPosts).
  set (s := snd (slack_thread_start E "j1" "Deploy" None None None
                   (mcp_boot None (initSys None)))).
  set (x := mkThreadState "j1" "C0123456789" "1700000000.0" "Deploy" started
              "2026-01-01T00:00:00.0Z" "2026-01-01T00:00:00.0Z"
              (Some "https://slack.example/p1700000000.0") None).
  destruct (C6_ledger_written_on_outcome E "j1" s)
    as (Hmcp & Hcli & _ & _ & Hupd & Hcliupd & Hturn).
  split; [|split; [|split; [|split]]].
  - apply (Hmcp (McpComplete None (Some "Done") None None)
             (PostComplete "C0123456789" "1700000000.0" "Deploy" (Some "Done")
                None true));
      [reflexivity|vm_compute; reflexivity|reflexivity].
  - apply (Hcli noOptions CliComplete x
             (PostComplete "C0123456789" "1700000000.0" "Deploy" None None
                false));
      [reflexivity|reflexivity|discriminate|vm_compute; reflexivity
      |reflexivity].
  - apply (Hupd (McpUpdate "Building" None None None None None) x
             (PostThreadReply "C0123456789" "1700000000.0" "Building" info
                false));
      [reflexivity|reflexivity|vm_compute; reflexivity].
  - apply (Hcliupd noOptions (CliUpdatePost "Building" false) []
             (UpsertThreadReply "C0123456789" "1700000000.0" "Building" info
                true None));
      [reflexivity|vm_compute; reflexivity|reflexivity].
  - apply (Hturn (with_prompt "Go on"
                    (with_hook_event "UserPromptSubmit" noOptions)) None x);
      reflexivity.
Defined.

(** The mention flag of each request when the caller gives none. *)
Lemma C7_mention_defaults_witness :
  let E := sampleEnv alwaysUp in
  let s0 := mcp_boot None (initSys None) in
  let s := snd (slack_thread_start E "j1" "Deploy" None None None s0) in
  (o_mention noOptions = None /\
   mcp_mention (McpUpdate "Building" None None None None None) = None /\
   mcp_mention (McpComplete None None None None) = None) /\
  Forall (fun c0 => call_mention c0 = true)
    (issued s0 (snd (slack_thread_start E "j1" "Deploy" None None None s0))) /\
  Forall (fun c0 => call_mention c0 = false)
    (issued s (snd (mcp E "j1" (McpUpdate "Building" None None None None None)
                      s))) /\
  Forall (fun c0 => call_mention c0 = true)
    (issued s (snd (mcp E "j1" (McpComplete None None None None) s))) /\
  Forall (fun c0 => call_mention c0 = false)
    (issued s (snd (cli_command E cmd_complete "j1" noOptions None s))) /\
  Forall (fun c0 => call_mention c0 = true)
    (issued s (snd (cli_command E cmd_update "j1"
                      (with_message "Building" noOptions) None s))).
Proof.
  cbv zeta.
  set (E := sampleEnv alwaysUp).
  set (s0 := mcp_boot None (initSys None)).
  set (s := snd (slack_thread_start E "j1" "Deploy" None None None s0)).
  destruct (C7_mention_defaults E "j1" s0) as (Hstart & _ & _).
  destruct (C7_mention_defaults E "j1" s) as (_ & Hmcp & Hcli).
  split; [repeat split|]. split; [|split; [|split; [|split]]].
  - exact (Hstart "Deploy" None None).
  - exact (Hmcp (McpUpdate "Building" None None None None None) eq_refl).
  - exact (Hmcp (McpComplete None None None None) eq_refl).
  - exact (Hcli cmd_complete noOptions None eq_refl).
  - exact (Hcli cmd_update (with_message "Building" noOptions) None eq_refl).
Defined.

(** A platform that accepts top-level posts only: every reply into the
    thread of a started job is refused and reported, nothing is thrown. *)
Lemma C8_upstream_failure_witness :
  let E := sampleEnv onlyTopPosts in
  let s := snd (slack_thread_start E "j1" "Deploy" None None None
                  (mcp_boot None (initSys None))) in
  let D := sampleEnv alwaysDown in
  let s0 := initSys None in
  (* a refused reply: ok: false *)
  fst (mcp E "j1" (McpFail None "boom" None None) s)
    = Ok (OutResult false None) /\
  (exists ts, fst (cli_reply E "j1" noOptions CliWaiting s)
              = Ok (OutResult false ts)) /\
  (* a refused top-level post: a hard error *)
  fst (start D "j1" (McpStart "Deploy" None None None) s0)
    = Thrown SlackPostFailed /\
  (exists top,
     issued s0 (snd (cli_reply D "j1" noOptions CliComplete s0)) = [top] /\
     is_top_post top = true /\
     post_ok (post_answer D (calls s0) top) = false).
Proof.
  cbv zeta.
  set (E := sampleEnv onlyTopPosts).
  set (s := snd (slack_thread_start E "j1" "Deploy" None None None
                   (mcp_boot None (initSys None)))).
  set (D := sampleEnv alwaysDown).
  destruct (C8_upstream_failure E "j1" s) as (Hmcp & _ & Hcli & _ & _).
  destruct (C8_upstream_failure D "j1" (initSys None))
    as (_ & _ & _ & Hthrown & Hstart).
  split; [|split; [|split]].
  - apply (Hmcp (McpFail None "boom" None None)
             (PostFail "C0123456789" "1700000000.0" "Deploy" "boom" None true));
      [vm_compute; reflexivity|reflexivity].
  - apply (Hcli noOptions CliWaiting []
             (PostWaiting "C0123456789" "1700000000.0" "Deploy"
                "Waiting for permission or user input" false None));
      [vm_compute; reflexivity|reflexivity|reflexivity].
  - apply (Hstart (McpStart "Deploy" None None None)
             (PostParentMessage "C0123456789" "Deploy" None true));
      [vm_compute; reflexivity|reflexivity].
  - destruct (Hthrown noOptions CliComplete LazyCreateFailed)
      as [(Habs & _)|(_ & Htop)]; [vm_compute; reflexivity|discriminate|].
    exact Htop.
Defined.

(** * Arguments, environment and configuration *)

(** ** Strings *)

Lemma join_cons (sep x : string) (l : list string) :
  l <> [] -> join sep (x :: l) = String.append x (String.append sep (join sep l)).
Proof. destruct l; [congruence|reflexivity]. Qed.

(** Splitting at a character and joining with it gives the string back. *)
Lemma join_split (sep : ascii) (s : string) :
  join (String sep EmptyString) (split sep s) = s.
Proof.
  induction s as [|c s IH]; [reflexivity|]. simpl.
  destruct (Ascii.eqb_spec c sep) as [->|Hne].
  - rewrite join_cons by apply split_nonempty. simpl. now rewrite IH.
  - pose proof (split_nonempty sep s) as Hnil.
    destruct (split sep s) as [|h t] eqn:Hs; [congruence|].
    destruct t as [|h' t'].
    + simpl in IH. simpl. now rewrite IH.
    + rewrite join_cons in IH by discriminate.
      rewrite join_cons by discriminate.
      cbn [String.append]. f_equal. exact IH.
Qed.

(** ** How an argument is read *)

Lemma truthy_or_true (v : string) :
  truthy (or_default (Some v) "true") = true.
Proof. simpl. now destruct (truthy v) eqn:H. Qed.

Lemma parse_option_arg (key v : string) (o : RawOptions) :
  no_sep "=" key = true ->
  parse_option (option_arg key v) o
  = assign key (if truthy v then v else "true") o.
Proof.
  intros Hkey. unfold parse_option, option_arg. cbn [String.append slice_from].
  rewrite split_app, (split_no_sep _ _ Hkey). cbn [app].
  now rewrite join_split.
Qed.

Lemma parse_option_flag (key : string) (o : RawOptions) :
  no_sep "=" key = true ->
  parse_option (flag_arg key) o = assign key "true" o.
Proof.
  intros Hkey. unfold parse_option, flag_arg. cbn [String.append slice_from].
  now rewrite (split_no_sep _ _ Hkey).
Qed.

Lemma startsWith_option (key v : string) :
  startsWith "--" (option_arg key v) = true.
Proof. reflexivity. Qed.

Lemma option_arg_not_stdin (key v : string) :
  no_sep "=" key = true -> (option_arg key v =? "--stdin") = false.
Proof.
  intros Hkey. apply String.eqb_neq. intros H.
  assert (Hs : split "=" (slice_from 2 (option_arg key v))
               = split "=" "stdin") by now rewrite H.
  unfold option_arg in Hs. cbn [String.append slice_from] in Hs.
  rewrite split_app, (split_no_sep _ _ Hkey) in Hs. simpl in Hs.
  pose proof (split_nonempty "=" v). destruct (split "=" v); [congruence|].
  discriminate.
Qed.

Lemma get_assign_same (key v : string) (o : RawOptions) :
  key <> "__proto__" -> JsMap.get key (assign key v o) = Some v.
Proof.
  intros H. unfold assign. apply String.eqb_neq in H. rewrite H.
  apply get_set_same.
Qed.

Lemma get_assign_other (key other v : string) (o : RawOptions) :
  other <> key -> JsMap.get other (assign key v o) = JsMap.get other o.
Proof.
  intros H. unfold assign. destruct (key =? "__proto__"); [reflexivity|].
  now apply get_set_other.
Qed.

Lemma parse_options_snoc (cmd : string) (pre : list string) (arg : string) :
  parse_options (cmd :: pre ++ [arg])
  = (if startsWith "--" arg && negb (arg =? "--stdin")
     then parse_option arg (parse_options (cmd :: pre))
     else parse_options (cmd :: pre)).
Proof. unfold parse_options. simpl. now rewrite fold_left_app. Qed.

Lemma index_parseArgs_snoc (cmd : string) (pre : list string) (arg : string) :
  snd (IndexTs.parseArgs (cmd :: pre ++ [arg]))
  = (if startsWith "--" arg
     then parse_option arg (snd (IndexTs.parseArgs (cmd :: pre)))
     else snd (IndexTs.parseArgs (cmd :: pre))).
Proof. unfold IndexTs.parseArgs. simpl. now rewrite fold_left_app. Qed.

(** X14.  The last argument that names a key decides its value.  [--key=value]
    stores the value, whatever [=] signs it contains; an empty value and the
    bare [--key] store ["true"]; no other key is touched.  The command line of
    [cli.ts] does not take [--stdin] for an option. *)
Theorem parseArgs_last_argument_wins (cmd : string) (pre : list string)
  (key v other : string) :
  no_sep "=" key = true ->
  key <> "__proto__" ->
  let args := cmd :: pre ++ [option_arg key v] in
  let flag := cmd :: pre ++ [flag_arg key] in
  let stored := Some (if truthy v then v else "true") in
  JsMap.get key (parse_options args) = stored /\
  JsMap.get key (snd (IndexTs.parseArgs args)) = stored /\
  JsMap.get key (snd (IndexTs.parseArgs flag)) = Some "true" /\
  (key <> "stdin" -> JsMap.get key (parse_options flag) = Some "true") /\
  parse_options (cmd :: pre ++ [flag_arg "stdin"]) = parse_options (cmd :: pre) /\
  (other <> key ->
   JsMap.get other (parse_options args)
   = JsMap.get other (parse_options (cmd :: pre)) /\
   JsMap.get other (snd (IndexTs.parseArgs args))
   = JsMap.get other (snd (IndexTs.parseArgs (cmd :: pre)))).
Proof.
  intros Hkey Hproto. cbv zeta.
  rewrite !parse_options_snoc, !index_parseArgs_snoc.
  rewrite (option_arg_not_stdin key v Hkey), startsWith_option.
  cbn [andb negb]. rewrite !parse_option_arg by assumption.
  assert (Hflag : startsWith "--" (flag_arg key) = true) by reflexivity.
  rewrite Hflag. rewrite !parse_option_flag by assumption.
  repeat apply conj.
  - now apply get_assign_same.
  - now apply get_assign_same.
  - now apply get_assign_same.
  - intros Hstdin.
    assert (Hne : (flag_arg key =? "--stdin") = false).
    { apply String.eqb_neq. unfold flag_arg. intros H.
      cbn [String.append] in H. injection H as H. congruence. }
    rewrite Hne. cbn [andb negb]. now apply get_assign_same.
  - reflexivity.
  - intros Hne. split; now apply get_assign_other.
Qed.

(** [--meta={"a":"b=c"}] after an earlier [--meta], and [--silent]. *)
Lemma parseArgs_last_argument_wins_witness :
  let args := ["start"; "--meta=old"; "--job-id=j1"; "--meta={a:b=c}"] in
  JsMap.get "meta" (parse_options args) = Some "{a:b=c}" /\
  JsMap.get "job-id" (parse_options args) = Some "j1" /\
  JsMap.get "silent"
    (snd (IndexTs.parseArgs ["start"; "--job-id=j1"; "--silent"]))
  = Some "true".
Proof.
  pose proof (parseArgs_last_argument_wins "start" ["--meta=old"; "--job-id=j1"]
                "meta" "{a:b=c}" "job-id" eq_refl) as H.
  pose proof (parseArgs_last_argument_wins "start" ["--job-id=j1"]
                "silent" "" "job-id" eq_refl) as H2.
  cbv zeta in H, H2.
  destruct H as (H & _ & _ & _ & _ & Hother); [discriminate|].
  destruct H2 as (_ & _ & Hflag & _); [discriminate|].
  split; [exact H|]. split; [|exact Hflag].
  exact (eq_trans (proj1 (Hother ltac:(discriminate))) eq_refl).
Defined.

(** ** Option values are never empty *)

Lemma all_truthy_set (k v : string) (o : RawOptions) :
  truthy v = true -> all_truthy o -> all_truthy (JsMap.set k v o).
Proof.
  intros Hv. induction o as [|[k' v'] o IH]; simpl; intros H.
  - constructor; [exact Hv|constructor].
  - inversion H; subst. destruct (k' =? k).
    + constructor; assumption.
    + constructor; [assumption|now apply IH].
Qed.

Lemma all_truthy_get (k v : string) (o : RawOptions) :
  all_truthy o -> JsMap.get k o = Some v -> v <> "".
Proof.
  induction o as [|[k' v'] o IH]; simpl; [discriminate|].
  intros H. inversion H; subst. destruct (k' =? k).
  - intros [= <-]. now apply truthy_true.
  - now apply IH.
Qed.

Lemma all_truthy_parse_option (arg : string) (o : RawOptions) :
  all_truthy o -> all_truthy (parse_option arg o).
Proof.
  intros H. unfold parse_option, assign.
  destruct (split "=" (slice_from 2 arg)) as [|key parts]; [exact H|].
  destruct (key =? "__proto__"); [exact H|].
  apply all_truthy_set; [apply truthy_or_true|exact H].
Qed.

Lemma all_truthy_fold (f : RawOptions -> string -> RawOptions)
  (l : list string) :
  (forall o a, all_truthy o -> all_truthy (f o a)) ->
  forall o, all_truthy o -> all_truthy (fold_left f l o).
Proof.
  intros Hf. induction l as [|a l IH]; simpl; intros o H; [exact H|].
  apply IH. now apply Hf.
Qed.

Lemma all_truthy_assign_if (k : string) (v : option string) (o : RawOptions) :
  all_truthy o -> all_truthy (assign_if k v o).
Proof.
  intros H. unfold assign_if. destruct v as [v|]; simpl; [|exact H].
  destruct (truthy v) eqn:Hv; [|exact H]. now apply all_truthy_set.
Qed.

Lemma all_truthy_parse_options (args : list string) :
  all_truthy (parse_options args).
Proof.
  apply all_truthy_fold; [|constructor].
  intros o a H. destruct (_ && _); [now apply all_truthy_parse_option|exact H].
Qed.

Lemma all_truthy_hook_options (d : HookJson) (o : RawOptions) :
  all_truthy o -> all_truthy (hook_options d o).
Proof.
  intros H. unfold hook_options.
  repeat apply all_truthy_assign_if.
  destruct (h_session_id d) as [j|]; simpl; [|exact H].
  destruct (truthy j) eqn:Hj; simpl; [|exact H].
  destruct (negb _); [|exact H]. now apply all_truthy_set.
Qed.

(** X15.  No option is ever stored with an empty value, neither from an argument
    nor from the JSON of a hook: [--title=] reads as the title ["true"]. *)
Theorem parseArgs_values_not_empty (args : list string)
  (stdin : option HookJson) (key v : string) :
  JsMap.get key (snd (fst (parseArgs args stdin))) = Some v \/
  JsMap.get key (snd (IndexTs.parseArgs args)) = Some v ->
  v <> "".
Proof.
  intros [H|H].
  - apply (all_truthy_get key v _) in H; [exact H|].
    unfold parseArgs.
    destruct (if existsb _ args then stdin else None); cbn [fst snd];
      [apply all_truthy_hook_options|]; apply all_truthy_parse_options.
  - apply (all_truthy_get key v _) in H; [exact H|].
    unfold IndexTs.parseArgs. cbn [snd].
    apply all_truthy_fold; [|constructor].
    intros o a Ho. destruct (startsWith "--" a);
      [now apply all_truthy_parse_option|exact Ho].
Qed.

Lemma parseArgs_values_not_empty_witness :
  JsMap.get "title" (snd (fst (parseArgs ["start"; "--title="] None)))
  = Some "true" /\ "true" <> "".
Proof.
  split; [reflexivity|].
  apply (parseArgs_values_not_empty ["start"; "--title="] None "title" "true").
  left. reflexivity.
Defined.

(** ** Where the job id comes from *)

Lemma get_assign_if_other (k other : string) (v : option string)
  (o : RawOptions) :
  other <> k -> JsMap.get other (assign_if k v o) = JsMap.get other o.
Proof.
  intros H. unfold assign_if. destruct (truthy_opt v); [|reflexivity].
  now apply get_set_other.
Qed.

Lemma job_id_hook_options (d : HookJson) (o : RawOptions) :
  JsMap.get "job-id" (hook_options d o)
  = (if truthy_opt (h_session_id d) && negb (truthy_opt (JsMap.get "job-id" o))
     then h_session_id d else JsMap.get "job-id" o).
Proof.
  unfold hook_options.
  rewrite !get_assign_if_other by discriminate.
  destruct (h_session_id d) as [j|]; simpl; [|reflexivity].
  destruct (truthy j) eqn:Hj; simpl; [|reflexivity].
  destruct (negb _); [|reflexivity].
  now rewrite get_set_same.
Qed.

(** X16.  The job id of a command of [cli.ts] is the [--job-id] of the command
    line; without one, the [session_id] of the hook's JSON under [--stdin];
    without that, the variable [SLACK_THREAD_JOB_ID], unless it is empty.
    Without any of them there is none, which is when [main] exits with an
    error. *)
Theorem job_id_precedence (args : list string) (stdin : option HookJson)
  (env : ProcessEnv) :
  resolve_job_id (snd (fst (parseArgs args stdin))) env
  = match JsMap.get "job-id" (parse_options args) with
    | Some j => Some j
    | None =>
        match (if existsb (String.eqb "--stdin") args then stdin else None) with
        | Some d =>
            if truthy_opt (h_session_id d) then h_session_id d
            else env_job_id env
        | None => env_job_id env
        end
    end.
Proof.
  unfold parseArgs, resolve_job_id, env_job_id, js_or.
  pose proof (all_truthy_parse_options args) as Hall.
  destruct (if existsb _ args then stdin else None) as [d|]; cbn [fst snd].
  - rewrite job_id_hook_options.
    destruct (JsMap.get "job-id" (parse_options args)) as [j|] eqn:Hj.
    + assert (Ht : truthy j = true)
        by (apply truthy_neq; exact (all_truthy_get _ _ _ Hall Hj)).
      cbn [truthy_opt]. rewrite Ht, andb_false_r. cbn [truthy_opt].
      now repeat (rewrite Ht; cbn [truthy_opt]).
    + cbn [truthy_opt negb]. rewrite andb_true_r.
      destruct (truthy_opt (h_session_id d)) eqn:Hs; [now rewrite !Hs|].
      cbn [truthy_opt]. reflexivity.
  - destruct (JsMap.get "job-id" (parse_options args)) as [j|] eqn:Hj.
    + assert (Ht : truthy j = true)
        by (apply truthy_neq; exact (all_truthy_get _ _ _ Hall Hj)).
      cbn [truthy_opt]. now repeat (rewrite Ht; cbn [truthy_opt]).
    + cbn [truthy_opt]. reflexivity.
Qed.

(** ** What the hook's JSON adds *)

Lemma get_assign_if_same (k : string) (v : option string) (o : RawOptions) :
  JsMap.get k (assign_if k v o) = js_or v (JsMap.get k o).
Proof.
  unfold assign_if, js_or. destruct v as [x|]; simpl; [|reflexivity].
  destruct (truthy x) eqn:Hx; [|reflexivity].
  now rewrite get_set_same.
Qed.

Lemma get_job_id_other (k : string) (d : HookJson) (o : RawOptions) :
  k <> "job-id" ->
  JsMap.get k
    (if truthy_opt (h_session_id d) && negb (truthy_opt (JsMap.get "job-id" o))
     then JsMap.set "job-id" (or_default (h_session_id d) "") o else o)
  = JsMap.get k o.
Proof.
  intros H. destruct (_ && _); [|reflexivity]. now apply get_set_other.
Qed.

(** X17.  Under [--stdin], what the hook's JSON says about the event, the tool,
    the notification, the prompt, the message, the transcript and the working
    directory replaces an argument of the same internal name; only the job id
    goes the other way.  Without [--stdin] the standard input is not looked
    at. *)
Theorem hook_fields_override (args : list string) (stdin : option HookJson) :
  let o := snd (fst (parseArgs args stdin)) in
  let given := parse_options args in
  match (if existsb (String.eqb "--stdin") args then stdin else None) with
  | Some d =>
      snd (parseArgs args stdin) = Some d /\
      JsMap.get "_hook_event" o
      = js_or (h_hook_event_name d) (JsMap.get "_hook_event" given) /\
      JsMap.get "_tool_name" o
      = js_or (h_tool_name d) (JsMap.get "_tool_name" given) /\
      JsMap.get "_notification_type" o
      = js_or (h_notification_type d) (JsMap.get "_notification_type" given) /\
      JsMap.get "_prompt" o = js_or (h_prompt d) (JsMap.get "_prompt" given) /\
      JsMap.get "_message" o = js_or (h_message d) (JsMap.get "_message" given) /\
      JsMap.get "_transcript_path" o
      = js_or (h_transcript_path d) (JsMap.get "_transcript_path" given) /\
      JsMap.get "_cwd" o = js_or (h_cwd d) (JsMap.get "_cwd" given)
  | None => parseArgs args stdin = (command_of args, given, None)
  end.
Proof.
  cbv zeta. unfold parseArgs.
  destruct (if existsb _ args then stdin else None) as [d|]; [|reflexivity].
  cbn [fst snd]. unfold hook_options.
  repeat split;
    repeat first
      [ rewrite get_assign_if_same
      | rewrite get_assign_if_other by discriminate
      | rewrite get_job_id_other by discriminate ];
    reflexivity.
Qed.

(** ** C5: the thread of a reply *)

Lemma agree_but_refl (key : string) (o : RawOptions) : agree_but key o o.
Proof. intros k _. reflexivity. Qed.














(** ** The [.env] file *)

Lemma loadDotEnv_entries (content : string) (env : ProcessEnv) :
  loadDotEnv (Some content) env
  = fold_left dotenv_define (dotenv_entries content) env.
Proof.
  unfold loadDotEnv, dotenv_entries. revert env.
  induction (split "010" content) as [|line lines IH]; intros env;
    [reflexivity|].
  simpl. rewrite fold_left_app, IH. unfold dotenv_step.
  now destruct (dotenv_entry line).
Qed.

Lemma first_value_truthy (key v : string) (es : list (string * string)) :
  first_value key es = Some v -> truthy v = true.
Proof.
  unfold first_value. destruct (find _ es) as [e|] eqn:Hf; [|discriminate].
  apply find_some in Hf. destruct Hf as [_ Hf].
  apply andb_true_iff in Hf. simpl. intros [= <-]. apply Hf.
Qed.

Lemma get_define_other (key : string) (e : string * string) (env : ProcessEnv) :
  fst e <> key -> JsMap.get key (dotenv_define env e) = JsMap.get key env.
Proof.
  intros H. unfold dotenv_define. destruct (_ && _); [|reflexivity].
  apply get_set_other. congruence.
Qed.

Lemma dotenv_lookup (key : string) (es : list (string * string)) :
  key <> "" ->
  forall env,
    JsMap.get key (fold_left dotenv_define es env)
    = if truthy_opt (JsMap.get key env) then JsMap.get key env
      else match first_value key es with
           | Some v => Some v
           | None => if defined_in key es then Some "" else JsMap.get key env
           end.
Proof.
  intros Hkey. induction es as [|e es IH]; intros env.
  - simpl. now destruct (truthy_opt _).
  - cbn [fold_left]. rewrite IH.
    destruct (String.eqb_spec (fst e) key) as [He|He].
    + unfold dotenv_define. rewrite He, (truthy_neq _ Hkey). cbn [andb].
      destruct (truthy_opt (JsMap.get key env)) eqn:Henv; cbn [negb].
      * rewrite Henv. reflexivity.
      * rewrite get_set_same. unfold first_value, defined_in.
        cbn [find existsb]. rewrite He, String.eqb_refl. cbn [andb orb].
        cbn [truthy_opt]. destruct (truthy (snd e)) eqn:Hv; [reflexivity|].
        assert (Hempty : snd e = "").
        { unfold truthy in Hv. apply negb_false_iff in Hv.
          now apply String.eqb_eq in Hv. }
        rewrite Hempty.
        destruct (option_map snd (find _ es)); [reflexivity|].
        now destruct (existsb _ es).
    + rewrite get_define_other by assumption.
      unfold first_value, defined_in. cbn [find existsb].
      apply String.eqb_neq in He. rewrite He. reflexivity.
Qed.

(** X18.  A variable that the environment holds with a non-empty value keeps it,
    whatever [.env] says.  One that it does not hold, or holds empty, takes
    the first non-empty value that [.env] gives it; when [.env] names it with
    empty values only, it is set to the empty string. *)
Theorem dotenv_first_value_wins (content : string) (env : ProcessEnv)
  (key : string) :
  key <> "" ->
  JsMap.get key (loadDotEnv (Some content) env)
  = if truthy_opt (JsMap.get key env) then JsMap.get key env
    else match first_value key (dotenv_entries content) with
         | Some v => Some v
         | None =>
             if defined_in key (dotenv_entries content) then Some ""
             else JsMap.get key env
         end.
Proof.
  intros Hkey. rewrite loadDotEnv_entries. now apply dotenv_lookup.
Qed.

Lemma dotenv_first_value_wins_witness :
  let content :=
    lines [ "# settings"; "SLACK_DEFAULT_CHANNEL=";
            "SLACK_DEFAULT_CHANNEL='C1'"; "SLACK_DEFAULT_CHANNEL=C2";
            "SLACK_BOT_TOKEN=from-file" ] in
  let env := [("SLACK_BOT_TOKEN", "xoxb-env")] in
  JsMap.get "SLACK_DEFAULT_CHANNEL" (loadDotEnv (Some content) env) = Some "C1"
  /\ JsMap.get "SLACK_BOT_TOKEN" (loadDotEnv (Some content) env)
     = Some "xoxb-env".
Proof.
  cbv zeta. split.
  - exact (eq_trans (dotenv_first_value_wins _ [("SLACK_BOT_TOKEN", "xoxb-env")]
                       "SLACK_DEFAULT_CHANNEL" ltac:(discriminate)) eq_refl).
  - exact (eq_trans (dotenv_first_value_wins _ [("SLACK_BOT_TOKEN", "xoxb-env")]
                       "SLACK_BOT_TOKEN" ltac:(discriminate)) eq_refl).
Defined.

(** ** The lines of [.env] *)

Lemma append_assoc (a b c : string) :
  String.append (String.append a b) c = String.append a (String.append b c).
Proof. induction a as [|x a IH]; simpl; [reflexivity|now rewrite IH]. Qed.

Lemma append_nil_r (a : string) : String.append a "" = a.
Proof. induction a as [|x a IH]; simpl; [reflexivity|now rewrite IH]. Qed.

Lemma trimStart_pad (pad s : string) :
  all_space pad = true -> trimStart (String.append pad s) = trimStart s.
Proof.
  induction pad as [|c pad IH]; simpl; [reflexivity|].
  intros H. apply andb_true_iff in H. destruct H as [Hc H].
  rewrite Hc. now apply IH.
Qed.

Lemma trimEnd_space (pad : string) : all_space pad = true -> trimEnd pad = "".
Proof.
  induction pad as [|c pad IH]; simpl; [reflexivity|].
  intros H. apply andb_true_iff in H. destruct H as [Hc H].
  now rewrite IH, Hc.
Qed.

Lemma trimEnd_pad (s pad : string) :
  all_space pad = true -> trimEnd (String.append s pad) = trimEnd s.
Proof.
  intros H. induction s as [|c s IH]; simpl.
  - now apply trimEnd_space.
  - now rewrite IH.
Qed.

Lemma trimEnd_kept (s : string) : ends_with_space s = false -> trimEnd s = s.
Proof.
  induction s as [|c s IH]; [reflexivity|].
  destruct s as [|c' s'].
  - simpl. now intros ->.
  - intros H. change (ends_with_space (String c' s') = false) in H.
    change (trimEnd (String c (String c' s')))
      with (match trimEnd (String c' s') with
            | EmptyString =>
                if is_space c then EmptyString else String c EmptyString
            | r => String c r
            end).
    now rewrite (IH H).
Qed.

Lemma ends_with_space_app (a : string) (c : ascii) (b : string) :
  ends_with_space (String.append a (String c b)) = ends_with_space (String c b).
Proof.
  induction a as [|x a IH]; [reflexivity|].
  cbn [String.append]. rewrite <- IH.
  destruct (String.append a (String c b)) eqn:Ha; [|reflexivity].
  destruct a; discriminate.
Qed.

Lemma strip_trailing_snoc (s : string) (q : ascii) :
  is_quote q = true -> strip_trailing (String.append s (String q "")) = s.
Proof.
  intros Hq. induction s as [|c s IH]; simpl; [now rewrite Hq|].
  rewrite IH. destruct (String.append s (String q "")) eqn:Ha; [|reflexivity].
  destruct s; discriminate.
Qed.

(** X19.  How a line of [.env] is read.  White space around the line is dropped;
    the key is what comes before the first [=], the value what comes after
    it, [=] signs included; one quote of either kind is taken off each end of
    the value, so a value in quotes loses exactly the two of them.  A blank
    line and a line that starts with [#] define nothing. *)
Theorem dotenv_line_read (pad1 pad2 key value : string) :
  all_space pad1 = true ->
  all_space pad2 = true ->
  no_sep "=" key = true ->
  key_start key = true ->
  ends_with_space value = false ->
  dotenv_entry
    (String.append pad1
       (String.append key (String "=" (String.append value pad2))))
  = Some (key, strip_quotes value) /\
  (forall q1 q2 s, is_quote q1 = true -> is_quote q2 = true ->
     strip_quotes (String q1 (String.append s (String q2 ""))) = s) /\
  dotenv_entry pad1 = None /\
  dotenv_entry (String.append pad1 (String "#" value)) = None.
Proof.
  intros Hp1 Hp2 Hkey Hstart Hend.
  assert (Hq : forall q1 q2 s, is_quote q1 = true -> is_quote q2 = true ->
            strip_quotes (String q1 (String.append s (String q2 ""))) = s).
  { intros q1 q2 s H1 H2. unfold strip_quotes. simpl. rewrite H1.
    now apply strip_trailing_snoc. }
  split; [|split; [exact Hq|split]].
  - unfold dotenv_entry, trim.
    rewrite (trimStart_pad _ _ Hp1).
    destruct key as [|k0 key]; [discriminate|]. simpl in Hstart.
    apply andb_true_iff in Hstart. destruct Hstart as [Hsp Hhash].
    apply negb_true_iff in Hsp, Hhash.
    cbn [String.append trimStart]. rewrite Hsp.
    assert (Hre :
      String k0 (String.append key (String "=" (String.append value pad2)))
      = String.append (String.append (String k0 key) (String "=" value)) pad2).
    { cbn [String.append]. f_equal. rewrite append_assoc. reflexivity. }
    rewrite Hre, (trimEnd_pad _ _ Hp2).
    rewrite trimEnd_kept.
    2:{ rewrite ends_with_space_app. destruct value; [reflexivity|exact Hend]. }
    cbn [String.append startsWith]. rewrite Ascii.eqb_sym, Hhash.
    change (truthy (String k0 (String.append key (String "=" value)))) with true.
    cbn [andb negb].
    change (String k0 (String.append key (String "=" value)))
      with (String.append (String k0 key) (String "=" value)).
    rewrite split_app, (split_no_sep _ _ Hkey). cbn [app].
    now rewrite join_split.
  - unfold dotenv_entry, trim.
    rewrite <- (append_nil_r pad1), (trimStart_pad _ _ Hp1). reflexivity.
  - unfold dotenv_entry, trim. rewrite (trimStart_pad _ _ Hp1).
    cbn [trimStart]. change (is_space "#") with false. cbv iota.
    destruct (trimEnd (String "#" value)) as [|c r] eqn:Ht; [reflexivity|].
    assert (c = "#"%char).
    { cbn [trimEnd] in Ht. destruct (trimEnd value); [|congruence].
      change (is_space "#") with false in Ht. congruence. }
    subst c. reflexivity.
Qed.

Lemma dotenv_line_read_witness :
  dotenv_entry "  SLACK_POST_PREFIX='[ci] build=3' "
  = Some ("SLACK_POST_PREFIX", "[ci] build=3").
Proof.
  exact (proj1 (dotenv_line_read "  " " " "SLACK_POST_PREFIX" "'[ci] build=3'"
                  eq_refl eq_refl eq_refl eq_refl eq_refl)).
Defined.

(** ** The configuration *)

Lemma js_or_loaded (key : string) (es : list (string * string))
  (env : ProcessEnv) (global : option string) :
  key <> "" ->
  js_or (JsMap.get key (fold_left dotenv_define es env)) global
  = pick env es key global.
Proof.
  intros Hkey. rewrite (dotenv_lookup key es Hkey). unfold pick, js_or.
  destruct (truthy_opt (JsMap.get key env)) eqn:Henv.
  - now rewrite !Henv.
  - destruct (first_value key es) as [v|] eqn:Hv.
    + reflexivity.
    + cbn [truthy_opt]. destruct (defined_in key es); [reflexivity|].
      now rewrite Henv.
Qed.

(** X20.  The command lines resolve every setting in the same order: the
    environment of the process, else the first non-empty value in [.env],
    else the first global configuration file that parses.  They stop with an
    error when that leaves the token without a value, and next when it leaves
    the channel without one. *)
Theorem config_precedence (content : string) (files : list ConfigFile)
  (env : ProcessEnv) :
  let es := dotenv_entries content in
  let g := loadGlobalConfig files in
  let token := pick env es "SLACK_BOT_TOKEN" (g_slackBotToken g) in
  let channel := pick env es "SLACK_DEFAULT_CHANNEL" (g_slackDefaultChannel g) in
  match snd (resolveConfig (Some content) files env) with
  | inr TokenNotSet => truthy_opt token = false
  | inr ChannelNotSet => truthy_opt token = true /\ truthy_opt channel = false
  | inl c =>
      Some (slackBotToken c) = token /\
      Some (slackDefaultChannel c) = channel /\
      slackMentionUserIds c
      = mentionUserIds_of
          (pick env es "SLACK_MENTION_USER_IDS"
             (option_map (join ",") (g_slackMentionUserIds g))) /\
      slackMentionGroupId c
      = pick env es "SLACK_MENTION_GROUP_ID" (g_slackMentionGroupId g) /\
      slackPostPrefix c
      = pick env es "SLACK_POST_PREFIX" (g_slackPostPrefix g) /\
      threadStatePath c
      = pick env es "THREAD_STATE_PATH" (g_threadStatePath g)
  end.
Proof.
  cbv zeta. unfold resolveConfig, config_of. cbn [snd].
  rewrite loadDotEnv_entries.
  rewrite !js_or_loaded by discriminate.
  destruct (truthy_opt (pick env _ "SLACK_BOT_TOKEN" _)) eqn:Ht;
    cbn [negb]; [|reflexivity].
  destruct (truthy_opt (pick env _ "SLACK_DEFAULT_CHANNEL" _)) eqn:Hc;
    cbn [negb]; [|split; reflexivity].
  cbn [slackBotToken slackDefaultChannel slackMentionUserIds
       slackMentionGroupId slackPostPrefix threadStatePath].
  repeat split.
  - destruct (pick env _ "SLACK_BOT_TOKEN" _) as [t|]; [|discriminate].
    simpl in Ht |- *. now rewrite Ht.
  - destruct (pick env _ "SLACK_DEFAULT_CHANNEL" _) as [t|]; [|discriminate].
    simpl in Hc |- *. now rewrite Hc.
Qed.

Lemma mentionUserIds_of_js_or (x : option string) :
  mentionUserIds_of (js_or x None) = mentionUserIds_of x.
Proof.
  unfold mentionUserIds_of, js_or.
  destruct (truthy_opt x) eqn:H; [now rewrite H|reflexivity].
Qed.

(** X21.  The MCP server takes its configuration from the environment alone, and
    from there as the command lines do when there is neither a [.env] nor a
    global configuration file: the same error for a token or a channel that
    is not set or empty, else the same token, channel and user ids, and the
    same group, prefix and state path up to a value that is set but empty. *)
Theorem server_config_from_environment (env : ProcessEnv) :
  match loadEnvConfig env, snd (resolveConfig None [] env) with
  | inl c, inl c' =>
      slackBotToken c = slackBotToken c' /\
      slackDefaultChannel c = slackDefaultChannel c' /\
      slackMentionUserIds c = slackMentionUserIds c' /\
      js_or (slackMentionGroupId c) None = slackMentionGroupId c' /\
      js_or (slackPostPrefix c) None = slackPostPrefix c' /\
      js_or (threadStatePath c) None = threadStatePath c'
  | inr e, inr e' => e = e'
  | _, _ => False
  end.
Proof.
  unfold loadEnvConfig, resolveConfig, config_of, loadDotEnv, loadGlobalConfig.
  cbn [snd emptyGlobalConfig g_slackBotToken g_slackDefaultChannel
       g_slackMentionUserIds g_slackMentionGroupId g_slackPostPrefix
       g_threadStatePath option_map].
  rewrite mentionUserIds_of_js_or.
  destruct (JsMap.get "SLACK_BOT_TOKEN" env) as [t|];
    [destruct (truthy t) eqn:Ht|];
    destruct (JsMap.get "SLACK_DEFAULT_CHANNEL" env) as [c|];
    try destruct (truthy c) eqn:Hc;
    unfold js_or;
    repeat (cbn [truthy_opt or_default negb slackBotToken slackDefaultChannel
                 slackMentionUserIds slackMentionGroupId slackPostPrefix
                 threadStatePath];
            rewrite ?Ht, ?Hc);
    try reflexivity.
  repeat split; reflexivity.
Qed.

(** * The texts of the posts *)

Lemma join_first (sep : string) (c : ascii) (r : string) (l : list string) :
  exists rest, join sep (String c r :: l) = String c rest.
Proof. destruct l; simpl; eauto. Qed.

Lemma formatMention_not_empty (cfg : SlackConfig) :
  cfg_useChannelMention cfg <> Some false -> formatMention cfg <> "".
Proof.
  intros Hch. unfold formatMention.
  assert (Hnf : not_false (cfg_useChannelMention cfg) = true).
  { destruct (cfg_useChannelMention cfg) as [[|]|]; try reflexivity.
    congruence. }
  rewrite Hnf, andb_true_r.
  destruct (mentions cfg) as [|m ms] eqn:Hm; [discriminate|].
  cbn [length Nat.eqb Nat.ltb Nat.leb].
  assert (Hfirst : exists c r, m = String c r).
  { unfold mentions in Hm.
    destruct (cfg_mentionUserIds cfg) as [[|i ids]|];
      cbn [map app] in Hm;
      try (injection Hm as <- _; simpl; eauto);
      destruct (truthy_opt (cfg_mentionGroupId cfg));
      try discriminate; injection Hm as <- _; simpl; eauto. }
  destruct Hfirst as (c & r & ->).
  destruct (join_first " " c r ms) as (rest & ->). discriminate.
Qed.

Lemma paragraph_append (a b : string) :
  String.append a (String.append b "") = String.append a b.
Proof. now rewrite append_nil_r. Qed.

(** X11.  A mention is the last paragraph of a text and nothing else of it: the
    text that asks for a mention is the text that asks for none, followed by
    an empty line and the targets; and the text that asks for none is the
    same whatever targets are configured.  Unless the channel mention is
    switched off, which none of the entry points does, there are always
    targets. *)
Theorem mention_is_last_paragraph (cfg : SlackConfig) :
  (forall ttl meta,
     parentText cfg ttl meta true
     = String.append (parentText cfg ttl meta false)
         (paragraph (formatMention cfg))) /\
  (forall msg level,
     replyText cfg msg level true
     = String.append (replyText cfg msg level false)
         (paragraph (formatMention cfg))) /\
  (forall ttl summary next,
     completeText cfg ttl summary next true
     = String.append (completeText cfg ttl summary next false)
         (paragraph (formatMention cfg))) /\
  (forall ttl err hint,
     failText cfg ttl err hint true
     = String.append (failText cfg ttl err hint false)
         (paragraph (formatMention cfg))) /\
  (forall ttl reason,
     waitingText cfg ttl reason true
     = String.append (waitingText cfg ttl reason false)
         (paragraph (formatMention cfg))) /\
  (forall ids group channel ttl meta msg level summary next err hint reason,
     let cfg' := with_mentions ids group channel cfg in
     parentText cfg' ttl meta false = parentText cfg ttl meta false /\
     replyText cfg' msg level false = replyText cfg msg level false /\
     completeText cfg' ttl summary next false
     = completeText cfg ttl summary next false /\
     failText cfg' ttl err hint false = failText cfg ttl err hint false /\
     waitingText cfg' ttl reason false = waitingText cfg ttl reason false) /\
  (forall c : Config,
     paragraph (formatMention (slackConfig_of c))
     = String "010" (String "010" (formatMention (slackConfig_of c)))).
Proof.
  repeat apply conj.
  - intros. unfold parentText, formatPrefix, mentionText. cbn [paragraph truthy].
    change (paragraph "") with "".
    destruct (truthy_opt (cfg_postPrefix cfg));
      rewrite ?append_assoc, ?append_nil_r;
      cbn [String.append]; rewrite ?append_assoc; reflexivity.
  - intros. unfold replyText, mentionText. change (paragraph "") with "".
    rewrite ?append_assoc, ?append_nil_r. cbn [String.append].
    rewrite ?append_assoc. reflexivity.
  - intros. unfold completeText, formatPrefix, mentionText.
    change (paragraph "") with "".
    destruct (truthy_opt (cfg_postPrefix cfg));
      rewrite ?append_assoc, ?append_nil_r;
      cbn [String.append]; rewrite ?append_assoc; reflexivity.
  - intros. unfold failText, formatPrefix, mentionText.
    change (paragraph "") with "".
    destruct (truthy_opt (cfg_postPrefix cfg));
      rewrite ?append_assoc, ?append_nil_r;
      cbn [String.append]; rewrite ?append_assoc, ?append_nil_r; reflexivity.
  - intros. unfold waitingText, formatPrefix, mentionText.
    change (paragraph "") with "".
    destruct (truthy_opt (cfg_postPrefix cfg));
      rewrite ?append_assoc, ?append_nil_r;
      cbn [String.append]; rewrite ?append_assoc, ?append_nil_r; reflexivity.
  - intros. cbv zeta. repeat split; reflexivity.
  - intros c. unfold paragraph.
    rewrite (truthy_neq _ (formatMention_not_empty (slackConfig_of c)
                             ltac:(discriminate))).
    reflexivity.
Qed.

(** X12.  The configured prefix opens the texts of start, complete, fail and
    waiting, followed by a space.  A progress reply never carries it, and so
    neither does the notice of the watchdog. *)
Theorem prefix_not_on_replies (cfg : SlackConfig) (p : string) :
  truthy p = true ->
  let cfgp := with_postPrefix (Some p) cfg in
  let cfg0 := with_postPrefix None cfg in
  (forall ttl meta m,
     parentText cfgp ttl meta m
     = String.append p (String.append " " (parentText cfg0 ttl meta m))) /\
  (forall ttl summary next m,
     completeText cfgp ttl summary next m
     = String.append p (String.append " " (completeText cfg0 ttl summary next m)))
  /\
  (forall ttl err hint m,
     failText cfgp ttl err hint m
     = String.append p (String.append " " (failText cfg0 ttl err hint m))) /\
  (forall ttl reason m,
     waitingText cfgp ttl reason m
     = String.append p (String.append " " (waitingText cfg0 ttl reason m))) /\
  (forall msg level m,
     replyText cfgp msg level m = replyText cfg0 msg level m) /\
  replyText cfgp stalledMessage warn false
  = String.append "⚠️ " stalledMessage.
Proof.
  intros Hp. cbv zeta.
  repeat apply conj; intros;
    unfold parentText, completeText, failText, waitingText, formatPrefix;
    cbn [cfg_postPrefix with_postPrefix truthy_opt or_default];
    rewrite ?Hp; reflexivity.
Qed.

Lemma prefix_not_on_replies_witness :
  let cfg := mkSlackConfig "xoxb-1" "C0123456789" None None (Some "[ci]") None in
  waitingText cfg "Deploy" "approval" false
  = String.append "[ci] ⏸️ *Waiting:* Deploy" (String "010" "approval") /\
  replyText cfg "Building" info false = "⏳ Building".
Proof.
  pose proof (prefix_not_on_replies
                (mkSlackConfig "xoxb-1" "C0123456789" None None None None)
                "[ci]" eq_refl) as H.
  cbv zeta in H. destruct H as (_ & _ & _ & Hw & Hr & _).
  split.
  - exact (Hw "Deploy" "approval" false).
  - exact (Hr "Building" info false).
Defined.

(** ** The user ids of a mention *)

Lemma split_join (sep : ascii) (ids : list string) :
  ids <> [] ->
  Forall (fun i => no_sep sep i = true) ids ->
  split sep (join (String sep "") ids) = ids.
Proof.
  induction ids as [|x ids IH]; [congruence|].
  intros _ H. inversion H as [|? ? Hx Hids]; subst.
  destruct ids as [|y ids].
  - simpl. now apply split_no_sep.
  - rewrite join_cons by discriminate.
    cbn [String.append]. rewrite split_app, (split_no_sep _ _ Hx).
    cbn [app]. f_equal. apply IH; [discriminate|assumption].
Qed.

(** X13.  The user ids of the global configuration file, and the same ids written
    with commas in [SLACK_MENTION_USER_IDS], reach the mention as they are,
    each without the white space around it; with no group configured the
    mention is exactly these users, separated by spaces. *)
Theorem mention_ids_reach_text (cfg : SlackConfig) (ids : list string) :
  ids <> [] ->
  Forall (fun i => no_sep "," i = true) ids ->
  join "," ids <> "" ->
  mentionUserIds_of (Some (join "," ids)) = Some (map trim ids) /\
  (cfg_mentionUserIds cfg = mentionUserIds_of (Some (join "," ids)) ->
   truthy_opt (cfg_mentionGroupId cfg) = false ->
   formatMention cfg
   = join " "
       (map (fun id => String.append "<@" (String.append (trim id) ">")) ids)).
Proof.
  intros Hne Hids Hraw.
  assert (Hm : mentionUserIds_of (Some (join "," ids)) = Some (map trim ids)).
  { unfold mentionUserIds_of. cbn [truthy_opt or_default].
    rewrite (truthy_neq _ Hraw). now rewrite split_join. }
  split; [exact Hm|].
  intros Hcfg Hgroup. unfold formatMention, mentions.
  rewrite Hcfg, Hm, Hgroup, app_nil_r, map_map.
  destruct ids as [|i ids]; [congruence|]. reflexivity.
Qed.

Lemma mention_ids_reach_text_witness :
  let cfg := mkSlackConfig "xoxb-1" "C0123456789"
               (mentionUserIds_of (Some "U1, U2 ,U3")) None None None in
  formatMention cfg = "<@U1> <@U2> <@U3>".
Proof.
  cbv zeta.
  pose proof (mention_ids_reach_text
                (mkSlackConfig "xoxb-1" "C0123456789"
                   (mentionUserIds_of (Some "U1, U2 ,U3")) None None None)
                ["U1"; " U2 "; "U3"]) as H.
  destruct H as [_ H].
  - discriminate.
  - repeat constructor.
  - discriminate.
  - exact (H eq_refl eq_refl).
Defined.

(** * The transcript *)

Lemma length_append (a b : string) :
  String.length (String.append a b) = String.length a + String.length b.
Proof. induction a as [|c a IH]; simpl; [reflexivity|now rewrite IH]. Qed.

Lemma length_substring (n m : nat) (s : string) :
  String.length (substring n m s) <= m.
Proof.
  revert n m. induction s as [|c s IH]; intros n m.
  - destruct n, m; simpl; lia.
  - destruct n as [|n].
    + destruct m as [|m]; simpl; [lia|]. specialize (IH 0 m). lia.
    + simpl. apply IH.
Qed.

Lemma truncate_bounded (n : nat) (s : string) :
  s <> "" ->
  truncate n s <> "" /\ String.length (truncate n s) <= n + 3.
Proof.
  intros Hs. unfold truncate.
  destruct (Nat.ltb n (String.length s)) eqn:Hlt.
  - split.
    + intros H. apply (f_equal String.length) in H.
      rewrite length_append in H. simpl in H. lia.
    + rewrite length_append. pose proof (length_substring 0 n s). simpl. lia.
  - apply Nat.ltb_ge in Hlt. split; [exact Hs|lia].
Qed.

Lemma assistant_text_bounded (n : nat) (line : option TranscriptEntry)
  (r : string) :
  assistant_text n line = Some r -> r <> "" /\ String.length r <= n + 3.
Proof.
  unfold assistant_text. destruct line as [e|]; [|discriminate].
  destruct (entry_type e =? "assistant"); [|discriminate].
  destruct (entry_content e) as [content|]; [|discriminate].
  destruct (rev (filter is_text_block content)) as [|b bs] eqn:Hr;
    [discriminate|].
  intros [= <-]. apply truncate_bounded.
  assert (Hin : In b (filter is_text_block content)).
  { apply in_rev. rewrite Hr. now left. }
  apply filter_In in Hin. destruct Hin as [_ Hb].
  unfold is_text_block in Hb. apply andb_true_iff in Hb. destruct Hb as [_ Hb].
  destruct (block_text b) as [t|]; [|discriminate].
  simpl in Hb |- *. rewrite Hb. now apply truthy_true.
Qed.

(** X22.  What [getLastAssistantResponse] returns is never empty and never longer
    than [maxLength] and the three dots. *)
Theorem last_response_bounded (file : option (list (option TranscriptEntry)))
  (maxLength : nat) (r : string) :
  getLastAssistantResponse file maxLength = Some r ->
  r <> "" /\ String.length r <= maxLength + 3.
Proof.
  unfold getLastAssistantResponse. destruct file as [lines|]; [|discriminate].
  induction (rev lines) as [|l ls IH]; [discriminate|].
  simpl. destruct (assistant_text maxLength l) as [x|] eqn:Hx.
  - intros [= <-]. now apply (assistant_text_bounded maxLength l).
  - exact IH.
Qed.

Lemma first_some_skip {A B : Type} (f : A -> option B) (l rest : list A) :
  Forall (fun a => f a = None) l ->
  first_some f (l ++ rest) = first_some f rest.
Proof.
  induction 1 as [|a l Ha Hl IH]; [reflexivity|].
  simpl. now rewrite Ha.
Qed.

(** X23.  The response is read off the last line that is an assistant entry with a
    non-empty text block, and there off the last such block: the lines before
    it, the lines after it that have no such block, and the other blocks of
    the entry make no difference. *)
Theorem last_response_found (maxLength : nat)
  (pre post : list (option TranscriptEntry)) (before after : list Block)
  (t : string) :
  t <> "" ->
  Forall (fun b => is_text_block b = false) after ->
  Forall (fun l => assistant_text maxLength l = None) post ->
  getLastAssistantResponse
    (Some (pre
           ++ Some (mkTranscriptEntry "assistant"
                      (Some (before ++ mkBlock "text" (Some t) :: after)))
           :: post))
    maxLength
  = Some (truncate maxLength t).
Proof.
  intros Ht Hafter Hpost. unfold getLastAssistantResponse.
  rewrite rev_app_distr. cbn [rev]. rewrite <- app_assoc.
  rewrite first_some_skip.
  2:{ apply Forall_rev. exact Hpost. }
  cbn [app first_some assistant_text entry_type entry_content].
  rewrite String.eqb_refl, filter_app. cbn [filter].
  unfold is_text_block at 2. cbn [block_type block_text truthy_opt].
  rewrite String.eqb_refl, (truthy_neq _ Ht). cbn [andb].
  assert (Hnone : filter is_text_block after = []).
  { clear -Hafter. induction Hafter as [|b l Hb Hl IH]; [reflexivity|].
    simpl. now rewrite Hb. }
  rewrite Hnone, rev_app_distr. cbn [rev app block_text or_default].
  now rewrite (truthy_neq _ Ht).
Qed.

Lemma last_response_bounded_witness :
  let file :=
    Some [ Some (mkTranscriptEntry "user" None);
           Some (mkTranscriptEntry "assistant"
                   (Some [ mkBlock "text" (Some "Done: 3 files changed");
                           mkBlock "tool_use" None ]));
           None ] in
  getLastAssistantResponse file 8 = Some "Done: 3 ..." /\
  "Done: 3 ..." <> "" /\ String.length "Done: 3 ..." <= 8 + 3.
Proof.
  cbv zeta. split; [reflexivity|].
  exact (last_response_bounded
           (Some [ Some (mkTranscriptEntry "user" None);
                   Some (mkTranscriptEntry "assistant"
                           (Some [ mkBlock "text" (Some "Done: 3 files changed");
                                   mkBlock "tool_use" None ]));
                   None ])
           8 "Done: 3 ..." eq_refl).
Defined.

Lemma last_response_found_witness :
  getLastAssistantResponse
    (Some [ Some (mkTranscriptEntry "assistant"
                    (Some [mkBlock "text" (Some "Earlier answer")]));
            Some (mkTranscriptEntry "assistant"
                    (Some [ mkBlock "text" (Some "First part");
                            mkBlock "text" (Some "Done");
                            mkBlock "tool_use" None ]));
            Some (mkTranscriptEntry "user" None);
            None ])
    200
  = Some "Done".
Proof.
  exact (last_response_found 200
           [Some (mkTranscriptEntry "assistant"
                    (Some [mkBlock "text" (Some "Earlier answer")]))]
           [Some (mkTranscriptEntry "user" None); None]
           [mkBlock "text" (Some "First part")] [mkBlock "tool_use" None]
           "Done" ltac:(discriminate)
           ltac:(repeat constructor) ltac:(repeat constructor)).
Defined.

(** * The MCP server over time *)

(** ** A job only moves forward *)

Lemma later_refl (x : ThreadState) : later_state x x.
Proof. unfold later_state. repeat split; auto. Qed.

Lemma later_trans (x y z : ThreadState) :
  later_state x y -> later_state y z -> later_state x z.
Proof.
  unfold later_state.
  intros (H1 & H2 & H3 & H4 & H5 & H6 & H7 & H8)
         (G1 & G2 & G3 & G4 & G5 & G6 & G7 & G8).
  repeat split; try congruence; try lia.
  intros Ht. rewrite <- (H8 Ht). apply G8. now rewrite (H8 Ht).
Qed.

Lemma later_status (x : ThreadState) (new : JobStatus) (t : string) :
  terminal x = false -> new <> started ->
  later_state x (with_status new t x).
Proof.
  intros Ht Hnew. unfold later_state. simpl. repeat split.
  - unfold terminal in Ht. destruct (status x), new; simpl in *;
      try lia; try discriminate; congruence.
  - congruence.
Qed.

Lemma fire_store (E : Env) (id : nat) (s : Sys) :
  store (snd (fire E id s)) = store s /\ disk (snd (fire E id s)) = disk s.
Proof.
  unfold fire, watchdog_callback, postThreadReply, request_reply.
  unfold_m. cbv beta.
  destruct (find _ (timers (watchdog s))) as [t|]; [|now split]. simpl.
  destruct (JsMap.get _ _) as [n|]; [|now split].
  destruct (notified n); now split.
Qed.

Lemma mcp_status_not_started (c : McpCall) (ok : bool) (new : JobStatus) :
  mcp_status c ok = Some new -> new <> started.
Proof. destruct c, ok; simpl; intros [= <-]; discriminate. Qed.

Lemma server_step_later (E : Env) (e : ServerEvent) (s : Sys) (job : string)
  (x : ThreadState) :
  JsMap.get job (threads (store s)) = Some x ->
  exists x', JsMap.get job (threads (store (server_step E e s))) = Some x' /\
             later_state x x'.
Proof.
  intros Hg. destruct e as [job' ttl ch meta mention|job' c|id]; simpl.
  - destruct (JsMap.get job' (threads (store s))) as [x0|] eqn:Hg'.
    + destruct (start_existing E s job' x0 (McpStart ttl ch meta mention) Hg')
        as (out & Hrun & _).
      simpl in Hrun. rewrite Hrun. exists x. split; [exact Hg|apply later_refl].
    + assert (Hne : job <> job') by congruence.
      exists x. split; [|apply later_refl].
      unfold slack_thread_start, get, postParentMessage, request_post, create,
        now, saveToDisk. unfold_m. rewrite Hg'.
      destruct (negb _); sys; [exact Hg|].
      now rewrite get_set_other.
  - pose proof (mcp_run E job' c s) as H. cbv zeta in H.
    destruct (js_or _ _) as [t|];
      [|destruct H as [_ ->]; exists x; split; [exact Hg|apply later_refl]].
    destruct (truthy t);
      [|destruct H as [_ ->]; exists x; split; [exact Hg|apply later_refl]].
    destruct (terminal_opt (JsMap.get job' (threads (store s)))) eqn:Hterm.
    + destruct H as (_ & _ & Hs & _). rewrite Hs.
      exists x. split; [exact Hg|apply later_refl].
    + destruct H as (_ & _ & Hth). rewrite Hth.
      destruct (JsMap.get job' (threads (store s))) as [x0|] eqn:Hg';
        [|exists x; split; [exact Hg|apply later_refl]].
      destruct (mcp_status c _) as [new|] eqn:Hnew;
        [|exists x; split; [exact Hg|apply later_refl]].
      destruct (String.eqb_spec job' job) as [->|Hne].
      * rewrite get_set_same. rewrite Hg in Hg'. injection Hg' as <-.
        eexists. split; [reflexivity|].
        apply later_status; [exact Hterm|].
        exact (mcp_status_not_started _ _ _ Hnew).
      * rewrite get_set_other by congruence.
        exists x. split; [exact Hg|apply later_refl].
  - rewrite (proj1 (fire_store E id s)).
    exists x. split; [exact Hg|apply later_refl].
Qed.

(** X5.  In the MCP server a job on file stays on file, under the same channel,
    thread, title and creation time; its status never goes back, from
    in_progress to started or out of completed or failed; and once it has
    ended, nothing of its state changes any more, whatever tools are called
    and whatever timers come due. *)
Theorem server_job_moves_forward (E : Env) (es : list ServerEvent) (s : Sys)
  (job : string) (x : ThreadState) :
  JsMap.get job (threads (store s)) = Some x ->
  exists x',
    JsMap.get job (threads (store (server_run E es s))) = Some x' /\
    later_state x x'.
Proof.
  revert s x. induction es as [|e es IH]; intros s x Hg.
  - exists x. split; [exact Hg|apply later_refl].
  - destruct (server_step_later E e s job x Hg) as (x1 & Hg1 & H1).
    destruct (IH _ _ Hg1) as (x' & Hg' & H').
    exists x'. split; [exact Hg'|]. exact (later_trans _ _ _ H1 H').
Qed.

Lemma server_job_moves_forward_witness :
  let E := sampleEnv alwaysUp in
  let s := snd (slack_thread_start E "j1" "Deploy" None None None
                  (mcp_boot None (initSys None))) in
  let es := [ SvCall "j1" (McpUpdate "Building" None None None None None);
              SvTimer 0;
              SvCall "j1" (McpComplete None (Some "Done") None None);
              SvCall "j1" (McpFail None "late error" None None);
              SvStart "j1" "Another title" None None None ] in
  exists x x',
    JsMap.get "j1" (threads (store s)) = Some x /\
    JsMap.get "j1" (threads (store (server_run E es s))) = Some x' /\
    later_state x x'.
Proof.
  cbv zeta. eexists.
  destruct (server_job_moves_forward (sampleEnv alwaysUp)
              [ SvCall "j1" (McpUpdate "Building" None None None None None);
                SvTimer 0;
                SvCall "j1" (McpComplete None (Some "Done") None None);
                SvCall "j1" (McpFail None "late error" None None);
                SvStart "j1" "Another title" None None None ]
              (snd (slack_thread_start (sampleEnv alwaysUp) "j1" "Deploy" None
                      None None (mcp_boot None (initSys None))))
              "j1" _ eq_refl) as (x' & Hg & Hl).
  exists x'. split; [reflexivity|]. split; [exact Hg|exact Hl].
Defined.

(** ** The state file follows the ledger *)

#[local] Hint Resolve preserves_ret preserves_throw preserves_gets
  preserves_when preserves_if : inv.
#[local] Hint Resolve synced_now synced_get synced_create synced_updateStatus
  synced_isTerminal synced_request_post synced_request_reply : inv.

Lemma synced_watchdog (p : string) (f : Watchdog -> Watchdog) :
  preserves (synced p) (modify (fun s => with_watchdog (f (watchdog s)) s)).
Proof. intros s H. simpl. now apply (synced_frame p s). Qed.

Lemma synced_cancel (p : string) (job : string) :
  preserves (synced p) (cancelWaitingMonitor job).
Proof. apply (synced_watchdog p (wd_cancel job)). Qed.

Lemma synced_startWaitingMonitor (p : string) (job ch ts : string)
  (ms : option N) :
  preserves (synced p) (startWaitingMonitor job ch ts ms).
Proof.
  unfold startWaitingMonitor. apply preserves_bind; [apply synced_cancel|].
  intros _. apply (synced_watchdog p (wd_arm job ch ts ms)).
Qed.

#[local] Hint Resolve synced_cancel synced_startWaitingMonitor : inv.

Lemma synced_server_step (E : Env) (p : string) (e : ServerEvent) (s : Sys) :
  synced p s -> synced p (server_step E e s).
Proof.
  destruct e as [job ttl ch meta mention|job c|id]; simpl.
  - revert s. change (preserves (synced p)
                        (slack_thread_start E job ttl ch meta mention)).
    unfold slack_thread_start, postParentMessage. preserve.
  - revert s. change (preserves (synced p) (mcp E job c)).
    destruct c; simpl;
      unfold slack_thread_update, slack_thread_waiting, slack_thread_complete,
        slack_thread_fail, require_thread, known_and_terminal,
        postThreadReply, postWaiting, postComplete, postFail;
      preserve.
  - intros H. destruct (fire_store E id s) as [Hs Hd].
    now apply (synced_frame p s).
Qed.

(** X6.  With a state path configured (a path that is not empty), the state
    file holds the ledger after every tool call of the server, whatever its
    outcome: a server started on the file at any such moment has the ledger
    of the running one, and lists exactly its states, in the same order. *)
Theorem server_state_file_current (E : Env) (p : string)
  (es : list ServerEvent) (s : Sys) :
  synced p s ->
  let s' := server_run E es s in
  synced p s' /\
  newThreadStore (Some p) (disk s') = store s' /\
  fst (list_ (mcp_boot (Some p) s')) = Ok (JsMap.values (threads (store s'))).
Proof.
  intros H. cbv zeta.
  assert (Hrun : synced p (server_run E es s)).
  { revert s H. induction es as [|e es IH]; intros s H; [exact H|].
    simpl. apply IH. now apply synced_server_step. }
  split; [exact Hrun|].
  pose proof (restart_same_store p _ Hrun) as Hre.
  split; [exact Hre|].
  unfold list_, gets, mcp_boot. cbn [fst store]. now rewrite Hre.
Qed.

Lemma server_state_file_current_witness :
  let E := sampleEnv alwaysUp in
  let s := mcp_boot (Some "threads.json") (initSys (Some "threads.json")) in
  let es := [ SvStart "j1" "Deploy" None None None;
              SvCall "j1" (McpUpdate "Building" None None None None None);
              SvStart "j2" "Tests" None None None;
              SvCall "j1" (McpComplete None (Some "Done") None None) ] in
  synced "threads.json" s /\
  option_map (map jobId)
    (match fst (list_ (mcp_boot (Some "threads.json") (server_run E es s))) with
     | Ok l => Some l
     | Thrown _ => None
     end)
  = Some ["j1"; "j2"].
Proof.
  cbv zeta.
  assert (Hs : synced "threads.json"
                 (mcp_boot (Some "threads.json") (initSys (Some "threads.json"))))
    by (apply (synced_start "threads.json"); reflexivity).
  split; [exact Hs|].
  rewrite (proj2 (proj2 (server_state_file_current (sampleEnv alwaysUp)
                           "threads.json" _ _ Hs))).
  vm_compute. reflexivity.
Defined.

(** ** One timer for a job *)

Lemma NoDup_map_filter {A B : Type} (f : A -> B) (g : A -> bool) (l : list A) :
  NoDup (map f l) -> NoDup (map f (filter g l)).
Proof.
  induction l as [|a l IH]; simpl; [auto|].
  intros H. inversion H as [|? ? Hnin Hl]; subst.
  destruct (g a); simpl; [|now apply IH].
  constructor; [|now apply IH].
  intros Hin. apply Hnin. apply in_map_iff in Hin.
  destruct Hin as (b & Hb & Hin). apply filter_In in Hin.
  apply in_map_iff. exists b. tauto.
Qed.

Lemma cancel_one_timer (job : string) (w : Watchdog) :
  one_timer_per_job w -> one_timer_per_job (wd_cancel job w).
Proof.
  unfold one_timer_per_job, wd_cancel.
  destruct (JsMap.get job (waitingNotifications w)); [|auto].
  simpl. apply NoDup_map_filter.
Qed.

Lemma arm_one_timer (job ch ts : string) (ms : option N) (w : Watchdog) :
  one_timer_per_job w -> no_timer_for job w ->
  one_timer_per_job (wd_arm job ch ts ms w).
Proof.
  unfold one_timer_per_job, no_timer_for, wd_arm. simpl.
  intros Hnd Hno. rewrite map_app. simpl.
  apply NoDup_app; [exact Hnd|constructor; [intros []|constructor]|].
  intros j Hj [<-|[]]. apply in_map_iff in Hj.
  destruct Hj as (t & Ht & Hin). rewrite Forall_forall in Hno.
  exact (Hno t Hin Ht).
Qed.

Lemma fire_timers (E : Env) (id : nat) (s : Sys) :
  timers (watchdog (snd (fire E id s))) = clearTimeout id (timers (watchdog s)).
Proof.
  unfold fire, watchdog_callback, postThreadReply, request_reply.
  unfold_m. cbv beta.
  destruct (find _ (timers (watchdog s))) as [t|] eqn:Hf.
  - simpl. destruct (JsMap.get _ _) as [n|]; [|reflexivity].
    destruct (notified n); reflexivity.
  - simpl. unfold clearTimeout. symmetry.
    rewrite <- (filter_ext_in (fun _ => true)).
    + clear. induction (timers (watchdog s)) as [|a l IH]; simpl; congruence.
    + intros t Hin. destruct (Nat.eqb_spec (timer_id t) id) as [He|]; [|reflexivity].
      exfalso. apply (find_none _ _ Hf) in Hin.
      apply Nat.eqb_neq in Hin. contradiction.
Qed.

Lemma fire_one_timer (E : Env) (id : nat) (s : Sys) :
  one_timer_per_job (watchdog s) ->
  one_timer_per_job (watchdog (snd (fire E id s))).
Proof.
  unfold one_timer_per_job. rewrite fire_timers. apply NoDup_map_filter.
Qed.

Lemma start_watchdog (E : Env) job ttl ch meta mention (s : Sys) :
  watchdog (snd (slack_thread_start E job ttl ch meta mention s)) = watchdog s.
Proof.
  unfold slack_thread_start, get, postParentMessage, request_post, create,
    now, saveToDisk. unfold_m.
  destruct (JsMap.get job (threads (store s))); [reflexivity|].
  destruct (negb _); reflexivity.
Qed.

Lemma mcp_one_timer (E : Env) (job : string) (c : McpCall) (s : Sys) :
  watchdog_wf (watchdog s) -> one_timer_per_job (watchdog s) ->
  one_timer_per_job (watchdog (snd (mcp E job c s))).
Proof.
  intros Hwf H1. rewrite mcp_watchdog_run. unfold mcp_watchdog.
  destruct (js_or _ _) as [t|]; [|exact H1].
  destruct (truthy t); [|exact H1].
  destruct c as [msg ts level mention monitor ms| | |];
    try exact H1; try (now apply cancel_one_timer).
  destruct (terminal_opt _); [exact H1|].
  destruct (not_false monitor); [|now apply cancel_one_timer].
  destruct (cancel_clears job _ Hwf) as (_ & Hwf1 & _).
  destruct (cancel_clears job _ Hwf1) as (Hno & _).
  apply arm_one_timer; [|exact Hno].
  now repeat apply cancel_one_timer.
Qed.

Lemma server_step_watchdog (E : Env) (e : ServerEvent) (s : Sys) :
  watchdog_wf (watchdog s) /\ one_timer_per_job (watchdog s) ->
  watchdog_wf (watchdog (server_step E e s)) /\
  one_timer_per_job (watchdog (server_step E e s)).
Proof.
  intros [Hwf H1]. destruct e as [job ttl ch meta mention|job c|id]; simpl.
  - now rewrite start_watchdog.
  - split; [now apply mcp_watchdog_wf|now apply mcp_one_timer].
  - split; [now apply fire_wf|now apply fire_one_timer].
Qed.

Lemma fired_job_has_no_timer (E : Env) (id : nat) (s : Sys) (j : string) :
  one_timer_per_job (watchdog s) ->
  notified_job id (watchdog s) = Some j ->
  no_timer_for j (watchdog (snd (fire E id s))).
Proof.
  unfold one_timer_per_job, notified_job, no_timer_for.
  intros Hnd Hj. rewrite fire_timers.
  destruct (find _ (timers (watchdog s))) as [t|] eqn:Hf; [|discriminate].
  assert (Htj : timer_jobId t = j).
  { destruct (JsMap.get _ _) as [n|]; [|discriminate].
    destruct (notified n); [discriminate|]. now injection Hj. }
  apply find_some in Hf. destruct Hf as [Hin Hid].
  apply Nat.eqb_eq in Hid.
  apply Forall_forall. intros t' Hin' Hj'.
  apply In_clearTimeout in Hin'. destruct Hin' as [Hin' Hne].
  assert (t' = t); [|subst; contradiction].
  clear -Hnd Hin Hin' Htj Hj'.
  induction (timers (watchdog s)) as [|a l IH]; [contradiction|].
  simpl in Hnd. inversion Hnd as [|? ? Hnin Hl]; subst.
  destruct Hin as [->|Hin], Hin' as [->|Hin']; auto.
  - exfalso. apply Hnin. apply in_map_iff. exists t'. split; [congruence|auto].
  - exfalso. apply Hnin. apply in_map_iff. exists t. split; [congruence|auto].
Qed.

Lemma stalled_once (E : Env) (ids : list nat) :
  forall s, one_timer_per_job (watchdog s) -> NoDup (stalled_jobs E ids s).
Proof.
  induction ids as [|id ids IH]; intros s H1; [constructor|].
  simpl. pose proof (fire_one_timer E id s H1) as H1'.
  destruct (notified_job id (watchdog s)) as [j|] eqn:Hj; [|now apply IH].
  constructor; [|now apply IH].
  pose proof (no_timer_no_notice E j ids _
                (fired_job_has_no_timer E id s j H1 Hj)) as Hno.
  rewrite Forall_forall in Hno. intros Hin. exact (Hno j Hin eq_refl).
Qed.

(** X7.  From the start of the server on, no job has two pending timers; and
    however the pending timers come due, each job gets at most one "stalled"
    notice until a tool is called again. *)
Theorem server_one_timer_per_job (E : Env) (path : option string) (s0 : Sys)
  (es : list ServerEvent) (ids : list nat) :
  let s := server_run E es (mcp_boot path s0) in
  one_timer_per_job (watchdog s) /\
  NoDup (stalled_jobs E ids s).
Proof.
  cbv zeta.
  assert (H : watchdog_wf (watchdog (server_run E es (mcp_boot path s0))) /\
              one_timer_per_job (watchdog (server_run E es (mcp_boot path s0)))).
  { assert (H0 : watchdog_wf (watchdog (mcp_boot path s0)) /\
                 one_timer_per_job (watchdog (mcp_boot path s0))).
    { split; [apply noWatchdog_wf|constructor]. }
    revert H0. generalize (mcp_boot path s0).
    induction es as [|e es IH]; intros s H0; [exact H0|].
    simpl. apply IH. now apply server_step_watchdog. }
  destruct H as [_ H1]. split; [exact H1|]. now apply stalled_once.
Qed.

(** ** What an update arms *)

Lemma timers_of_none (job : string) (w : Watchdog) :
  no_timer_for job w -> timers_of job w = [].
Proof.
  unfold no_timer_for, timers_of. induction 1 as [|t l Ht Hl IH]; [reflexivity|].
  simpl. apply String.eqb_neq in Ht. now rewrite Ht.
Qed.

Lemma timers_of_armed (job ch ts : string) (ms : option N) (w : Watchdog) :
  no_timer_for job w ->
  timers_of job (wd_arm job ch ts ms w)
  = [mkTimer (nextTimer w) job ch ts (watchdog_delay ms)].
Proof.
  intros Hno. unfold timers_of, wd_arm. cbn [timers].
  rewrite filter_app. fold (timers_of job w). rewrite (timers_of_none _ _ Hno).
  simpl. now rewrite String.eqb_refl.
Qed.

Lemma find_new_timer (w : Watchdog) (t : Timer) :
  watchdog_wf w -> timer_id t = nextTimer w ->
  find (fun t0 => (timer_id t0 =? nextTimer w)%nat) (timers w ++ [t]) = Some t.
Proof.
  intros Hwf Hid.
  assert (Hold : forall t0, In t0 (timers w) -> timer_id t0 < nextTimer w)
    by (intros t0 Hin; apply (Hwf t0 Hin)).
  induction (timers w) as [|a l IH]; simpl.
  - now rewrite Hid, Nat.eqb_refl.
  - destruct (Nat.eqb_spec (timer_id a) (nextTimer w)) as [He|_].
    + pose proof (Hold a (or_introl eq_refl)). lia.
    + apply IH. intros t0 Hin. apply Hold. now right.
Qed.

Lemma fire_armed (E : Env) (s : Sys) (job ch ts : string) (ms : option N)
  (w : Watchdog) :
  watchdog s = wd_arm job ch ts ms w ->
  watchdog_wf w ->
  issued s (snd (fire E (nextTimer w) s))
  = [PostThreadReply ch ts stalledMessage warn false].
Proof.
  intros Hw Hwf.
  unfold fire, watchdog_callback, postThreadReply, request_reply.
  unfold_m. cbv beta. rewrite Hw. cbn [timers wd_arm].
  rewrite (find_new_timer w (mkTimer (nextTimer w) job ch ts (watchdog_delay ms))
             Hwf eq_refl).
  cbn [expire with_watchdog watchdog wd_expire waitingNotifications
       timer_jobId wd_arm snd fst].
  rewrite Hw. cbn [waitingNotifications wd_arm]. rewrite get_set_same.
  cbn [notified timer_channel timer_threadTs snd].
  apply issued_app. reflexivity.
Qed.

(** X8.  An update that reaches its post leaves exactly one pending timer for the
    job, or none when the caller switches the monitor off.  The timer is for
    the thread the reply went to and waits the delay asked for, 30000 ms when
    none or zero is given; it is armed whether or not the platform accepted
    the reply; and when it comes due before another tool call, it posts one
    notice into that thread, at level warn and without a mention. *)
Theorem update_arms_one_timer (E : Env) (job msg : string)
  (ts : option string) (level : option Level) (mention monitor : option bool)
  (ms : option N) (s : Sys) (c0 : Call) :
  watchdog_wf (watchdog s) ->
  issued s (snd (slack_thread_update E job msg ts level mention monitor ms s))
    = [c0] ->
  let s' := snd (slack_thread_update E job msg ts level mention monitor ms s) in
  if not_false monitor then
    exists t,
      timers_of job (watchdog s') = [t] /\
      timer_channel t = call_channel c0 /\
      Some (timer_threadTs t) = call_thread c0 /\
      timer_delay t = watchdog_delay ms /\
      issued s' (snd (fire E (timer_id t) s'))
      = [PostThreadReply (timer_channel t) (timer_threadTs t) stalledMessage
           warn false]
  else timers_of job (watchdog s') = [].
Proof.
  intros Hwf Hl. cbv zeta.
  change (slack_thread_update E job msg ts level mention monitor ms)
    with (mcp E job (McpUpdate msg ts level mention monitor ms)) in *.
  pose proof (mcp_watchdog_run E job
                (McpUpdate msg ts level mention monitor ms) s) as Hw.
  unfold mcp_watchdog in Hw.
  pose proof (mcp_run E job (McpUpdate msg ts level mention monitor ms) s) as H.
  cbv zeta in H.
  destruct (js_or _ _) as [t0|];
    [|destruct H as (_ & Hs); rewrite Hs, issued_same in Hl by reflexivity;
      discriminate].
  destruct (truthy t0);
    [|destruct H as (_ & Hs); rewrite Hs, issued_same in Hl by reflexivity;
      discriminate].
  destruct (terminal_opt _).
  { destruct H as (_ & Hcalls & _). rewrite issued_same in Hl by assumption.
    discriminate. }
  destruct H as (_ & Hcalls & _).
  rewrite (issued_app _ _ _ Hcalls) in Hl. injection Hl as <-.
  destruct (cancel_clears job _ Hwf) as (Hno1 & Hwf1 & _).
  destruct (not_false monitor).
  - destruct (cancel_clears job _ Hwf1) as (Hno2 & Hwf2 & _).
    eexists. split; [rewrite Hw; now apply timers_of_armed|].
    cbn [timer_channel timer_threadTs timer_delay timer_id mcp_request
         call_channel call_thread].
    repeat split; try reflexivity.
    now apply (fire_armed E _ job _ _ ms _ Hw).
  - rewrite Hw. now apply timers_of_none.
Qed.

Lemma update_arms_one_timer_witness :
  let E := sampleEnv onlyTopPosts in
  let s := snd (slack_thread_start E "j1" "Deploy" None None None
                  (mcp_boot None (initSys None))) in
  let s' := snd (slack_thread_update E "j1" "Building" None None None None
                   (Some 0%N) s) in
  exists t,
    timers_of "j1" (watchdog s') = [t] /\
    timer_delay t = 30000%N /\
    issued s' (snd (fire E (timer_id t) s'))
    = [PostThreadReply "C0123456789" "1700000000.0" stalledMessage warn false].
Proof.
  cbv zeta.
  destruct (update_arms_one_timer (sampleEnv onlyTopPosts) "j1" "Building"
              None None None None (Some 0%N)
              (snd (slack_thread_start (sampleEnv onlyTopPosts) "j1" "Deploy"
                      None None None (mcp_boot None (initSys None))))
              (PostThreadReply "C0123456789" "1700000000.0" "Building" info
                 false)
              noWatchdog_wf ltac:(vm_compute; reflexivity))
    as (t & Ht & Hch & Hts & Hd & Hfire).
  exists t. split; [exact Ht|]. split; [exact Hd|].
  simpl in Hch, Hts. injection Hts as Hts. rewrite Hch, Hts in Hfire.
  exact Hfire.
Defined.

(** * The ledger *)

Lemma delete_fresh {V} (m : JsMap.t V) (k : string) (v : V) :
  ~ In k (JsMap.keys m) -> JsMap.delete k (m ++ [(k, v)]) = m.
Proof.
  induction m as [|[k0 v0] m IH]; simpl; intros Hnin.
  - now rewrite String.eqb_refl.
  - destruct (String.eqb_spec k0 k) as [->|Hk]; [tauto|].
    rewrite IH; [reflexivity|tauto].
Qed.

(** X1.  A job that is not on file: [create] files it at the end of the list,
    [get] and [has] find it, and [delete] takes it off again, leaving the
    ledger as if the job had never been filed, and the state file, when a
    path that is not empty is configured, holding that ledger; without such
    a path the file is not written.  [delete], [updateStatus] and
    [isTerminal] of a job that is not on file answer false and change
    nothing: no write, no reading of the clock. *)
Theorem ledger_create_then_delete (E : Env) (s : Sys) (job ch ts ttl : string)
  (link : option string) :
  JsMap.get job (threads (store s)) = None ->
  let t := toISOString E (ticks s) in
  let state := mkThreadState job ch ts ttl started t t link None in
  let s1 := snd (create E job ch ts ttl link s) in
  let s2 := snd (delete job s1) in
  fst (create E job ch ts ttl link s) = Ok state /\
  fst (get job s1) = Ok (Some state) /\
  fst (has job s1) = Ok true /\
  fst (list_ s1) = Ok (JsMap.values (threads (store s)) ++ [state]) /\
  fst (delete job s1) = Ok true /\
  fst (has job s2) = Ok false /\
  store s2 = store s /\
  disk s2 = (if truthy_opt (persistPath (store s))
             then JsonArray (map Some (JsMap.values (threads (store s))))
             else disk s) /\
  delete job s = (Ok false, s) /\
  (forall st, updateStatus E job st s = (Ok false, s)) /\
  isTerminal job s = (Ok false, s).
Proof.
  intros Hg. cbv zeta.
  assert (Hfresh : ~ In job (JsMap.keys (threads (store s))))
    by now apply get_None_notin.
  unfold create, delete, updateStatus, isTerminal, has, list_, get, now,
    saveToDisk. unfold_m. cbv beta. rewrite Hg. sys.
  rewrite get_set_same. sys.
  rewrite !set_fresh by exact Hfresh.
  rewrite !delete_fresh by exact Hfresh. rewrite Hg.
  unfold JsMap.values at 1. rewrite map_app. cbn [map snd].
  repeat split; try reflexivity.
  - destruct (store s); reflexivity.
  - now destruct (truthy_opt (persistPath (store s))).
Qed.

Lemma ledger_create_then_delete_witness :
  let E := sampleEnv alwaysUp in
  let s := fill E 2 (initSys (Some "threads.json")) in
  let s1 := snd (create E "j1" "C0123456789" "1700000000.5" "Deploy" None s) in
  JsMap.get "j1" (threads (store s)) = None /\
  fst (has "j1" s1) = Ok true /\
  store (snd (delete "j1" s1)) = store s /\
  disk (snd (delete "j1" s1))
  = JsonArray (map Some (JsMap.values (threads (store s)))).
Proof.
  cbv zeta. split; [reflexivity|].
  destruct (ledger_create_then_delete (sampleEnv alwaysUp)
              (fill (sampleEnv alwaysUp) 2 (initSys (Some "threads.json")))
              "j1" "C0123456789" "1700000000.5" "Deploy" None eq_refl)
    as (_ & _ & Hhas & _ & _ & _ & Hstore & Hdisk & _).
  split; [exact Hhas|]. split; [exact Hstore|]. exact Hdisk.
Defined.

(** * The command line of [index.ts] *)

Ltac unfold_index :=
  unfold IndexTs.main, IndexTs.update, IndexTs.waiting, IndexTs.complete,
    IndexTs.fail, IndexTs.target_thread, IndexTs.ended, IndexTs.target_channel,
    IndexTs.channel_of in *.

Lemma index_cli_run (E : Env) (cmd : Command) (job : string)
  (thread_ts : option string) (o : Options) (c : McpCall) (s : Sys) :
  as_mcp_call cmd thread_ts o = Some c ->
  truthy job = true ->
  truthy_opt (o_channel o) = false ->
  watchdog s = noWatchdog ->
  snd (IndexTs.main E cmd (Some job) thread_ts o s) = snd (mcp E job c s) /\
  same_outcome (fst (IndexTs.main E cmd (Some job) thread_ts o s))
    (fst (mcp E job c s)).
Proof.
  intros Hc Hjob Hch Hwd.
  destruct s as [st d t l w]. simpl in Hwd. subst w.
  assert (Hdef : or_default (o_channel o) (defaultChannel E) = defaultChannel E).
  { destruct (o_channel o) as [x|]; [|reflexivity]. simpl in Hch |- *.
    now rewrite Hch. }
  assert (Hreason :
    truthy (or_default (o_reason o) "Waiting for permission or user input")
    = true).
  { destruct (o_reason o) as [r|]; [|reflexivity]. simpl.
    now destruct (truthy r) eqn:Hr. }
  destruct cmd; simpl in Hc; try discriminate;
    try (destruct (truthy_opt (o_message o)) eqn:Hm; [|discriminate]);
    try (destruct (truthy_opt (o_error o)) eqn:Herr; [|discriminate]);
    injection Hc as <-;
    unfold_index; unfold_mcp; unfold_m; cbv beta;
    cbn [truthy_opt or_default]; rewrite Hjob, ?Hm, ?Herr, Hdef; cbn [negb];
    unfold targetChannel;
    cbn [store threads];
    destruct (JsMap.get job (threads st)) as [x|] eqn:Hg;
    cbn [option_map];
    match goal with
    | |- context [js_or ?a ?b] => destruct (js_or a b) as [ts|] eqn:Hts
    end.
  all: try solve [sys; split; reflexivity].
  all: destruct (truthy ts) eqn:Htt; [|solve [sys; split; reflexivity]].
  all: try destruct (JobStatus_eqb (status x) completed
                  || JobStatus_eqb (status x) failed) eqn:Hterm.
  all: try solve [sys; split; reflexivity].
  all: repeat progress (sys; rewrite ?Hg, ?Hterm, ?Hreason).
  all: repeat match goal with
       | |- context [if ?b then _ else _] => destruct b eqn:?
       end.
  all: repeat progress (sys; rewrite ?Hg, ?Hterm).
  all: try solve [split; reflexivity | exfalso; congruence].
Qed.

(** X25.  A reply command of [index.ts] does what the MCP tool of the same name
    does when it is called with the command's [--thread-ts] and texts, and,
    for update, with the watchdog switched off: in a process without pending
    timers and without [--channel], both end in the same state (the same
    requests issued, the same ledger, the same state file) and with the same
    outcome, up to the wording of a note. *)
Theorem index_cli_agrees_with_tools (E : Env) (cmd : Command) (job : string)
  (thread_ts : option string) (o : Options) (c : McpCall) (s : Sys) :
  as_mcp_call cmd thread_ts o = Some c ->
  truthy job = true ->
  truthy_opt (o_channel o) = false ->
  watchdog s = noWatchdog ->
  snd (IndexTs.main E cmd (Some job) thread_ts o s) = snd (mcp E job c s) /\
  same_outcome (fst (IndexTs.main E cmd (Some job) thread_ts o s))
    (fst (mcp E job c s)).
Proof. exact (index_cli_run E cmd job thread_ts o c s). Qed.

Lemma index_cli_agrees_with_tools_witness :
  let E := sampleEnv alwaysUp in
  let s := snd (slack_thread_start E "j1" "Deploy" None None None
                  (mcp_boot None (initSys None))) in
  let o := with_message "Building" noOptions in
  snd (IndexTs.main E cmd_update (Some "j1") None o s)
  = snd (slack_thread_update E "j1" "Building" None None None (Some false)
           None s).
Proof.
  cbv zeta.
  exact (proj1 (index_cli_agrees_with_tools (sampleEnv alwaysUp) cmd_update
                  "j1" None (with_message "Building" noOptions)
                  (McpUpdate "Building" None None None (Some false) None)
                  (snd (slack_thread_start (sampleEnv alwaysUp) "j1" "Deploy"
                          None None None (mcp_boot None (initSys None))))
                  eq_refl eq_refl eq_refl eq_refl)).
Defined.

(** X26.  For a job that has ended, no reply command of [index.ts] posts or writes
    anything, whatever its options and whatever thread it is pointed at: the
    process state is left as it is, and the command reports that the job has
    ended, or stops on a missing option or a missing thread. *)
Theorem index_cli_leaves_ended_jobs (E : Env) (cmd : Command) (job : string)
  (thread_ts : option string) (o : Options) (s : Sys) (x : ThreadState) :
  reply_command cmd = true ->
  JsMap.get job (threads (store s)) = Some x ->
  terminal x = true ->
  snd (IndexTs.main E cmd (Some job) thread_ts o s) = s /\
  (fst (IndexTs.main E cmd (Some job) thread_ts o s)
     = Ok (OutRejected "Job already terminated") \/
   fst (IndexTs.main E cmd (Some job) thread_ts o s)
     = Ok (OutNoop "Job already terminated") \/
   fst (IndexTs.main E cmd (Some job) thread_ts o s) = Thrown ThreadNotFound \/
   exists name,
     fst (IndexTs.main E cmd (Some job) thread_ts o s)
     = Thrown (MissingOption name)).
Proof.
  intros Hcmd Hg Hterm. unfold terminal in Hterm.
  assert (Hdone : forall (r : Result Output),
            (r = Ok (OutRejected "Job already terminated") \/
             r = Ok (OutNoop "Job already terminated") \/
             r = Thrown ThreadNotFound \/
             exists name, r = Thrown (MissingOption name)) ->
            snd (r, s) = s /\
            (fst (r, s) = Ok (OutRejected "Job already terminated") \/
             fst (r, s) = Ok (OutNoop "Job already terminated") \/
             fst (r, s) = Thrown ThreadNotFound \/
             exists name, fst (r, s) = Thrown (MissingOption name)))
    by (intros r Hr; split; [reflexivity|exact Hr]).
  destruct cmd; try discriminate; unfold_index;
    unfold isTerminal, get; unfold_m; cbv beta;
    cbn [truthy_opt or_default];
    destruct (truthy job); cbn [negb].
  all: try (destruct (truthy_opt (o_message o)); cbn [negb]).
  all: try (destruct (truthy_opt (o_error o)); cbn [negb]).
  all: rewrite ?Hg; cbn [option_map];
    try (destruct (js_or thread_ts (Some (threadTs x))) as [ts|];
         [destruct (truthy ts)|]);
    rewrite ?Hg, ?Hterm.
  all: apply Hdone; eauto 6.
Qed.

Lemma index_cli_leaves_ended_jobs_witness :
  let E := sampleEnv alwaysUp in
  let s0 := snd (slack_thread_start E "j1" "Deploy" None None None
                   (mcp_boot None (initSys None))) in
  let s := snd (slack_thread_complete E "j1" None (Some "Done") None None s0) in
  snd (IndexTs.main E cmd_update (Some "j1") (Some "1699999999.5")
         (with_message "Still here" noOptions) s) = s.
Proof.
  cbv zeta.
  set (s := snd (slack_thread_complete (sampleEnv alwaysUp) "j1" None
                   (Some "Done") None None _)).
  destruct (JsMap.get "j1" (threads (store s))) as [x|] eqn:Hg;
    [|vm_compute in Hg; discriminate].
  assert (Hterm : terminal x = true)
    by (vm_compute in Hg; injection Hg as <-; reflexivity).
  exact (proj1 (index_cli_leaves_ended_jobs (sampleEnv alwaysUp) cmd_update
                  "j1" (Some "1699999999.5")
                  (with_message "Still here" noOptions) s x
                  eq_refl Hg Hterm)).
Defined.

(** * The message of the update command *)

Lemma tool_message_truthy (toolName : string) (input : option ToolInput) :
  truthy (tool_message toolName input) = true.
Proof.
  unfold tool_message.
  destruct (truthy (tool_details toolName input)); reflexivity.
Qed.

Lemma update_message_none (E : Env) (job : string) (o : Options)
  (stdin : option StdinData) (s : Sys) :
  has_message_source o stdin = false ->
  update_message E job o stdin s = (Ok (o_message o, is_opt (o_upsert o) "true"
                                          || is_opt (o_hook_event o) "PostToolUse"),
                                    s) /\
  truthy_opt (o_message o) = false.
Proof.
  unfold has_message_source. intros H.
  apply orb_false_iff in H. destruct H as [H Hstop].
  apply orb_false_iff in H. destruct H as [H Htool].
  apply orb_false_iff in H. destruct H as [Hm Hprompt].
  split; [|exact Hm].
  unfold update_message. unfold_m. cbv beta.
  rewrite Hm. cbn [negb andb]. rewrite Hprompt. cbv beta iota.
  rewrite Hm, Htool. cbn [negb andb]. rewrite Hm. cbn [negb andb].
  rewrite Hstop. reflexivity.
Qed.

Lemma update_message_some (E : Env) (job : string) (o : Options)
  (stdin : option StdinData) (s : Sys) :
  has_message_source o stdin = true ->
  exists m u, fst (update_message E job o stdin s) = Ok (Some m, u) /\
              truthy m = true.
Proof.
  unfold has_message_source. intros H.
  unfold update_message, clearProgressMessageTs, setProgress,
    getProgressMessageTs, get, saveToDisk. unfold_m. cbv beta.
  destruct (truthy_opt (o_message o)) eqn:Hm; cbn [negb andb orb] in *.
  - destruct (o_message o) as [m|]; [|discriminate]. simpl in Hm.
    cbn [truthy_opt]. rewrite Hm. cbn [negb andb]. simpl.
    rewrite Hm. cbn. eauto.
  - destruct (is_opt (o_hook_event o) "UserPromptSubmit"
              && truthy_opt (o_prompt o)) eqn:Hp; cbn [orb] in H.
    + destruct (JsMap.get job (threads (store s))); simpl; eauto.
    + cbv beta iota. rewrite Hm. cbn [negb andb].
      destruct (truthy_opt match stdin with
                           | Some d => tool_name d
                           | None => None
                           end) eqn:Ht; cbn [orb] in H.
      * cbn [truthy_opt]. rewrite tool_message_truthy. cbn [negb andb].
        simpl. eexists _, _. split; [reflexivity|apply tool_message_truthy].
      * rewrite Hm. cbn [negb andb]. rewrite H.
        destruct (JsMap.get job (threads (store s))); simpl;
          eexists _, _; (split; [reflexivity|]);
          now destruct (truthy_opt (lastAssistantResponse E _)).
Qed.

Lemma update_post_outcome (E : Env) (job : string) (o : Options) (m : string)
  (u : bool) (s : Sys) :
  (exists out, fst (update_post E job o m u s) = Ok out) \/
  fst (update_post E job o m u s) = Thrown LazyCreateFailed.
Proof.
  change (update_post E job o m u) with (cli_reply E job o (CliUpdatePost m u)).
  destruct (truthy_opt (option_map threadTs
              (JsMap.get job (threads (store s))))) eqn:Htt.
  - destruct (JsMap.get job (threads (store s))) as [x|] eqn:Hg;
      [|discriminate]. simpl in Htt.
    pose proof (cli_reply_stored E job o (CliUpdatePost m u) s x Hg Htt
                  eq_refl) as H.
    cbv zeta in H. destruct (terminal x).
    + destruct H as [-> _]. eauto.
    + destruct H as (-> & _). eauto.
  - pose proof (cli_reply_lazy E job o (CliUpdatePost m u) s Htt eq_refl) as H.
    cbv zeta in H. destruct (post_ok _).
    + destruct (terminal _).
      * destruct H as (-> & _). eauto.
      * destruct H as (-> & _). eauto.
    + destruct H as [-> _]. now right.
Qed.

(** X24.  The update command of [cli.ts] stops on a missing message exactly when
    it is given no [--message], no prompt of a UserPromptSubmit hook, no tool
    of a hook and no transcript of a Stop hook; it stops before it reads the
    ledger or posts anything.  The fail command does the same without
    [--error]. *)
Theorem update_stops_without_message (E : Env) (job : string) (o : Options)
  (stdin : option StdinData) (s : Sys) :
  (has_message_source o stdin = false ->
   cli_update E job o stdin s = (Thrown (MissingOption "message"), s)) /\
  (has_message_source o stdin = true ->
   forall name,
     fst (cli_update E job o stdin s) <> Thrown (MissingOption name)) /\
  (truthy_opt (o_error o) = false ->
   cli_fail E job o s = (Thrown (MissingOption "error"), s)).
Proof.
  repeat apply conj.
  - intros H. destruct (update_message_none E job o stdin s H) as [Hrun Hm].
    unfold cli_update, bind. rewrite Hrun, Hm. reflexivity.
  - intros H name.
    destruct (update_message_some E job o stdin s H) as (m & u & Hrun & Hm).
    unfold cli_update, bind.
    destruct (update_message E job o stdin s) as [r s0]. simpl in Hrun.
    subst r. cbn [truthy_opt or_default]. rewrite Hm. cbn [negb].
    destruct (update_post_outcome E job o m u s0) as [(out & ->)| ->];
      discriminate.
  - intros H. unfold cli_fail, throw. now rewrite H.
Qed.

Lemma update_stops_without_message_witness :
  let E := sampleEnv alwaysUp in
  let s := snd (cli_command E cmd_start "j1" (with_title "Deploy" noOptions)
                  None (initSys None)) in
  cli_update E "j1" (with_hook_event "PostToolUse" noOptions) None s
  = (Thrown (MissingOption "message"), s) /\
  fst (cli_update E "j1" (with_hook_event "PostToolUse" noOptions)
         (Some (mkStdinData (Some "Bash") None)) s)
  <> Thrown (MissingOption "message").
Proof.
  cbv zeta. split.
  - apply (update_stops_without_message (sampleEnv alwaysUp)). reflexivity.
  - apply (update_stops_without_message (sampleEnv alwaysUp)). reflexivity.
Defined.

(** * The debounce table *)

Lemma In_clearDebounce (id : nat) (ts : list DebounceTimer) (t : DebounceTimer) :
  In t (clearDebounce id ts) <-> In t ts /\ dt_id t <> id.
Proof.
  unfold clearDebounce. rewrite filter_In.
  destruct (Nat.eqb_spec (dt_id t) id); simpl; intuition congruence.
Qed.

Lemma delivered_for_app (job : string) (d : Debouncer)
  (x : string * string * Level) (p : JsMap.t DebounceEntry)
  (ts : list DebounceTimer) (n : nat) :
  delivered_for job (mkDebouncer p ts n (delivered d ++ [x]))
  = delivered_for job d
    ++ (if fst (fst x) =? job then [(snd (fst x), snd x)] else []).
Proof.
  unfold delivered_for. cbn [delivered]. rewrite filter_app, map_app.
  cbn [filter]. now destruct (fst (fst x) =? job).
Qed.

(** Firing when no pending timer is for [job]. *)
Lemma fire_other_job (job : string) (id : nat) (d : Debouncer) :
  (forall t, In t (debounceTimers d) -> dt_jobId t <> job) ->
  delivered_for job (fireDebounce id d) = delivered_for job d /\
  (forall t, In t (debounceTimers (fireDebounce id d)) -> dt_jobId t <> job).
Proof.
  intros Hno. unfold fireDebounce.
  destruct (find _ (debounceTimers d)) as [t|] eqn:Hf; [|now split].
  apply find_some in Hf. destruct Hf as [Hin _]. split.
  - rewrite delivered_for_app. cbn [fst snd].
    pose proof (Hno t Hin) as Hne. apply String.eqb_neq in Hne.
    now rewrite Hne, app_nil_r.
  - cbn [debounceTimers]. intros t' Hin'. apply In_clearDebounce in Hin'.
    now apply Hno.
Qed.

Lemma fireAll_other_job (job : string) (ids : list nat) :
  forall d,
    (forall t, In t (debounceTimers d) -> dt_jobId t <> job) ->
    delivered_for job (fireAll ids d) = delivered_for job d.
Proof.
  induction ids as [|id ids IH]; intros d Hno; [reflexivity|].
  simpl. destruct (fire_other_job job id d Hno) as [Hd Hno'].
  now rewrite (IH _ Hno').
Qed.

(** Firing when [new] is pending, the only timer of its job and of its
    handle. *)
Lemma fireAll_sole_timer (new : DebounceTimer) (ids : list nat) :
  forall d,
    In new (debounceTimers d) ->
    (forall t, In t (debounceTimers d) ->
               dt_jobId t = dt_jobId new \/ dt_id t = dt_id new -> t = new) ->
    delivered_for (dt_jobId new) (fireAll ids d)
    = delivered_for (dt_jobId new) d
      ++ (if existsb (Nat.eqb (dt_id new)) ids
          then [(dt_message new, dt_level new)] else []).
Proof.
  induction ids as [|id ids IH]; intros d Hin Hsole.
  - simpl. now rewrite app_nil_r.
  - cbn [fireAll fold_left existsb].
    change (fold_left (fun d0 id0 => fireDebounce id0 d0) ids (fireDebounce id d))
      with (fireAll ids (fireDebounce id d)).
    unfold fireDebounce at 1.
    destruct (find _ (debounceTimers d)) as [t|] eqn:Hf.
    + apply find_some in Hf. destruct Hf as [Hint Hid].
      apply Nat.eqb_eq in Hid.
      destruct (Nat.eqb_spec (dt_id new) id) as [He|Hne].
      * assert (t = new) by (apply Hsole; [exact Hint|right; congruence]).
        subst t. cbn [orb].
        rewrite fireAll_other_job.
        -- rewrite delivered_for_app. cbn [fst snd].
           now rewrite String.eqb_refl.
        -- cbn [debounceTimers]. intros t' Hin' Hj.
           apply In_clearDebounce in Hin'. destruct Hin' as [Hin' Hne'].
           assert (t' = new) by (apply Hsole; [exact Hin'|now left]).
           subst t'. congruence.
      * assert (Hnt : dt_jobId t <> dt_jobId new).
        { intros Hj. assert (t = new) by (apply Hsole; [exact Hint|now left]).
          subst t. congruence. }
        cbn [orb]. rewrite IH.
        -- rewrite delivered_for_app. cbn [fst snd].
           apply String.eqb_neq in Hnt. now rewrite Hnt, app_nil_r.
        -- cbn [debounceTimers]. apply In_clearDebounce. split; [exact Hin|].
           congruence.
        -- cbn [debounceTimers]. intros t' Hin'.
           apply In_clearDebounce in Hin'. now apply Hsole.
    + destruct (Nat.eqb_spec (dt_id new) id) as [He|Hne].
      * exfalso. apply (find_none _ _ Hf) in Hin.
        apply Nat.eqb_neq in Hin. congruence.
      * cbn [orb]. now apply IH.
Qed.

Lemma scheduled_timers (job message : string) (level : Level)
  (d : Debouncer) (t : DebounceTimer) :
  debouncer_wf d ->
  In t (debounceTimers (scheduleUpdate job message level d)) ->
  t = mkDebounceTimer (nextDebounceTimer d) job message level \/
  (In t (debounceTimers d) /\ dt_jobId t <> job /\
   dt_id t < nextDebounceTimer d).
Proof.
  intros [Hwf _] Hin. unfold scheduleUpdate in Hin. cbn [debounceTimers] in Hin.
  apply in_app_or in Hin. destruct Hin as [Hin|[<-|[]]]; [|now left].
  right.
  assert (Hold : In t (debounceTimers d) /\
                 (forall e, JsMap.get job (pendingUpdates d) = Some e ->
                            dt_id t <> de_timeout e)).
  { destruct (JsMap.get job (pendingUpdates d)) as [e|].
    - apply In_clearDebounce in Hin. destruct Hin as [Hin Hne].
      split; [exact Hin|]. now intros e' [= <-].
    - split; [exact Hin|discriminate]. }
  destruct Hold as [Hin' Hne]. destruct (Hwf t Hin') as ((e & He & Hid) & Hlt).
  repeat split; try assumption.
  intros Hj. rewrite Hj in He. apply (Hne e He). congruence.
Qed.

(** X3.  [scheduleUpdate] replaces what was pending for the job: whatever was
    scheduled for it before is never delivered, and the new message is
    delivered once, when its timer comes due, and not otherwise. *)
Theorem debounce_delivers_last (d : Debouncer) (job message : string)
  (level : Level) (ids : list nat) :
  debouncer_wf d ->
  delivered_for job (fireAll ids (scheduleUpdate job message level d))
  = delivered_for job d
    ++ (if existsb (Nat.eqb (nextDebounceTimer d)) ids
        then [(message, level)] else []).
Proof.
  intros Hwf.
  pose proof (fireAll_sole_timer
                (mkDebounceTimer (nextDebounceTimer d) job message level) ids
                (scheduleUpdate job message level d)) as H.
  cbn [dt_jobId dt_id dt_message dt_level] in H. apply H.
  - unfold scheduleUpdate. cbn [debounceTimers]. apply in_or_app. right.
    now left.
  - intros t Hin Hor.
    destruct (scheduled_timers job message level d t Hwf Hin)
      as [->|(_ & Hj & Hlt)]; [reflexivity|].
    destruct Hor as [Hj'|Hid]; [contradiction|lia].
Qed.

Lemma same_job_same_timer (ts : list DebounceTimer) (t t' : DebounceTimer) :
  NoDup (map dt_jobId ts) -> In t ts -> In t' ts ->
  dt_jobId t = dt_jobId t' -> t = t'.
Proof.
  induction ts as [|a l IH]; [contradiction|].
  simpl. intros Hnd Hin Hin' Hj. inversion Hnd as [|? ? Hnin Hl]; subst.
  destruct Hin as [->|Hin], Hin' as [->|Hin']; auto.
  - exfalso. apply Hnin. apply in_map_iff. exists t'. split; [congruence|auto].
  - exfalso. apply Hnin. apply in_map_iff. exists t. split; [congruence|auto].
Qed.

Lemma wf_scheduleUpdate (job message : string) (level : Level)
  (d : Debouncer) :
  debouncer_wf d -> debouncer_wf (scheduleUpdate job message level d).
Proof.
  intros Hwf. split.
  - intros t Hin.
    destruct (scheduled_timers job message level d t Hwf Hin)
      as [->|(Hin' & Hj & Hlt)]; unfold scheduleUpdate;
      cbn [pendingUpdates nextDebounceTimer dt_jobId dt_id].
    + split; [|lia]. eexists. rewrite get_set_same. split; reflexivity.
    + split; [|lia]. rewrite get_set_other by congruence.
      apply (proj1 Hwf t Hin').
  - unfold scheduleUpdate. cbn [debounceTimers]. rewrite map_app.
    apply NoDup_app.
    + destruct (JsMap.get job (pendingUpdates d));
        [apply NoDup_map_filter|]; apply Hwf.
    + constructor; [intros []|constructor].
    + intros j Hj [<-|[]]. apply in_map_iff in Hj.
      destruct Hj as (t & Ht & Hin).
      assert (Hin2 : In t (debounceTimers (scheduleUpdate job message level d))).
      { unfold scheduleUpdate. cbn [debounceTimers]. apply in_or_app. now left. }
      destruct (scheduled_timers job message level d t Hwf Hin2)
        as [->|(_ & Hne & _)]; [|contradiction].
      clear Hin2.
      assert (Hlt : nextDebounceTimer d < nextDebounceTimer d); [|lia].
      assert (Hold : In (mkDebounceTimer (nextDebounceTimer d) job message level)
                       (debounceTimers d)).
      { destruct (JsMap.get job (pendingUpdates d)); [|exact Hin].
        apply In_clearDebounce in Hin. apply Hin. }
      exact (proj2 (proj1 Hwf _ Hold)).
Qed.

Lemma wf_flushUpdate (job : string) (d : Debouncer) :
  debouncer_wf d -> debouncer_wf (snd (flushUpdate job d)).
Proof.
  intros Hwf. unfold flushUpdate.
  destruct (JsMap.get job (pendingUpdates d)) as [entry|] eqn:Hg; [|exact Hwf].
  cbn [snd]. split.
  - cbn [debounceTimers pendingUpdates nextDebounceTimer]. intros t Hin.
    apply In_clearDebounce in Hin. destruct Hin as [Hin Hne].
    destruct (proj1 Hwf t Hin) as ((e & He & Hid) & Hlt). split; [|exact Hlt].
    exists e. split; [|exact Hid].
    rewrite get_delete_other; [exact He|].
    intros Hj. rewrite Hj in He. congruence.
  - cbn [debounceTimers]. apply NoDup_map_filter, Hwf.
Qed.

Lemma wf_fireDebounce (id : nat) (d : Debouncer) :
  debouncer_wf d -> debouncer_wf (fireDebounce id d).
Proof.
  intros Hwf. unfold fireDebounce.
  destruct (find _ (debounceTimers d)) as [t|] eqn:Hf; [|exact Hwf].
  apply find_some in Hf. destruct Hf as [Hint Hid]. apply Nat.eqb_eq in Hid.
  split.
  - cbn [debounceTimers pendingUpdates nextDebounceTimer]. intros t' Hin.
    apply In_clearDebounce in Hin. destruct Hin as [Hin Hne].
    destruct (proj1 Hwf t' Hin) as ((e & He & Hid') & Hlt). split; [|exact Hlt].
    exists e. split; [|exact Hid'].
    rewrite get_delete_other; [exact He|].
    intros Hj.
    assert (t' = t)
      by (apply (same_job_same_timer (debounceTimers d)); auto; apply Hwf).
    subst t'. congruence.
  - cbn [debounceTimers]. apply NoDup_map_filter, Hwf.
Qed.

Lemma wf_debounce_run (cs : list DebounceCall) :
  forall d, debouncer_wf d -> debouncer_wf (debounce_run cs d).
Proof.
  induction cs as [|c cs IH]; intros d Hwf; [exact Hwf|].
  simpl. apply IH. destruct c; simpl.
  - now apply wf_scheduleUpdate.
  - now apply wf_flushUpdate.
  - now apply wf_fireDebounce.
Qed.

Lemma wf_noDebouncer : debouncer_wf noDebouncer.
Proof. split; [intros t []|constructor]. Qed.

(** X4.  Whatever has been scheduled, flushed and delivered since the ledger was
    made: [flushUpdate] hands back what is pending for the job, the message
    of the last [scheduleUpdate] for it that has been neither delivered nor
    flushed, and after it nothing is delivered for the job until something is
    scheduled again. *)
Theorem flush_cancels_delivery (cs : list DebounceCall) (job : string)
  (ids : list nat) :
  let d := debounce_run cs noDebouncer in
  fst (flushUpdate job d) = JsMap.get job (pendingUpdates d) /\
  delivered_for job (fireAll ids (snd (flushUpdate job d)))
  = delivered_for job d /\
  (forall message level,
     option_map (fun e => (de_message e, de_level e))
       (fst (flushUpdate job (scheduleUpdate job message level d)))
     = Some (message, level)).
Proof.
  cbv zeta.
  pose proof (wf_debounce_run cs _ wf_noDebouncer) as Hwf.
  set (d := debounce_run cs noDebouncer) in *.
  split; [|split].
  - unfold flushUpdate. now destruct (JsMap.get job (pendingUpdates d)).
  - rewrite fireAll_other_job.
    { unfold flushUpdate.
      now destruct (JsMap.get job (pendingUpdates d)). }
    unfold flushUpdate.
    destruct (JsMap.get job (pendingUpdates d)) as [entry|] eqn:Hg;
      cbn [snd debounceTimers]; intros t Hin Hj.
    + apply In_clearDebounce in Hin. destruct Hin as [Hin Hne].
      destruct (proj1 Hwf t Hin) as ((e & He & Hid) & _).
      rewrite Hj in He. congruence.
    + destruct (proj1 Hwf t Hin) as ((e & He & Hid) & _).
      rewrite Hj in He. congruence.
  - intros message level. unfold flushUpdate, scheduleUpdate.
    cbn [pendingUpdates]. rewrite get_set_same. reflexivity.
Qed.

Lemma debounce_delivers_last_witness :
  let d := scheduleUpdate "j1" "first" info noDebouncer in
  delivered_for "j1" (fireAll [0; 1; 1] (scheduleUpdate "j1" "second" warn d))
  = [("second", warn)].
Proof.
  exact (debounce_delivers_last (scheduleUpdate "j1" "first" info noDebouncer)
           "j1" "second" warn [0; 1; 1]
           (wf_scheduleUpdate "j1" "first" info _ wf_noDebouncer)).
Defined.

(** * Across the entry points *)

(** ** What the store reads, it keeps *)





(** ** Only the update tool arms the watchdog *)

Lemma index_watchdog (E : Env) (w : Watchdog) cmd job thread_ts o :
  preserves (fun s => watchdog s = w) (IndexTs.main E cmd job thread_ts o).
Proof.
  assert (Hput : forall j st, preserves (fun s => watchdog s = w)
                                (modify (put_thread j st)))
    by (intros j st s H; exact H).
  assert (Hsave : preserves (fun s => watchdog s = w) saveToDisk)
    by (intros s H; exact H).
  assert (Hnow : preserves (fun s => watchdog s = w) (now E))
    by (intros s H; exact H).
  assert (Hpost : forall c, preserves (fun s => watchdog s = w)
                              (request_post E c))
    by (intros c s H; exact H).
  assert (Hreply : forall c, preserves (fun s => watchdog s = w)
                               (request_reply E c))
    by (intros c s H; exact H).
  unfold IndexTs.main.
  destruct (negb (truthy_opt job)); [apply preserves_throw|].
  destruct cmd;
    unfold IndexTs.start, IndexTs.update, IndexTs.waiting, IndexTs.complete,
      IndexTs.fail, IndexTs.target_thread, IndexTs.ended, postParentMessage,
      postThreadReply, postComplete, postFail, postWaiting, updateStatus,
      create, isTerminal, get;
    preserve.
Qed.

(** X9.  No command of either command line, no tool other than update and no
    timer that comes due ever adds a pending timer: after any of them, the
    pending timers are among those that were pending before. *)
Theorem only_update_arms (E : Env) (op : Operation) (s : Sys) (t : Timer) :
  is_update_tool op = false ->
  In t (timers (watchdog (operate E op s))) ->
  In t (timers (watchdog s)).
Proof.
  intros Hop. destruct op as [job ttl ch meta mention|job c|cmd job o stdin
                              |cmd job thread_ts o|id]; simpl in *.
  - now rewrite start_watchdog.
  - rewrite mcp_watchdog_run. unfold mcp_watchdog.
    destruct (js_or _ _) as [ts|]; [|auto].
    destruct (truthy ts); [|auto].
    destruct c; try discriminate; auto; unfold wd_cancel;
      destruct (JsMap.get job (waitingNotifications (watchdog s))); auto;
      cbn [timers]; intros Hin; now apply In_clearTimeout in Hin.
  - now rewrite (cli_command_watchdog E (watchdog s) cmd job o stdin s eq_refl).
  - now rewrite (index_watchdog E (watchdog s) cmd job thread_ts o s eq_refl).
  - apply timers_fire.
Qed.

Lemma only_update_arms_witness :
  let E := sampleEnv alwaysUp in
  let s0 := snd (slack_thread_start E "j1" "Deploy" None None None
                   (mcp_boot None (initSys None))) in
  let s := snd (slack_thread_update E "j1" "Building" None None None None None
                  s0) in
  let t := mkTimer 0 "j1" "C0123456789" "1700000000.0" 30000%N in
  In t (timers (watchdog (operate E (OpTool "j1" (McpWaiting None None None)) s)))
  /\ In t (timers (watchdog s)).
Proof.
  cbv zeta.
  assert (H : In (mkTimer 0 "j1" "C0123456789" "1700000000.0" 30000%N)
                (timers (watchdog
                   (operate (sampleEnv alwaysUp)
                      (OpTool "j1" (McpWaiting None None None))
                      (snd (slack_thread_update (sampleEnv alwaysUp) "j1"
                              "Building" None None None None None
                              (snd (slack_thread_start (sampleEnv alwaysUp)
                                      "j1" "Deploy" None None None
                                      (mcp_boot None (initSys None))))))))))
    by (vm_compute; left; reflexivity).
  split; [exact H|].
  exact (only_update_arms (sampleEnv alwaysUp)
           (OpTool "j1" (McpWaiting None None None)) _ _ eq_refl H).
Defined.

(** ** The start command of [index.ts] *)

(** X27.  With a title and a [--meta] that parses, the start command of [index.ts]
    does what the start tool of the server does with the same title, channel,
    metadata and mention: the same state afterwards, and the same thread or
    the same error returned.  Without a title it stops before it reads the
    ledger. *)
Theorem index_start_agrees (E : Env) (job : string) (thread_ts : option string)
  (o : Options) (s : Sys) :
  truthy job = true ->
  o_meta o <> BadMeta ->
  (truthy_opt (o_title o) = true ->
   snd (IndexTs.main E cmd_start (Some job) thread_ts o s)
   = snd (slack_thread_start E job (or_default (o_title o) "") (o_channel o)
            (meta_of o) (Some (IndexTs.mention o)) s) /\
   same_thread (fst (IndexTs.main E cmd_start (Some job) thread_ts o s))
     (fst (slack_thread_start E job (or_default (o_title o) "") (o_channel o)
             (meta_of o) (Some (IndexTs.mention o)) s))) /\
  (truthy_opt (o_title o) = false ->
   IndexTs.main E cmd_start (Some job) thread_ts o s
   = (Thrown (MissingOption "title"), s)).
Proof.
  intros Hjob Hmeta. unfold IndexTs.main, IndexTs.start, slack_thread_start,
    IndexTs.channel_of, meta_of, postParentMessage, request_post, create, get,
    now, saveToDisk. unfold_m. cbv beta.
  cbn [truthy_opt or_default not_false]. rewrite Hjob. cbn [negb].
  split; intros Ht; rewrite Ht; cbn [negb]; [|reflexivity].
  destruct (JsMap.get job (threads (store s))) as [x|] eqn:Hg.
  - split; [reflexivity|]. simpl. split; [reflexivity|discriminate].
  - destruct (o_meta o) as [| |m] eqn:Hm; [|congruence|];
      destruct (IndexTs.mention o);
      match goal with
      | |- context [negb (post_ok ?a)] => destruct (post_ok a)
      end; sys; (split; [reflexivity|]); simpl;
      try reflexivity; (split; [reflexivity|discriminate]).
Qed.

Lemma index_start_agrees_witness :
  let E := sampleEnv alwaysUp in
  let s := initSys None in
  snd (IndexTs.main E cmd_start (Some "j1") None
         (with_title "Deploy" noOptions) s)
  = snd (slack_thread_start E "j1" "Deploy" None None (Some true) s) /\
  IndexTs.main E cmd_start (Some "j1") None noOptions s
  = (Thrown (MissingOption "title"), s).
Proof.
  cbv zeta.
  destruct (index_start_agrees (sampleEnv alwaysUp) "j1" None
              (with_title "Deploy" noOptions) (initSys None) eq_refl
              ltac:(discriminate)) as [H1 _].
  destruct (index_start_agrees (sampleEnv alwaysUp) "j1" None noOptions
              (initSys None) eq_refl ltac:(discriminate)) as [_ H2].
  split; [exact (proj1 (H1 eq_refl))|exact (H2 eq_refl)].
Defined.

(** ** Replies go where the thread is *)

(** X10.  For a job on file with a channel and a thread, every request that a
    reply tool of the server issues goes to the channel on file, also when
    the caller names another thread; and every request that a reply command
    of [cli.ts] issues goes to the channel and the thread on file, whatever
    [--channel] says. *)
Theorem replies_go_to_filed_channel (E : Env) (job : string) (s : Sys)
  (x : ThreadState) :
  JsMap.get job (threads (store s)) = Some x ->
  truthy (channel x) = true ->
  truthy (threadTs x) = true ->
  (forall c c0, In c0 (issued s (snd (mcp E job c s))) ->
     call_channel c0 = channel x) /\
  (forall o c c0, In c0 (issued s (snd (cli_reply E job o c s))) ->
     call_channel c0 = channel x /\ call_thread c0 = Some (threadTs x)).
Proof.
  intros Hg Hch Hts. split.
  - intros c c0 Hin. pose proof (mcp_run E job c s) as H. cbv zeta in H.
    destruct (js_or _ _) as [t|];
      [|destruct H as [_ Hs]; rewrite Hs, issued_same in Hin by reflexivity;
        contradiction].
    destruct (truthy t);
      [|destruct H as [_ Hs]; rewrite Hs, issued_same in Hin by reflexivity;
        contradiction].
    destruct (terminal_opt _).
    + destruct H as (_ & Hcalls & _). rewrite issued_same in Hin by assumption.
      contradiction.
    + destruct H as (_ & Hcalls & _).
      rewrite (issued_app _ _ _ Hcalls) in Hin. destruct Hin as [<-|[]].
      rewrite Hg. unfold mcp_request, targetChannel. cbn [option_map or_default].
      rewrite Hch. now destruct c.
  - intros o c c0 Hin.
    destruct (cli_reply_ready o c) eqn:Hready.
    + pose proof (cli_reply_stored E job o c s x Hg Hts Hready) as H.
      cbv zeta in H. destruct (terminal x).
      * destruct H as [_ Hs]. rewrite Hs, issued_same in Hin by reflexivity.
        contradiction.
      * destruct H as (_ & Hcalls & _).
        rewrite (issued_app _ _ _ Hcalls) in Hin. destruct Hin as [<-|[]].
        now destruct c.
    + destruct c; try discriminate. simpl in Hready, Hin.
      unfold cli_fail in Hin. rewrite Hready in Hin. simpl in Hin.
      rewrite issued_same in Hin by reflexivity. contradiction.
Qed.

Lemma replies_go_to_filed_channel_witness :
  let E := sampleEnv alwaysUp in
  let s := snd (slack_thread_start E "j1" "Deploy" None None None
                  (mcp_boot None (initSys None))) in
  let o := with_channel "C999" noOptions in
  let c0 := PostComplete "C0123456789" "1700000000.0" "Deploy" None None false in
  issued s (snd (cli_reply E "j1" o CliComplete s)) = [c0] /\
  call_channel c0 = "C0123456789" /\ call_thread c0 = Some "1700000000.0".
Proof.
  cbv zeta.
  set (s := snd (slack_thread_start (sampleEnv alwaysUp) "j1" "Deploy" None
                   None None _)).
  assert (Hl : issued s (snd (cli_reply (sampleEnv alwaysUp) "j1"
                                (with_channel "C999" noOptions) CliComplete s))
               = [PostComplete "C0123456789" "1700000000.0" "Deploy" None None
                    false])
    by (vm_compute; reflexivity).
  split; [exact Hl|].
  destruct (JsMap.get "j1" (threads (store s))) as [x|] eqn:Hg;
    [|vm_compute in Hg; discriminate].
  assert (Hx : channel x = "C0123456789" /\ threadTs x = "1700000000.0")
    by (vm_compute in Hg; injection Hg as <-; split; reflexivity).
  destruct Hx as [Hch Hts].
  destruct (replies_go_to_filed_channel (sampleEnv alwaysUp) "j1" s x Hg
              ltac:(rewrite Hch; reflexivity) ltac:(rewrite Hts; reflexivity))
    as [_ Hcli].
  destruct (Hcli (with_channel "C999" noOptions) CliComplete
              (PostComplete "C0123456789" "1700000000.0" "Deploy" None None
                 false)) as [H1 H2].
  { rewrite Hl. now left. }
  rewrite Hch in H1. rewrite Hts in H2. split; assumption.
Defined.
